(** * generate_data.py: synthetic multi-sensor patient data

    A shallow embedding of [generate_data.py] and the properties its
    specification states about it.

    Modelling choices.
    - Python numbers.  An [int] is a [Z].  A [float] is modelled by the
      rational number it denotes, a [Q]; arithmetic on floats is taken to be
      exact (IEEE-754 rounding of each operation is not modelled), and a
      decimal literal such as [0.03] denotes 3/100.
    - The module [random].  The process-wide generator is an explicit state
      [G] threaded through every draw, in the order of the calls of the
      source.  The generator itself (the Mersenne Twister) is an interface,
      [PyRandom], with the ranges the library documents.
    - The module [math].  [math.sin] and [math.sqrt] are an interface,
      [PyMath].
    - [datetime].  An aware datetime is an instant, in microseconds since the
      Unix epoch, with the UTC offset of its [tzinfo]; a [timedelta] is a
      number of microseconds.  The textual rendering of a datetime
      ([isoformat], [strftime]) is kept symbolic.
    - [while] loops take fuel; each generator is shown to return once the
      fuel covers its loop.
    - Limits.  The rationals carry neither the rounding of a double nor the
      range of [datetime]: a sum of twenty steps of 0.85 is 17 here and just
      below 17 in double arithmetic, [int(1.13 * 3600)] is 4068 here and
      4067 there, and [BASE_TIME] plus three million days is a datetime here
      and an [OverflowError] there.  Where a statement would depend on
      either, it is made for configurations [within_limits] and leaves each
      tick step a [tolerance]; where it compares a Unix time with the
      instant it denotes, it is made for sessions inside a [unix_window]. *)

From Stdlib Require Import ZArith QArith Qround Qabs Qminmax Lia Lqa.
From Stdlib Require Import Bool List String Sorted Permutation.
Import ListNotations.

Local Open Scope Q_scope.

(** ** Python numbers *)

(** [x < y] on numbers. *)
Definition Qltb (x y : Q) : bool := negb (Qle_bool y x).

(** [int(x)] of a float: truncation towards zero. *)
Definition py_int (x : Q) : Z := Z.quot (Qnum x) (Zpos (Qden x)).

(** [x % m] on floats, for a positive [m]: the result has the sign of [m]. *)
Definition py_mod (x m : Q) : Q := x - inject_Z (Qfloor (x / m)) * m.

(** The integer nearest to [x], a tie going to the even neighbour. *)
Definition round_half_even (x : Q) : Z :=
  let f := Qfloor x in
  let d := x - inject_Z f in
  if Qltb d (1 # 2) then f
  else if Qltb (1 # 2) d then (f + 1)%Z
  else if Z.even f then f else (f + 1)%Z.

(** [round(x, ndigits)] of a float: the nearest multiple of [10 ** -ndigits],
    ties to even. *)
Definition py_round (x : Q) (ndigits : positive) : Q :=
  let scale := (10 ^ ndigits)%positive in
  round_half_even (x * inject_Z (Zpos scale)) # scale.

(** ** The modules [random] and [math] *)

(** The process-wide generator of the module [random]: [seed n] is its state
    after [random.seed(n)]; every draw returns a value and the next state. *)
Class PyRandom (G : Type) : Type := {
  seed : Z -> G;
  random : G -> Q * G;
  gauss : Q -> Q -> G -> Q * G;
  randint : Z -> Z -> G -> Z * G;
  (** [random.random()] is in the half-open interval [0.0, 1.0). *)
  random_range : forall g, 0 <= fst (random g) /\ fst (random g) < 1;
  (** [random.randint(a, b)] is an integer N with a <= N <= b. *)
  randint_range : forall a b g, (a <= b)%Z ->
    (a <= fst (randint a b g) <= b)%Z
}.

(** [math.sin], [math.sqrt]. *)
Class PyMath : Type := {
  math_sin : Q -> Q;
  math_sqrt : Q -> Q
}.

(** [math.pi], the double 0x400921FB54442D18. *)
Definition math_pi : Q := 884279719003555 # 281474976710656.

(** Computations that draw from the generator. *)
Definition Rand (G A : Type) : Type := G -> A * G.

Definition ret {G A} (a : A) : Rand G A := fun g => (a, g).

Definition bind {G A B} (c : Rand G A) (k : A -> Rand G B) : Rand G B :=
  fun g => let (a, g') := c g in k a g'.

Declare Scope rand_scope.
Delimit Scope rand_scope with rand.
Notation "x <- c ;; k" := (bind c (fun x => k))
  (at level 61, c at next level, right associativity) : rand_scope.
Notation "' p <- c ;; k" := (bind c (fun x => let 'p := x in k))
  (at level 61, p pattern, c at next level, right associativity) : rand_scope.
Local Open Scope rand_scope.

(** Loops with fuel: [None] when the fuel runs out. *)
Definition Gen (G A : Type) : Type := G -> option (A * G).

Definition gret {G A} (a : A) : Gen G A := fun g => Some (a, g).

Definition gbind {G A B} (c : Gen G A) (k : A -> Gen G B) : Gen G B :=
  fun g => match c g with
           | Some (a, g') => k a g'
           | None => None
           end.

Section Model.

Context {G : Type} {RNG : PyRandom G} {M : PyMath}.

(** [random.uniform(a, b)], which the library computes as
    [a + (b - a) * random()]. *)
Definition uniform (a b : Q) : Rand G Q :=
  r <- random ;; ret (a + (b - a) * r).

(** ** Patient configurations *)

(** A [timedelta], in microseconds. *)
Definition timedelta : Type := Z.

(** [timedelta(minutes=m, seconds=s)] with integer arguments. *)
Definition timedelta_of (minutes seconds : Z) : timedelta :=
  ((minutes * 60 + seconds) * 1000000)%Z.

(** [timedelta(seconds=x)] with a float argument: rounded to the nearest
    microsecond, ties to even. *)
Definition timedelta_seconds (x : Q) : timedelta :=
  round_half_even (x * 1000000).

(** [td.total_seconds()]. *)
Definition total_seconds (td : timedelta) : Q := inject_Z td / 1000000.

(** An aware [datetime]. *)
Record datetime : Type := {
  instant_us : Z;    (* microseconds since 1970-01-01T00:00:00Z *)
  utcoffset_s : Z    (* the offset of its tzinfo, in seconds *)
}.

(** [dt + td]. *)
Definition datetime_add (dt : datetime) (td : timedelta) : datetime :=
  {| instant_us := instant_us dt + td; utcoffset_s := utcoffset_s dt |}.

(** [dt.timestamp()]: seconds since the epoch, as a float. *)
Definition dt_timestamp (dt : datetime) : Q :=
  inject_Z (instant_us dt) / 1000000.

(** [dt.astimezone(timezone(timedelta(hours=h)))]: the same instant. *)
Definition astimezone (dt : datetime) (hours : Z) : datetime :=
  {| instant_us := instant_us dt; utcoffset_s := (hours * 3600)%Z |}.

(** [BASE_TIME = datetime(2024, 3, 15, 8, 0, 0, tzinfo=timezone.utc)]. *)
Definition BASE_TIME : datetime :=
  {| instant_us := 1710489600000000; utcoffset_s := 0 |}.

(** One entry of [PATIENT_CONFIGS]; a gap is [(start_sec, duration_sec)]. *)
Record config : Type := {
  hr_offset : timedelta;
  movement_offset : timedelta;
  spo2_offset : timedelta;
  temp_offset : timedelta;
  load_offset : timedelta;
  duration_hours : Q;
  activity_pattern : string;
  hr_gaps : list (Z * Z);
  movement_gaps : list (Z * Z);
  spo2_gaps : list (Z * Z);
  temp_gaps : list (Z * Z);
  load_gaps : list (Z * Z)
}.

Definition PATIENT_CONFIGS : list (string * config) :=
  [ ("patient_001"%string,
     {| hr_offset := timedelta_of 0 0;
        movement_offset := timedelta_of 7 23;
        spo2_offset := timedelta_of 3 45;
        temp_offset := timedelta_of (-15) 0;
        load_offset := timedelta_of 12 8;
        duration_hours := 2.5;
        activity_pattern := "morning_routine";
        hr_gaps := [(1200, 420); (4200, 180); (6300, 540)]%Z;
        movement_gaps := [(800, 300); (2400, 600); (5100, 240)]%Z;
        spo2_gaps := [(1800, 1200); (5400, 300)]%Z;
        temp_gaps := [(3000, 180)]%Z;
        load_gaps := [(900, 480); (3600, 360)]%Z |});
    ("patient_002"%string,
     {| hr_offset := timedelta_of 0 0;
        movement_offset := timedelta_of 15 42;
        spo2_offset := timedelta_of 5 10;
        temp_offset := timedelta_of (-8) 0;
        load_offset := timedelta_of 2 30;
        duration_hours := 3.0;
        activity_pattern := "exercise_session";
        hr_gaps := [(2100, 600); (5400, 900); (8400, 300)]%Z;
        movement_gaps := [(1500, 180); (4800, 720); (7200, 240)]%Z;
        spo2_gaps := [(3000, 480); (6600, 600)]%Z;
        temp_gaps := [(4200, 300); (7800, 180)]%Z;
        load_gaps := [(1800, 240); (5400, 420)]%Z |});
    ("patient_003"%string,
     {| hr_offset := timedelta_of 0 0;
        movement_offset := timedelta_of 4 15;
        spo2_offset := timedelta_of 22 30;
        temp_offset := timedelta_of (-25) 0;
        load_offset := timedelta_of 8 45;
        duration_hours := 2.0;
        activity_pattern := "resting";
        hr_gaps := [(1500, 300); (3600, 480)]%Z;
        movement_gaps := [(900, 420); (2700, 180); (4500, 360)]%Z;
        spo2_gaps := [(600, 540)]%Z;
        temp_gaps := [(1800, 240); (4200, 180)]%Z;
        load_gaps := [(2100, 300); (4800, 240)]%Z |}) ].

(** ** Pattern models *)

(** [add_noise(value, noise_level)]. *)
Definition add_noise (value noise_level : Q) : Rand G Q :=
  n <- gauss 0 noise_level ;; ret (value * (1 + n)).

(** [t_seconds / (3 * 3600)], the phase clock of the exercise pattern. *)
Definition normalized (t_seconds : Q) : Q := t_seconds / inject_Z (3 * 3600).

(** The value of [base_hr] when [simulate_heart_rate] reaches its [return]. *)
Definition heart_rate_base (t_seconds : Q) (pattern : string) : Q :=
  if (pattern =? "morning_routine")%string then
    let phase := py_mod t_seconds 3600 / 3600 in
    let activity_component := 20 * math_sin (phase * math_pi * 2) in
    65 + activity_component
  else if (pattern =? "exercise_session")%string then
    let normalized_t := normalized t_seconds in
    if Qltb normalized_t 0.3 then 70 + normalized_t * 100
    else if Qltb normalized_t 0.7 then 130 + 20 * math_sin (normalized_t * 20)
    else 130 - (normalized_t - 0.7) * 200
  else 60 + 5 * math_sin (t_seconds / 600).

Definition simulate_heart_rate (t_seconds : Q) (pattern : string) : Rand G Z :=
  v <- add_noise (heart_rate_base t_seconds pattern) 0.03 ;;
  ret (Z.max 45 (Z.min 185 (py_int v))).

Definition gravity : Q := 9.81.

(** The accelerations [x, y, z] of [simulate_movement] before rounding. *)
Definition movement_axes (t_seconds : Q) (pattern : string)
  : Rand G (Q * Q * Q) :=
  if (pattern =? "exercise_session")%string then
    let normalized_t := normalized t_seconds in
    if Qltb 0.3 normalized_t && Qltb normalized_t 0.7 then
      ux <- uniform (-2) 2 ;; x <- add_noise ux 0.5 ;;
      uy <- uniform (-1) 1 ;; y <- add_noise (- gravity + uy) 0.1 ;;
      uz <- uniform (-2) 2 ;; z <- add_noise uz 0.5 ;;
      ret (x, y, z)
    else
      ux <- uniform (-0.2) 0.2 ;; x <- add_noise ux 0.3 ;;
      y <- add_noise (- gravity) 0.01 ;;
      uz <- uniform (-0.2) 0.2 ;; z <- add_noise uz 0.3 ;;
      ret (x, y, z)
  else if (pattern =? "morning_routine")%string then
    r <- random ;;
    '(x, z) <- (if Qltb r 0.1 then
                  ux <- uniform (-1) 1 ;; x <- add_noise ux 0.3 ;;
                  uz <- uniform (-1) 1 ;; z <- add_noise uz 0.3 ;;
                  ret (x, z)
                else
                  x <- add_noise 0 0.1 ;;
                  z <- add_noise 0 0.1 ;;
                  ret (x, z)) ;;
    y <- add_noise (- gravity) 0.01 ;;
    ret (x, y, z)
  else
    x <- add_noise 0 0.05 ;;
    y <- add_noise (- gravity) 0.005 ;;
    z <- add_noise 0 0.05 ;;
    ret (x, y, z).

(** [math.sqrt(x**2 + y**2 + z**2)]. *)
Definition euclidean_norm (x y z : Q) : Q := math_sqrt (x ^ 2 + y ^ 2 + z ^ 2).

Definition simulate_movement (t_seconds : Q) (pattern : string)
  : Rand G (Q * Q * Q * Q) :=
  '(x, y, z) <- movement_axes t_seconds pattern ;;
  let magnitude := euclidean_norm x y z in
  ret (py_round x 3, py_round y 3, py_round z 3, py_round magnitude 3).

Definition simulate_spo2 (t_seconds : Q) (pattern : string) : Rand G Q :=
  base_spo2 <-
    (if (pattern =? "exercise_session")%string then
       let normalized_t := normalized t_seconds in
       if Qltb 0.3 normalized_t && Qltb normalized_t 0.7 then
         u <- uniform (-1) 1 ;; ret (96 + u)
       else
         u <- uniform (-0.5) 0.5 ;; ret (98 + u)
     else
       u <- uniform (-1) 1 ;; ret (98 + u)) ;;
  v <- add_noise base_spo2 0.01 ;;
  ret (py_round (Qmax 90 (Qmin 100 v)) 1).

Definition simulate_temperature (t_seconds : Q) (pattern : string)
  : Rand G Q :=
  let base_temp :=
    if (pattern =? "exercise_session")%string then
      let normalized_t := normalized t_seconds in
      if Qltb 0.3 normalized_t
      then 36.5 + Qmin 1.5 ((normalized_t - 0.3) * 3)
      else 36.5
    else 36.5 in
  v <- add_noise base_temp 0.005 ;;
  ret (py_round v 2).

Definition simulate_load (t_seconds : Q) (hr : Z) (pattern : string)
  : Rand G Z :=
  if (pattern =? "exercise_session")%string then
    let normalized_t := normalized t_seconds in
    if Qltb 0.3 normalized_t && Qltb normalized_t 0.7 then
      n <- randint (-5) 5 ;;
      ret (Z.min 100 (Z.max 0
             (py_int (50 + inject_Z (hr - 100) * 0.5 + inject_Z n))))
    else
      n <- randint (-5) 5 ;;
      ret (Z.max 0 (20 + n))
  else if (pattern =? "morning_routine")%string then
    n <- randint (-3) 3 ;;
    ret (Z.max 0 (Z.min 100
           (py_int (25 + inject_Z (hr - 70) * 0.3 + inject_Z n))))
  else
    n <- randint (-3) 3 ;;
    ret (Z.max 0 (10 + n)).

(** ** The imperfection layer *)

Fixpoint is_in_gap (t_seconds : Q) (gaps : list (Z * Z)) : bool :=
  match gaps with
  | [] => false
  | (gap_start, gap_duration) :: rest =>
      if Qle_bool (inject_Z gap_start) t_seconds
         && Qltb t_seconds (inject_Z (gap_start + gap_duration))
      then true
      else is_in_gap t_seconds rest
  end.

Definition should_have_micro_dropout (probability : Q) : Rand G bool :=
  r <- random ;; ret (Qltb r probability).

(** ** The sampling loop

    The five generators share one loop,
<<
    data = []; t = 0
    while t < duration:
        if not is_in_gap(t, gaps) and not should_have_micro_dropout(p):
            ... data.append(record)
        t += random.uniform(lo, hi)
    return data
>>
    and differ in the body that builds the record, which may read and update
    variables that live across iterations ([ambient_temp] of the temperature
    generator): the loop state [S].  The loop below returns the tick schedule:
    every value [t] takes at the head of the loop, with the record appended to
    [data] at that tick, if any. *)

Section Loop.

Context {S R : Type}.
Variable duration : Z.
Variable gaps : list (Z * Z).
Variable probability : Q.
Variable body : Q -> S -> Rand G (R * S).
Variables lo hi : Q.

(** One pass through the body of the [while]: the record appended, if any,
    the loop state and the next value of [t].  The dropout draw is made only
    outside a gap ([and] short-circuits). *)
Definition sample_tick (t : Q) (st : S) : Rand G (option R * S * Q) :=
  '(emitted, st') <-
    (if negb (is_in_gap t gaps) then
       drop <- should_have_micro_dropout probability ;;
       if negb drop then
         '(r, st') <- body t st ;; ret (Some r, st')
       else ret (None, st)
     else ret (None, st)) ;;
  step <- uniform lo hi ;;
  ret (emitted, st', t + step).

Fixpoint sample_loop (fuel : nat) (t : Q) (st : S)
  : Gen G (list (Q * option R)) :=
  fun g =>
  match fuel with
  | O => None
  | Datatypes.S fuel' =>
      if Qltb t (inject_Z duration) then
        let '(emitted, st', t', g') := sample_tick t st g in
        match sample_loop fuel' t' st' g' with
        | Some (schedule, g'') => Some ((t, emitted) :: schedule, g'')
        | None => None
        end
      else Some ([], g)
  end.

End Loop.

(** A body that keeps no state across iterations. *)
Definition stateless {R} (body : Q -> Rand G R)
  : Q -> unit -> Rand G (R * unit) :=
  fun t _ => r <- body t ;; ret (r, tt).

(** The ticks of a schedule at which a record was appended, with the record. *)
Fixpoint emitted {R} (schedule : list (Q * option R)) : list (Q * R) :=
  match schedule with
  | [] => []
  | (t, Some r) :: rest => (t, r) :: emitted rest
  | (_, None) :: rest => emitted rest
  end.

(** The list [data] a generator returns. *)
Definition records {R} (schedule : list (Q * option R)) : list R :=
  map snd (emitted schedule).

Definition with_records {R} (c : Gen G (list (Q * option R)))
  : Gen G (list R) :=
  gbind c (fun schedule => gret (records schedule)).

(** What holds of every tick [p] of a schedule started at [t0]: it is at or
    after [t0] and before [duration], and a record is appended at it only
    outside the gaps, where it satisfies [P]. *)
Definition tick_ok {R} (duration : Z) (gaps : list (Z * Z))
  (P : Q -> R -> Prop) (t0 : Q) (p : Q * option R) : Prop :=
  (t0 <= fst p /\ fst p < inject_Z duration) /\
  (forall r, snd p = Some r -> is_in_gap (fst p) gaps = false /\ P (fst p) r).

(** The tick [q] is at least [lo] after the tick [p]. *)
Definition spaced (lo : Q) {A} (p q : Q * A) : Prop := fst p + lo <= fst q.

(** [int(config["duration_hours"] * 3600)]. *)
Definition session_duration (cfg : config) : Z :=
  py_int (duration_hours cfg * 3600).

(** ** Heart rate *)

Record heart_rate_record : Type := {
  hr_timestamp : datetime;   (* rendered by [isoformat()] *)
  bpm : Z;
  confidence : Q
}.

(** The body of the [if] of [generate_heart_rate_data], at tick [t]. *)
Definition heart_rate_sample (start_time : datetime) (drift_rate : Q)
  (pattern : string) (t : Q) : Rand G heart_rate_record :=
  let actual_t := t * (1 + drift_rate) in
  let timestamp := datetime_add start_time (timedelta_seconds actual_t) in
  hr <- simulate_heart_rate t pattern ;;
  r1 <- random ;;
  '(hr, confidence) <-
    (if Qltb r1 0.008 then ret ((-1)%Z, 0.0)
     else
       r2 <- random ;;
       if Qltb r2 0.03 then
         u <- uniform 0.2 0.5 ;; ret (hr, py_round u 2)
       else
         u <- uniform 0.85 0.99 ;; ret (hr, py_round u 2)) ;;
  ret {| hr_timestamp := timestamp; bpm := hr; confidence := confidence |}.

(** The [while] loop of [generate_heart_rate_data], for a given drift. *)
Definition heart_rate_loop (fuel : nat) (cfg : config) (drift_rate : Q)
  : Gen G (list (Q * option heart_rate_record)) :=
  let start_time := datetime_add BASE_TIME (hr_offset cfg) in
  sample_loop (session_duration cfg) (hr_gaps cfg) 0.005
    (stateless (heart_rate_sample start_time drift_rate (activity_pattern cfg)))
    0.85 1.15 fuel 0 tt.

Definition heart_rate_ticks (fuel : nat) (cfg : config)
  : Gen G (list (Q * option heart_rate_record)) :=
  fun g =>
  let (drift_rate, g') := uniform (-0.0001) 0.0001 g in
  heart_rate_loop fuel cfg drift_rate g'.

Definition generate_heart_rate_data (fuel : nat) (cfg : config)
  : Gen G (list heart_rate_record) :=
  with_records (heart_rate_ticks fuel cfg).

(** A schedule entry without the reported timestamp. *)
Definition physiology (p : Q * option heart_rate_record)
  : Q * option (Z * Q) :=
  (fst p, option_map (fun r => (bpm r, confidence r)) (snd p)).

(** ** Movement *)

(** [x], [y], [z] and [magnitude] are a float or [None]. *)
Record movement_record : Type := {
  ts : Z;
  mv_x : option Q;
  mv_y : option Q;
  mv_z : option Q;
  magnitude : option Q
}.

(** Which corruption branch a Bernoulli cascade took. *)
Inductive corruption : Type := NoCorruption | FirstBranch | SecondBranch.

(** [if random.random() < p1: ... elif random.random() < p2: ...]: the second
    draw is made only when the first test fails. *)
Definition corruption_branch (p1 p2 : Q) : Rand G corruption :=
  r1 <- random ;;
  if Qltb r1 p1 then ret FirstBranch
  else
    r2 <- random ;;
    if Qltb r2 p2 then ret SecondBranch else ret NoCorruption.

(** The body of the [if] of [generate_movement_data], with the branch taken. *)
Definition movement_sample_branch (start_time : datetime) (pattern : string)
  (t : Q) : Rand G (movement_record * corruption) :=
  let timestamp_ms :=
    py_int (dt_timestamp (datetime_add start_time (timedelta_seconds t))
            * 1000) in
  '(x, y, z, mag) <- simulate_movement t pattern ;;
  let record := {| ts := timestamp_ms; mv_x := Some x; mv_y := Some y;
                   mv_z := Some z; magnitude := Some mag |} in
  branch <- corruption_branch 0.004 0.002 ;;
  ret (match branch with
       | FirstBranch =>
           {| ts := ts record; mv_x := None; mv_y := mv_y record;
              mv_z := mv_z record; magnitude := None |}
       | SecondBranch =>
           {| ts := ts record; mv_x := Some 999.99; mv_y := Some 999.99;
              mv_z := Some 999.99; magnitude := Some 999.99 |}
       | NoCorruption => record
       end, branch).

Definition movement_sample (start_time : datetime) (pattern : string)
  (t : Q) : Rand G movement_record :=
  '(record, _) <- movement_sample_branch start_time pattern t ;; ret record.

Definition movement_ticks (fuel : nat) (cfg : config)
  : Gen G (list (Q * option movement_record)) :=
  let start_time := datetime_add BASE_TIME (movement_offset cfg) in
  sample_loop (session_duration cfg) (movement_gaps cfg) 0.003
    (stateless (movement_sample start_time (activity_pattern cfg)))
    0.08 0.12 fuel 0 tt.

Definition generate_movement_data (fuel : nat) (cfg : config)
  : Gen G (list movement_record) :=
  with_records (movement_ticks fuel cfg).

(** ** Blood oxygen *)

Record blood_oxygen_record : Type := {
  time : Z;
  spo2 : Q;
  pulse_quality : string
}.

(** The first [if] chain on [spo2] in [generate_blood_oxygen_data]. *)
Definition quality_of (spo2 : Q) : string :=
  if Qle_bool 97 spo2 then "good"
  else if Qle_bool 94 spo2 then "fair"
  else "poor".

(** The body of the [if] of [generate_blood_oxygen_data], with the branch
    taken. *)
Definition blood_oxygen_sample_branch (start_time : datetime)
  (pattern : string) (t : Q) : Rand G (blood_oxygen_record * corruption) :=
  let timestamp_sec :=
    py_int (dt_timestamp (datetime_add start_time (timedelta_seconds t))) in
  spo2 <- simulate_spo2 t pattern ;;
  let quality := quality_of spo2 in
  branch <- corruption_branch 0.005 0.003 ;;
  '(spo2, quality) <-
    match branch with
    | FirstBranch => u <- uniform 65 84 ;; ret (py_round u 1, "poor"%string)
    | SecondBranch => u <- uniform 101 110 ;; ret (py_round u 1, "poor"%string)
    | NoCorruption => ret (spo2, quality)
    end ;;
  ret ({| time := timestamp_sec; spo2 := spo2; pulse_quality := quality |},
       branch).

Definition blood_oxygen_sample (start_time : datetime) (pattern : string)
  (t : Q) : Rand G blood_oxygen_record :=
  '(record, _) <- blood_oxygen_sample_branch start_time pattern t ;;
  ret record.

Definition blood_oxygen_ticks (fuel : nat) (cfg : config)
  : Gen G (list (Q * option blood_oxygen_record)) :=
  let start_time := datetime_add BASE_TIME (spo2_offset cfg) in
  sample_loop (session_duration cfg) (spo2_gaps cfg) 0.01
    (stateless (blood_oxygen_sample start_time (activity_pattern cfg)))
    1.5 2.5 fuel 0 tt.

Definition generate_blood_oxygen_data (fuel : nat) (cfg : config)
  : Gen G (list blood_oxygen_record) :=
  with_records (blood_oxygen_ticks fuel cfg).

(** ** Skin temperature *)

Record temperature_record : Type := {
  recorded_at : datetime;   (* rendered by [isoformat()] *)
  temp_celsius : Q;
  ambient_temp : Q
}.

(** [int(config["duration_hours"] * 3600 + extra_duration)]. *)
Definition temperature_duration (cfg : config) : Z :=
  let extra_duration := Qabs (total_seconds (temp_offset cfg)) + 600 in
  py_int (duration_hours cfg * 3600 + extra_duration).

(** The body of the [if] of [generate_temperature_data]; the loop state is
    the variable [ambient_temp]. *)
Definition temperature_sample (start_time : datetime) (pattern : string)
  (t : Q) (ambient : Q) : Rand G (temperature_record * Q) :=
  let timestamp :=
    astimezone (datetime_add start_time (timedelta_seconds t)) (-5) in
  temp <- simulate_temperature t pattern ;;
  branch <- corruption_branch 0.015 0.01 ;;
  temp <-
    match branch with
    | FirstBranch => u <- uniform 3 8 ;; ret (py_round (temp + u) 2)
    | SecondBranch => u <- uniform 2 5 ;; ret (py_round (temp - u) 2)
    | NoCorruption => ret temp
    end ;;
  d <- uniform (-0.02) 0.02 ;;
  let ambient := Qmax 18 (Qmin 28 (ambient + d)) in
  ret ({| recorded_at := timestamp; temp_celsius := temp;
          ambient_temp := py_round ambient 1 |}, ambient).

Definition temperature_ticks (fuel : nat) (cfg : config)
  : Gen G (list (Q * option temperature_record)) :=
  fun g =>
  let start_time := datetime_add BASE_TIME (temp_offset cfg) in
  let (u, g') := uniform 20 24 g in
  let ambient := py_round u 1 in
  sample_loop (temperature_duration cfg) (temp_gaps cfg) 0.015
    (temperature_sample start_time (activity_pattern cfg))
    8 14 fuel 0 ambient g'.

Definition generate_temperature_data (fuel : nat) (cfg : config)
  : Gen G (list temperature_record) :=
  with_records (temperature_ticks fuel cfg).

(** ** Physical load *)

(** The three renderings of the load timestamp. *)
Inductive load_timestamp : Type :=
| iso_seconds (dt : datetime)            (* "%Y-%m-%dT%H:%M:%SZ" *)
| iso_millis (dt : datetime) (ms : Z)    (* "%Y-%m-%dT%H:%M:%S." ms "Z" *)
| slash_seconds (dt : datetime).         (* "%Y/%m/%d %H:%M:%S" *)

Record load_record : Type := {
  ld_timestamp : load_timestamp;
  load_score : Z;
  activity_type : string;
  hr_derived : bool
}.

Definition activity_of (load : Z) : string :=
  if (load <? 20)%Z then "rest"
  else if (load <? 50)%Z then "walk"
  else "exercise".

(** The body of the [if] of [generate_load_data]. *)
Definition load_sample (start_time : datetime) (pattern : string) (t : Q)
  : Rand G load_record :=
  hr <- simulate_heart_rate t pattern ;;
  load <- simulate_load t hr pattern ;;
  let timestamp := datetime_add start_time (timedelta_seconds t) in
  rand <- random ;;
  ts_str <-
    (if Qltb rand 0.3 then ret (iso_seconds timestamp)
     else if Qltb rand 0.6 then
       ms <- randint 0 999 ;; ret (iso_millis timestamp ms)
     else ret (slash_seconds timestamp)) ;;
  let activity := activity_of load in
  r <- random ;;
  let '(load, activity) :=
    if Qltb r 0.015 then ((-1)%Z, "unknown"%string) else (load, activity) in
  d <- random ;;
  ret {| ld_timestamp := ts_str; load_score := load;
         activity_type := activity; hr_derived := Qltb d 0.7 |}.

Definition load_ticks (fuel : nat) (cfg : config)
  : Gen G (list (Q * option load_record)) :=
  let start_time := datetime_add BASE_TIME (load_offset cfg) in
  sample_loop (session_duration cfg) (load_gaps cfg) 0.012
    (stateless (load_sample start_time (activity_pattern cfg)))
    4 6 fuel 0 tt.

Definition generate_load_data (fuel : nat) (cfg : config)
  : Gen G (list load_record) :=
  with_records (load_ticks fuel cfg).

(** ** The orchestrator *)

(** What [main] hands to [save_csv] and [save_json] for one patient. *)
Record patient_files : Type := {
  heart_rate_csv : list heart_rate_record;
  movement_json : list movement_record;
  blood_oxygen_csv : list blood_oxygen_record;
  skin_temperature_csv : list temperature_record;
  load_json : list load_record
}.

(** One iteration of the [for] of [main]. *)
Definition generate_patient (fuel : nat) (cfg : config)
  : Gen G patient_files :=
  gbind (generate_heart_rate_data fuel cfg) (fun hr_data =>
  gbind (generate_movement_data fuel cfg) (fun movement_data =>
  gbind (generate_blood_oxygen_data fuel cfg) (fun spo2_data =>
  gbind (generate_temperature_data fuel cfg) (fun temp_data =>
  gbind (generate_load_data fuel cfg) (fun load_data =>
  gret {| heart_rate_csv := hr_data;
          movement_json := movement_data;
          blood_oxygen_csv := spo2_data;
          skin_temperature_csv := temp_data;
          load_json := load_data |}))))).

(** [for patient_id, config in configs.items(): ...], in insertion order. *)
Fixpoint generate_all (fuel : nat) (configs : list (string * config))
  : Gen G (list (string * patient_files)) :=
  match configs with
  | [] => gret []
  | (patient_id, cfg) :: rest =>
      gbind (generate_patient fuel cfg) (fun files =>
      gbind (generate_all fuel rest) (fun others =>
      gret ((patient_id, files) :: others)))
  end.

(** A run of the script: [random.seed(42)] at import, then [main()]. *)
Definition main (fuel : nat) : option (list (string * patient_files)) :=
  match generate_all fuel PATIENT_CONFIGS (seed 42) with
  | Some (out, _) => Some out
  | None => None
  end.

(** ** The offset summary *)

(** [x // m] on floats. *)
Definition py_floordiv (x m : Q) : Q := inject_Z (Qfloor (x / m)).

(** The two numbers [print_offset_summary] writes for an offset after "T+":
    [int(td.total_seconds() // 60)] and [int(td.total_seconds() % 60)]. *)
Definition offset_fields (td : timedelta) : Z * Z :=
  (py_int (py_floordiv (total_seconds td) 60),
   py_int (py_mod (total_seconds td) 60)).

(** The two numbers it writes for the temperature offset, after "T":
    [int(td.total_seconds() // 60)] and [abs(int(td.total_seconds() % 60))]. *)
Definition temperature_offset_fields (td : timedelta) : Z * Z :=
  (py_int (py_floordiv (total_seconds td) 60),
   Z.abs (py_int (py_mod (total_seconds td) 60))).

(** ** Contracts of the records *)

(** The contract of one heart-rate record: [bpm] is the error value -1 or
    within [45, 185]; [confidence] is 0.0 exactly for the error value and
    within [0.2, 0.99] otherwise. *)
Definition heart_rate_record_ok (r : heart_rate_record) : Prop :=
  (bpm r = (-1)%Z \/ (45 <= bpm r <= 185)%Z) /\
  (confidence r == 0 <-> bpm r = (-1)%Z) /\
  (bpm r <> (-1)%Z -> 0.2 <= confidence r /\ confidence r <= 0.99).

(** What the blood-oxygen contract says of a record, by the branch of the
    error injection that fired: without injection the reading is within
    [90, 100] and classified by the thresholds 97 and 94; the first branch
    writes a low reading, the second a high one, both with quality "poor". *)
Definition blood_oxygen_record_ok (r : blood_oxygen_record)
  (branch : corruption) : Prop :=
  match branch with
  | NoCorruption =>
      (90 <= spo2 r /\ spo2 r <= 100) /\
      ((97 <= spo2 r /\ pulse_quality r = "good"%string) \/
       (94 <= spo2 r /\ spo2 r < 97 /\ pulse_quality r = "fair"%string) \/
       (spo2 r < 94 /\ pulse_quality r = "poor"%string))
  | FirstBranch =>
      (65 <= spo2 r /\ spo2 r <= 84) /\ pulse_quality r = "poor"%string
  | SecondBranch =>
      (101 <= spo2 r /\ spo2 r <= 110) /\ pulse_quality r = "poor"%string
  end.

(** The magnitude of a record is the norm of the axis values it carries,
    rounded to three decimals. *)
Definition magnitude_of_emitted_axes (r : movement_record) : Prop :=
  exists x y z mag,
    mv_x r = Some x /\ mv_y r = Some y /\ mv_z r = Some z /\
    magnitude r = Some mag /\
    mag == py_round (euclidean_norm x y z) 3.

(** The magnitude of a record is the rounded norm of the axis values
    [x, y, z] before their rounding, and the record carries their
    roundings. *)
Definition magnitude_of_raw_axes (r : movement_record) (x y z : Q) : Prop :=
  mv_x r = Some (py_round x 3) /\
  mv_y r = Some (py_round y 3) /\
  mv_z r = Some (py_round z 3) /\
  magnitude r = Some (py_round (euclidean_norm x y z) 3).

(** The record [r] is the one some draw of the blood-oxygen body makes for
    [cfg], and meets the contract for the branch that fired in that draw;
    it is "poor" whenever its reading is below 94 or outside [90, 100]. *)
Definition blood_oxygen_contract (cfg : config) (r : blood_oxygen_record)
  : Prop :=
  (exists t g0,
     let rb := fst (blood_oxygen_sample_branch
                      (datetime_add BASE_TIME (spo2_offset cfg))
                      (activity_pattern cfg) t g0) in
     r = fst rb /\ blood_oxygen_record_ok r (snd rb)) /\
  (spo2 r < 94 \/ spo2 r < 90 \/ 100 < spo2 r ->
   pulse_quality r = "poor"%string).

(** The record [r] is the one some draw of the movement body makes for
    [cfg]; if no corruption branch fired in that draw, its magnitude is the
    rounded norm of the unrounded axis values of the draw. *)
Definition movement_contract (cfg : config) (r : movement_record) : Prop :=
  exists t g0,
    let rb := fst (movement_sample_branch
                     (datetime_add BASE_TIME (movement_offset cfg))
                     (activity_pattern cfg) t g0) in
    let axes := fst (movement_axes t (activity_pattern cfg) g0) in
    r = fst rb /\
    (snd rb = NoCorruption ->
     magnitude_of_raw_axes r (fst (fst axes)) (snd (fst axes)) (snd axes)).

(** The plateau of the exercise profile: 130 with an amplitude of 20. *)
Definition on_plateau (base_hr : Q) : Prop := 110 <= base_hr /\ base_hr <= 150.

(** ** Channels *)

Inductive channel : Type :=
  HeartRate | Movement | BloodOxygen | Temperature | Load.

(** The gaps configured for a channel. *)
Definition channel_gaps (c : channel) (cfg : config) : list (Z * Z) :=
  match c with
  | HeartRate => hr_gaps cfg
  | Movement => movement_gaps cfg
  | BloodOxygen => spo2_gaps cfg
  | Temperature => temp_gaps cfg
  | Load => load_gaps cfg
  end.

(** The value of [duration] in the generator of a channel. *)
Definition channel_duration (c : channel) (cfg : config) : Z :=
  match c with
  | Temperature => temperature_duration cfg
  | _ => session_duration cfg
  end.

(** The least tick step of a channel. *)
Definition channel_step (c : channel) : Q :=
  match c with
  | HeartRate => 0.85
  | Movement => 0.08
  | BloodOxygen => 1.5
  | Temperature => 8
  | Load => 4
  end.

(** The tick times of a run: all of them, and those at which a record was
    appended, the i-th being the tick of the i-th record of [data]. *)
Definition tick_times {R} (c : Gen G (list (Q * option R)))
  : G -> option (list Q * list Q) :=
  fun g => match c g with
           | Some (schedule, _) =>
               Some (map fst schedule, map fst (emitted schedule))
           | None => None
           end.

Definition channel_ticks (c : channel) (fuel : nat) (cfg : config)
  : G -> option (list Q * list Q) :=
  match c with
  | HeartRate => tick_times (heart_rate_ticks fuel cfg)
  | Movement => tick_times (movement_ticks fuel cfg)
  | BloodOxygen => tick_times (blood_oxygen_ticks fuel cfg)
  | Temperature => tick_times (temperature_ticks fuel cfg)
  | Load => tick_times (load_ticks fuel cfg)
  end.

(** Iterations that suffice for the loop of a channel. *)
Definition channel_fuel (c : channel) (cfg : config) : nat :=
  Datatypes.S (Z.to_nat
    (Qceiling (inject_Z (channel_duration c cfg) / channel_step c))).

(** Iterations that suffice for every loop of one patient, and of a list of
    patients. *)
Definition patient_fuel (cfg : config) : nat :=
  fold_right (fun c n => Nat.max (channel_fuel c cfg) n) 0%nat
    [HeartRate; Movement; BloodOxygen; Temperature; Load].

Definition configs_fuel (configs : list (string * config)) : nat :=
  fold_right (fun pc n => Nat.max (patient_fuel (snd pc)) n) 0%nat configs.

Definition main_fuel : nat := configs_fuel PATIENT_CONFIGS.

(** More fuel does not change what a computation returns. *)
Definition fuel_monotone {A} (c : nat -> Gen G A) : Prop :=
  forall n m g res, (n <= m)%nat -> c n g = Some res -> c m g = Some res.

(** With fuel [n] the computation returns from every generator state. *)
Definition returns_with {A} (c : nat -> Gen G A) (n : nat) : Prop :=
  forall g, exists res, c n g = Some res.

(** A configuration a validation at startup would have to refuse: the loop
    of some channel has a non-positive duration.  (The tick step ranges are
    literals of the generators, not part of a configuration.) *)
Definition invalid_configuration (cfg : config) : Prop :=
  exists c, (channel_duration c cfg <= 0)%Z.

(** No run over [configs] returns files. *)
Definition configuration_rejected (configs : list (string * config)) : Prop :=
  forall fuel g res, generate_all fuel configs g <> Some res.

(** [t] lies in the gap [(start, duration)]. *)
Definition in_gap (t : Q) (gap : Z * Z) : Prop :=
  inject_Z (fst gap) <= t /\ t < inject_Z (fst gap + snd gap).

(** ** Limits *)

(** A configuration within the limits of [datetime] and of double
    precision: a session of at most 100000 hours, every sensor starting
    within 20000 days of [BASE_TIME].  All its timestamps then lie between
    the years 1969 and 2146, and no elapsed time reaches [2 ** 31] seconds,
    so that adding a tick step to it is off by less than [tolerance]. *)
Definition within_limits (cfg : config) : Prop :=
  Qabs (duration_hours cfg) <= 100000 /\
  Forall (fun offset : timedelta =>
            (Z.abs offset <= 20000 * 86400 * 1000000)%Z)
    [hr_offset cfg; movement_offset cfg; spo2_offset cfg; temp_offset cfg;
     load_offset cfg].

(** What the statements about sums of tick steps leave for the rounding of
    the additions: a microsecond. *)
Definition tolerance : Q := 1 # 1000000.

(** A session of [duration] seconds from [start_time] whose Unix times lie
    between 1.1e9 (November 2004) and [2 ** 31] (January 2038): there the
    double [timestamp()] separates microseconds, and its product by 1000
    separates milliseconds. *)
Definition unix_window (start_time : datetime) (duration : Z) : Prop :=
  (1100000000 * 1000000 <= instant_us start_time)%Z /\
  (instant_us start_time + duration * 1000000 <= 2147483648 * 1000000)%Z.

(** The clock of a sampling loop, as the specification describes it: from
    [t] the ticks are visited in turn while the clock is below [duration],
    each one a step within [lo, hi] after the one before it, and the clock
    stops at the first value that has reached [duration]. *)
Inductive advances (duration lo hi : Q) : Q -> list Q -> Prop :=
| advances_stop : forall t, duration <= t -> advances duration lo hi t []
| advances_tick : forall t t' ticks,
    t < duration -> t + lo <= t' -> t' <= t + hi ->
    advances duration lo hi t' ticks ->
    advances duration lo hi t (t :: ticks).

(** The configured duration of a channel is not positive: the hours of the
    session are not, or, for the temperature channel, the hours with the
    extension by the offset and ten minutes. *)
Definition nonpositive_duration (c : channel) (cfg : config) : Prop :=
  match c with
  | Temperature =>
      duration_hours cfg * 3600
      + (Qabs (total_seconds (temp_offset cfg)) + 600) <= 0
  | _ => duration_hours cfg <= 0
  end.

(** ** Further contracts *)

(** The greatest tick step of a channel. *)
Definition channel_step_max (c : channel) : Q :=
  match c with
  | HeartRate => 1.15
  | Movement => 0.12
  | BloodOxygen => 2.5
  | Temperature => 14
  | Load => 6
  end.

(** The datetime a load timestamp renders. *)
Definition load_datetime (ts : load_timestamp) : datetime :=
  match ts with
  | iso_seconds dt => dt
  | iso_millis dt _ => dt
  | slash_seconds dt => dt
  end.

(** The whole second a load timestamp shows: [strftime] with [%S] drops the
    microseconds. *)
Definition load_second (ts : load_timestamp) : Z :=
  (instant_us (load_datetime ts) / 1000000)%Z.

(** The contract of one load record: the error value -1 with the activity
    "unknown", or a score within [0, 100] with the activity its thresholds
    give; the milliseconds written in the second format are three digits. *)
Definition load_record_ok (r : load_record) : Prop :=
  ((load_score r = (-1)%Z /\ activity_type r = "unknown"%string) \/
   ((0 <= load_score r <= 100)%Z /\
    activity_type r = activity_of (load_score r))) /\
  match ld_timestamp r with
  | iso_millis _ ms => (0 <= ms <= 999)%Z
  | _ => True
  end.

(** The three shapes of a movement record: a reading, a reading whose [x]
    and [magnitude] are null, and the corrupt reading. *)
Definition movement_shape (r : movement_record) : Prop :=
  (exists x y z m,
     mv_x r = Some (py_round x 3) /\ mv_y r = Some (py_round y 3) /\
     mv_z r = Some (py_round z 3) /\ magnitude r = Some (py_round m 3)) \/
  (exists y z,
     mv_x r = None /\ mv_y r = Some (py_round y 3) /\
     mv_z r = Some (py_round z 3) /\ magnitude r = None) \/
  (mv_x r = Some 999.99 /\ mv_y r = Some 999.99 /\
   mv_z r = Some 999.99 /\ magnitude r = Some 999.99).

(** An axis value that is zero, null or the corrupt value. *)
Definition still_axis (v : option Q) : Prop :=
  match v with
  | Some x => x == 0 \/ x = 999.99
  | None => True
  end.

(** The records a loop appends, threaded through the states the body leaves:
    [chain step st data] when [data] are appended in order from the loop
    state [st] and [step] relates each record to the state before and
    after it. *)
Inductive chain {S R} (step : S -> R -> S -> Prop) : S -> list R -> Prop :=
| chain_nil : forall st, chain step st []
| chain_cons : forall st r st' data,
    step st r st' -> chain step st' data -> chain step st (r :: data).

(** One update of [ambient_temp]: the new value is within 0.02 of the old
    one and within [18, 28], and the record shows its rounding. *)
Definition ambient_step (ambient : Q) (r : temperature_record) (ambient' : Q)
  : Prop :=
  (18 <= ambient' /\ ambient' <= 28) /\
  (ambient - 0.02 <= ambient' /\ ambient' <= ambient + 0.02) /\
  ambient_temp r = py_round ambient' 1.

(** Each record shows an ambient temperature within 0.1 of the one shown
    before it, [shown] for the first. *)
Fixpoint ambient_steps (shown : Q) (data : list temperature_record) : Prop :=
  match data with
  | [] => True
  | r :: data' =>
      (shown - 0.1 <= ambient_temp r /\ ambient_temp r <= shown + 0.1) /\
      ambient_steps (ambient_temp r) data'
  end.

End Model.

(** ** Two generators

    Two runs of the script are two processes, each with a generator of its
    own.  What [random.seed] promises of them is that they deliver the same
    draws: [same] relates a state of one to a state of the other, and from
    related states every draw returns the same value and leaves related
    states. *)
Record same_draws {G1 G2 : Type} (R1 : PyRandom G1) (R2 : PyRandom G2)
  (same : G1 -> G2 -> Prop) : Prop := {
  same_random : forall g1 g2, same g1 g2 ->
    fst (random g1) = fst (random g2) /\
    same (snd (random g1)) (snd (random g2));
  same_gauss : forall mu sigma g1 g2, same g1 g2 ->
    fst (gauss mu sigma g1) = fst (gauss mu sigma g2) /\
    same (snd (gauss mu sigma g1)) (snd (gauss mu sigma g2));
  same_randint : forall a b g1 g2, same g1 g2 ->
    fst (randint a b g1) = fst (randint a b g2) /\
    same (snd (randint a b g1)) (snd (randint a b g2))
}.

(** Two computations return the same value from related generator states,
    and leave related states. *)
Definition alike {G1 G2 A : Type} (same : G1 -> G2 -> Prop)
  (c1 : Rand G1 A) (c2 : Rand G2 A) : Prop :=
  forall g1 g2, same g1 g2 ->
  fst (c1 g1) = fst (c2 g2) /\ same (snd (c1 g1)) (snd (c2 g2)).

(** The same for loops with fuel: both run out of fuel, or both return. *)
Definition alike_gen {G1 G2 A : Type} (same : G1 -> G2 -> Prop)
  (c1 : Gen G1 A) (c2 : Gen G2 A) : Prop :=
  forall g1 g2, same g1 g2 ->
  match c1 g1, c2 g2 with
  | Some (a1, g1'), Some (a2, g2') => a1 = a2 /\ same g1' g2'
  | None, None => True
  | _, _ => False
  end.

(** ** A scripted generator and a fixed-point [math]

    A generator that replays a prepared list of draws, for running the model
    on chosen draws: [random()] returns the fractional part of the next entry,
    [gauss(mu, sigma)] returns [mu + z * sigma] for the next entry [z], and
    [randint(a, b)] reduces the floor of the next entry into [a..b].  When the
    script is exhausted the draws are [0.5], [mu] and [a]. *)

Definition script : Type := list Q.

Definition script_next (default : Q) (g : script) : Q * script :=
  match g with
  | [] => (default, [])
  | q :: g' => (q, g')
  end.

Definition script_random (g : script) : Q * script :=
  let (q, g') := script_next (1 # 2) g in (q - inject_Z (Qfloor q), g').

Definition script_gauss (mu sigma : Q) (g : script) : Q * script :=
  let (z, g') := script_next 0 g in (mu + z * sigma, g').

Definition script_randint (a b : Z) (g : script) : Z * script :=
  let (q, g') := script_next 0 g in ((a + Qfloor q mod (b - a + 1))%Z, g').

(** [math.sqrt] to twelve decimals, by the integer square root. *)
Definition sqrt_fixed (x : Q) : Q :=
  Z.sqrt (Qfloor (x * inject_Z (10 ^ 24))) # (10 ^ 12).

(** [math.sin] by reduction to [-pi/2, pi/2] and a Taylor polynomial. *)
Definition sin_taylor (x : Q) : Q :=
  let k := round_half_even (x / math_pi) in
  let y := Qred (x - inject_Z k * math_pi) in
  let y2 := Qred (y * y) in
  let p := y * (1 - y2 / 6 * (1 - y2 / 20 * (1 - y2 / 42 * (1 - y2 / 72)))) in
  Qred (if Z.even k then p else - p).

Lemma script_random_range (g : script) :
  0 <= fst (script_random g) /\ fst (script_random g) < 1.
Proof.
  unfold script_random. destruct (script_next (1 # 2) g) as [q g']. simpl.
  pose proof (Qfloor_le q) as H1. pose proof (Qlt_floor q) as H2.
  rewrite inject_Z_plus in H2. change (inject_Z 1) with 1 in H2.
  split; lra.
Qed.

Lemma script_randint_range (a b : Z) (g : script) :
  (a <= b)%Z -> (a <= fst (script_randint a b g) <= b)%Z.
Proof.
  intro Hab. unfold script_randint.
  destruct (script_next 0 g) as [q g']. simpl.
  pose proof (Z.mod_pos_bound (Qfloor q) (b - a + 1) ltac:(lia)). lia.
Qed.

(** Seeding a scripted generator leaves it with the empty script. *)
#[export] Instance script_PyRandom : PyRandom script := {|
  seed := fun _ => [];
  random := script_random;
  gauss := script_gauss;
  randint := script_randint;
  random_range := script_random_range;
  randint_range := script_randint_range
|}.

#[export] Instance fixed_PyMath : PyMath := {|
  math_sin := sin_taylor;
  math_sqrt := sqrt_fixed
|}.

(** A generator without a state, whose draws are those of the exhausted
    script: another implementation of the draws a seeded script delivers. *)
Definition constant_random (g : unit) : Q * unit :=
  (fst (script_random []), g).

Definition constant_gauss (mu sigma : Q) (g : unit) : Q * unit :=
  (fst (script_gauss mu sigma []), g).

Definition constant_randint (a b : Z) (g : unit) : Z * unit :=
  (fst (script_randint a b []), g).

Definition constant_PyRandom : PyRandom unit := {|
  seed := fun _ => tt;
  random := constant_random;
  gauss := constant_gauss;
  randint := constant_randint;
  random_range := fun _ => script_random_range [];
  randint_range := fun a b _ => script_randint_range a b []
|}.

(** ** Short sessions

    Configurations and scripts of draws on which the model runs in a few
    ticks.  [session hours pattern] has the offsets of patient_001. *)

Definition session (hours : Q) (pattern : string) : config :=
  {| hr_offset := timedelta_of 0 0;
     movement_offset := timedelta_of 7 23;
     spo2_offset := timedelta_of 3 45;
     temp_offset := timedelta_of (-15) 0;
     load_offset := timedelta_of 12 8;
     duration_hours := hours;
     activity_pattern := pattern;
     hr_gaps := [(1, 2)]%Z;
     movement_gaps := [];
     spo2_gaps := [(2, 2)]%Z;
     temp_gaps := [];
     load_gaps := [] |}.

(** Five seconds of heart rate.  The draws: the drift; at [t = 0] no
    dropout, no noise, the error branch; a step of one second at each tick;
    at [t = 3] the low-confidence branch. *)
Definition heart_rate_script : script :=
  [0.75;
   0.5; 0; 0.001; 0.5;
   0.5;
   0.5;
   0.5; 0.2; 0.5; 0.01; 0.5; 0.5].

(** Eight seconds of blood oxygen.  At [t = 0] the low error branch, at
    [t = 4] the high one, at [t = 6] a reading of 95.1. *)
Definition blood_oxygen_script : script :=
  [0.5; 0.5; 0; 0.001; 0.5; 0.5;
   0.5;
   0.5; 0.5; 0; 0.5; 0.001; 0.5; 0.5;
   0.5; 0.5; -3; 0.5; 0.5; 0.5].

(** One second of movement in the morning routine.  At [t = 0]: no dropout,
    the active branch, [x = 0.05], [z = 0], [y = -9.8104], no corruption. *)
Definition movement_script : script :=
  [0.5; 0.05; 0.525; 0; 0.5; 0; 4 # 981].

(** Five seconds of heart rate under a gap of ten seconds from the start. *)
Definition silenced_session : config :=
  {| hr_offset := timedelta_of 0 0;
     movement_offset := timedelta_of 7 23;
     spo2_offset := timedelta_of 3 45;
     temp_offset := timedelta_of (-15) 0;
     load_offset := timedelta_of 12 8;
     duration_hours := 5 # 3600;
     activity_pattern := "morning_routine";
     hr_gaps := [(0, 10)]%Z;
     movement_gaps := [];
     spo2_gaps := [];
     temp_gaps := [];
     load_gaps := [] |}.

(** A resting session of one second whose temperature sensor starts five
    seconds early and so runs for 606 seconds. *)
Definition temperature_session : config :=
  {| hr_offset := timedelta_of 0 0;
     movement_offset := timedelta_of 4 15;
     spo2_offset := timedelta_of 22 30;
     temp_offset := timedelta_of 0 (-5);
     load_offset := timedelta_of 8 45;
     duration_hours := 1 # 3600;
     activity_pattern := "resting";
     hr_gaps := [];
     movement_gaps := [];
     spo2_gaps := [];
     temp_gaps := [(20, 30)]%Z;
     load_gaps := [] |}.

(** The first draws of the temperature session: an ambient temperature of
    21.0; at [t = 0] no dropout, no noise, a spike of 5.5 degrees and the
    largest upward drift; at [t = 11] a lift-off of 3.5 degrees and the same
    drift; three ticks in the gap; at [t = 55] the same drift again. *)
Definition temperature_script : script :=
  [0.25;
   0.5; 0; 0.001; 0.5; 0.999; 0.5;
   0.5; 0; 0.5; 0.001; 0.5; 0.999; 0.5;
   0.5;
   0.5;
   0.5;
   0.5; 0; 0.5; 0.5; 0.999; 0.5].

(** Twenty seconds of load at rest: at [t = 0] the least score in the first
    format; at [t = 5] the greatest score, the second format with 123
    milliseconds, then the error branch; at [t = 10] the third format. *)
Definition load_script : script :=
  [0.5; 0; 0; 0.1; 0.5; 0.5; 0.5;
   0.5; 0; 6; 0.45; 123; 0.001; 0.9; 0.5;
   0.5; 0; 3; 0.8; 0.5; 0.5; 0.5].

(** One second of movement at rest: at [t = 0] the null branch, at the next
    tick the corrupt branch. *)
Definition resting_movement_script : script :=
  [0.5; 1; 0; 2; 0.001; 0.5;
   0.5; 0; 0; 0; 0.5; 0.001; 0.5].

(** Eight seconds of blood oxygen from nine tenths of a second before the
    Unix epoch, 1969-12-31T23:59:59.1Z. *)
Definition before_epoch_session : config :=
  {| hr_offset := timedelta_of 0 0;
     movement_offset := timedelta_of 7 23;
     spo2_offset := (- 1710489600900000)%Z;
     temp_offset := timedelta_of (-15) 0;
     load_offset := timedelta_of 12 8;
     duration_hours := 8 # 3600;
     activity_pattern := "resting";
     hr_gaps := [];
     movement_gaps := [];
     spo2_gaps := [];
     temp_gaps := [];
     load_gaps := [] |}.

(** At [t = 0]: no dropout, a reading of 98.0, no error branch, and the
    least step, 1.5 seconds; steps of 2 seconds afterwards. *)
Definition before_epoch_script : script := [0.5; 0.5; 0; 0.5; 0.5; 0].

(** patient_002, the exercise session, cut to two hours. *)
Definition exercise_two_hours : config :=
  {| hr_offset := timedelta_of 0 0;
     movement_offset := timedelta_of 15 42;
     spo2_offset := timedelta_of 5 10;
     temp_offset := timedelta_of (-8) 0;
     load_offset := timedelta_of 2 30;
     duration_hours := 2.0;
     activity_pattern := "exercise_session";
     hr_gaps := [(2100, 600); (5400, 900); (8400, 300)]%Z;
     movement_gaps := [(1500, 180); (4800, 720); (7200, 240)]%Z;
     spo2_gaps := [(3000, 480); (6600, 600)]%Z;
     temp_gaps := [(4200, 300); (7800, 180)]%Z;
     load_gaps := [(1800, 240); (5400, 420)]%Z |}.

(** * Properties *)

(** ** Numbers *)

Lemma Qltb_lt (x y : Q) : Qltb x y = true <-> x < y.
Proof.
  unfold Qltb. rewrite negb_true_iff. split; intro H.
  - apply Qnot_le_lt. intro Hle. apply Qle_bool_iff in Hle. congruence.
  - destruct (Qle_bool y x) eqn:E; [|reflexivity].
    apply Qle_bool_iff in E. exfalso. exact (Qlt_not_le _ _ H E).
Qed.

Lemma Qltb_ge (x y : Q) : Qltb x y = false <-> y <= x.
Proof.
  unfold Qltb. rewrite negb_false_iff. apply Qle_bool_iff.
Qed.

Lemma Qle_bool_gt (x y : Q) : Qle_bool x y = false <-> y < x.
Proof.
  rewrite <- Qltb_lt. unfold Qltb. now rewrite negb_true_iff.
Qed.

#[global] Instance Qltb_comp : Proper (Qeq ==> Qeq ==> eq) Qltb.
Proof.
  intros x x' Hx y y' Hy. unfold Qltb. now rewrite Hx, Hy.
Qed.

Lemma inject_Z_succ (k : Z) : inject_Z (k + 1) == inject_Z k + 1.
Proof. rewrite inject_Z_plus. reflexivity. Qed.

Lemma Qfloor_unique (x : Q) (f : Z) :
  inject_Z f <= x -> x < inject_Z (f + 1) -> Qfloor x = f.
Proof.
  intros Hlo Hhi.
  pose proof (Qfloor_le x) as H1. pose proof (Qlt_floor x) as H2.
  assert (Qfloor x < f + 1)%Z
    by (rewrite Zlt_Qlt; eapply Qle_lt_trans; eassumption).
  assert (f < Qfloor x + 1)%Z
    by (rewrite Zlt_Qlt; eapply Qle_lt_trans; eassumption).
  lia.
Qed.

Lemma round_half_even_near (x : Q) :
  x - (1 # 2) <= inject_Z (round_half_even x) /\
  inject_Z (round_half_even x) <= x + (1 # 2).
Proof.
  unfold round_half_even.
  pose proof (Qfloor_le x) as H1. pose proof (Qlt_floor x) as H2.
  rewrite inject_Z_succ in H2.
  destruct (Qltb (x - inject_Z (Qfloor x)) (1 # 2)) eqn:E1.
  { apply Qltb_lt in E1. split; lra. }
  apply Qltb_ge in E1.
  destruct (Qltb (1 # 2) (x - inject_Z (Qfloor x))) eqn:E2.
  { apply Qltb_lt in E2. rewrite inject_Z_succ. split; lra. }
  apply Qltb_ge in E2.
  destruct (Z.even (Qfloor x)); [|rewrite inject_Z_succ]; split; lra.
Qed.

#[global] Instance round_half_even_comp : Proper (Qeq ==> eq) round_half_even.
Proof.
  intros x y Hxy. unfold round_half_even.
  rewrite (Qfloor_comp _ _ Hxy).
  assert (E : x - inject_Z (Qfloor y) == y - inject_Z (Qfloor y))
    by (rewrite Hxy; reflexivity).
  rewrite (Qltb_comp _ _ E _ _ (Qeq_refl _)).
  rewrite (Qltb_comp _ _ (Qeq_refl _) _ _ E).
  reflexivity.
Qed.

Lemma round_half_even_mono (x y : Q) :
  x <= y -> (round_half_even x <= round_half_even y)%Z.
Proof.
  intro Hxy.
  destruct (Z_le_gt_dec (round_half_even x) (round_half_even y)) as [|Hgt];
    [assumption|exfalso].
  assert (Hz : (round_half_even y + 1 <= round_half_even x)%Z) by lia.
  rewrite Zle_Qle, inject_Z_succ in Hz.
  destruct (round_half_even_near x) as [_ Hx].
  destruct (round_half_even_near y) as [Hy _].
  assert (E : x == y) by lra.
  rewrite (round_half_even_comp _ _ E) in Hgt. lia.
Qed.

Lemma round_half_even_Z (k : Z) : round_half_even (inject_Z k) = k.
Proof.
  unfold round_half_even. rewrite Qfloor_Z.
  assert (E : Qltb (inject_Z k - inject_Z k) (1 # 2) = true)
    by (apply Qltb_lt; lra).
  now rewrite E.
Qed.

(** Rounding to [ndigits] decimals keeps a value between two bounds that
    have at most [ndigits] decimals themselves. *)
Lemma py_round_between (x : Q) (ndigits : positive) (a b : Z) :
  a # (10 ^ ndigits) <= x -> x <= b # (10 ^ ndigits) ->
  a # (10 ^ ndigits) <= py_round x ndigits /\
  py_round x ndigits <= b # (10 ^ ndigits).
Proof.
  intros Ha Hb. unfold py_round.
  set (scale := (10 ^ ndigits)%positive) in *.
  assert (Hs : 0 < inject_Z (Zpos scale)) by reflexivity.
  assert (Ea : inject_Z a == (a # scale) * inject_Z (Zpos scale)).
  { unfold Qeq, Qmult, inject_Z; simpl. lia. }
  assert (Eb : inject_Z b == (b # scale) * inject_Z (Zpos scale)).
  { unfold Qeq, Qmult, inject_Z; simpl. lia. }
  assert (La : (a <= round_half_even (x * inject_Z (Zpos scale)))%Z).
  { rewrite <- (round_half_even_Z a). apply round_half_even_mono.
    rewrite Ea. apply Qmult_le_compat_r; [assumption|]. now apply Qlt_le_weak. }
  assert (Lb : (round_half_even (x * inject_Z (Zpos scale)) <= b)%Z).
  { etransitivity; [|apply Z.eq_le_incl, (round_half_even_Z b)].
    apply round_half_even_mono.
    rewrite Eb. apply Qmult_le_compat_r; [assumption|]. now apply Qlt_le_weak. }
  unfold Qle; simpl. split; nia.
Qed.

(** [int(x)] lies within one unit of [x], on the side of zero. *)
Lemma py_int_near (x : Q) :
  (0 <= x -> inject_Z (py_int x) <= x /\ x < inject_Z (py_int x) + 1) /\
  (x <= 0 -> x <= inject_Z (py_int x) /\ inject_Z (py_int x) - 1 < x).
Proof.
  destruct x as [n d]. unfold py_int; simpl.
  pose proof (Z.quot_rem' n (Zpos d)) as E.
  split; intro H; unfold Qle in H; simpl in H; rewrite Z.mul_1_r in H.
  - pose proof (Z.rem_bound_pos n (Zpos d) H ltac:(lia)) as B.
    unfold Qle, Qlt, Qplus, inject_Z; simpl. split; nia.
  - assert (B : (- Zpos d < Z.rem n (Zpos d) <= 0)%Z).
    { destruct (Z.eq_dec n 0) as [->|Hn].
      - rewrite Z.rem_0_l; lia.
      - pose proof (Z.rem_opp_l n (Zpos d) ltac:(lia)).
        pose proof (Z.rem_bound_pos (- n) (Zpos d) ltac:(lia) ltac:(lia)).
        lia. }
    unfold Qle, Qlt, Qminus, Qplus, Qopp, inject_Z; simpl. split; nia.
Qed.

(** ** Draws and the sampling loop *)

Section Properties.

Context {G : Type} {RNG : PyRandom G} {M : PyMath}.

Lemma uniform_eq (a b : Q) (g : G) :
  uniform a b g = (a + (b - a) * fst (random g), snd (random g)).
Proof.
  unfold uniform, bind, ret. now destruct (random g).
Qed.

(** [random.uniform(a, b)] is between [a] and [b]. *)
Lemma uniform_range (a b : Q) (g : G) :
  a <= b -> a <= fst (uniform a b g) /\ fst (uniform a b g) <= b.
Proof.
  intro Hab. rewrite uniform_eq. simpl.
  destruct (random_range g) as [H0 H1]. split; nra.
Qed.

Section LoopFacts.

Context {S R : Type}.
Variable duration : Z.
Variable gaps : list (Z * Z).
Variable probability : Q.
Variable body : Q -> S -> Rand G (R * S).
Variables lo hi : Q.
Hypothesis lo_le_hi : lo <= hi.

Local Abbreviation tick := (sample_tick gaps probability body lo hi).
Local Abbreviation loop := (sample_loop duration gaps probability body lo hi).

(** A pass through the loop body advances [t] by a step in [lo, hi], and
    appends a record only outside every gap; the record is the body's. *)
Lemma sample_tick_spec (t : Q) (st : S) (g : G) :
  forall e st' t' g', tick t st g = (e, st', t', g') ->
  (t + lo <= t' /\ t' <= t + hi) /\
  (forall r, e = Some r ->
     is_in_gap t gaps = false /\
     exists g0 g1, body t st g0 = (r, st', g1)).
Proof.
  intros e st' t' g'. unfold sample_tick, bind, ret.
  destruct (is_in_gap t gaps) eqn:Egap; simpl.
  - destruct (uniform lo hi g) as [step g1] eqn:Eu.
    intro H; injection H as <- <- <- <-.
    pose proof (uniform_range lo hi g lo_le_hi) as Hu. rewrite Eu in Hu.
    simpl in Hu. split; [split; lra|discriminate].
  - unfold should_have_micro_dropout, bind, ret.
    destruct (random g) as [r0 g0].
    destruct (Qltb r0 probability); simpl.
    + destruct (uniform lo hi g0) as [step g1] eqn:Eu.
      intro H; injection H as <- <- <- <-.
      pose proof (uniform_range lo hi g0 lo_le_hi) as Hu. rewrite Eu in Hu.
      simpl in Hu. split; [split; lra|discriminate].
    + destruct (body t st g0) as [[r st1] g1] eqn:Eb.
      destruct (uniform lo hi g1) as [step g2] eqn:Eu.
      intro H; injection H as <- <- <- <-.
      pose proof (uniform_range lo hi g1 lo_le_hi) as Hu. rewrite Eu in Hu.
      simpl in Hu. split; [split; lra|].
      intros r' Hr; injection Hr as <-. split; [reflexivity|eauto].
Qed.

Lemma sample_loop_unfold (fuel : nat) (t : Q) (st : S) (g : G) :
  loop (Datatypes.S fuel) t st g =
  if Qltb t (inject_Z duration) then
    let '(e, st', t', g') := tick t st g in
    match loop fuel t' st' g' with
    | Some (schedule, g'') => Some ((t, e) :: schedule, g'')
    | None => None
    end
  else Some ([], g).
Proof. reflexivity. Qed.

(** The invariant of the loop: every tick is at or after the first and before
    [duration]; later ticks are at least [lo] after earlier ones; a record is
    appended only outside the gaps and satisfies whatever the body
    guarantees. *)
Lemma sample_loop_schedule (P : Q -> R -> Prop) :
  0 <= lo ->
  (forall t st g, P t (fst (fst (body t st g)))) ->
  forall fuel t st g schedule g',
  loop fuel t st g = Some (schedule, g') ->
  Forall (tick_ok duration gaps P t) schedule /\
  StronglySorted (spaced lo) schedule.
Proof.
  intros Hlo HP. induction fuel as [|fuel IH]; intros t st g schedule g' H.
  - discriminate.
  - rewrite sample_loop_unfold in H.
    destruct (Qltb t (inject_Z duration)) eqn:Et.
    2:{ injection H as <- <-. split; constructor. }
    apply Qltb_lt in Et.
    destruct (tick t st g) as [[[e st1] t1] g1] eqn:Etick.
    destruct (sample_tick_spec _ _ _ _ _ _ _ Etick) as [[Hstep _] He].
    destruct (loop fuel t1 st1 g1) as [[rest g2]|] eqn:Eloop; [|discriminate].
    injection H as <- <-.
    destruct (IH _ _ _ _ _ Eloop) as [Hall Hsorted].
    split.
    + constructor.
      * split; [simpl; split; [lra|assumption]|].
        simpl. intros r ->. destruct (He r eq_refl) as [Hgap [g0 [g3 Hb]]].
        split; [assumption|]. specialize (HP t st g0). now rewrite Hb in HP.
      * eapply Forall_impl; [|exact Hall].
        intros p [[Hp1 Hp2] Hp3]. split; [split; [lra|assumption]|assumption].
    + constructor; [assumption|].
      eapply Forall_impl; [|exact Hall].
      intros p [[Hp1 _] _]. unfold spaced; simpl. lra.
Qed.

(** The loop returns as soon as the fuel covers [(duration - t) / lo]
    iterations. *)
Lemma sample_loop_returns :
  0 < lo ->
  forall n t st g,
  inject_Z duration - t <= inject_Z (Z.of_nat n) * lo ->
  exists schedule g', loop (Datatypes.S n) t st g = Some (schedule, g').
Proof.
  intros Hlo. induction n as [|n IH]; intros t st g Hn;
    rewrite sample_loop_unfold;
    destruct (Qltb t (inject_Z duration)) eqn:Et;
    try (eexists _, _; reflexivity).
  - apply Qltb_lt in Et. change (inject_Z (Z.of_nat 0)) with 0 in Hn.
    exfalso. lra.
  - apply Qltb_lt in Et.
    destruct (tick t st g) as [[[e st1] t1] g1] eqn:Etick.
    destruct (sample_tick_spec _ _ _ _ _ _ _ Etick) as [[Hstep _] _].
    destruct (IH t1 st1 g1) as [rest [g2 E]].
    { rewrite Nat2Z.inj_succ in Hn. unfold Z.succ in Hn.
      rewrite inject_Z_succ in Hn. lra. }
    rewrite E. eexists _, _; reflexivity.
Qed.

(** More fuel does not change what the loop returns. *)
Lemma sample_loop_fuel_mono :
  forall n m t st g res,
  (n <= m)%nat -> loop n t st g = Some res -> loop m t st g = Some res.
Proof.
  induction n as [|n IH]; intros m t st g res Hnm H; [discriminate|].
  destruct m as [|m]; [lia|].
  rewrite sample_loop_unfold in *.
  destruct (Qltb t (inject_Z duration)); [|assumption].
  destruct (tick t st g) as [[[e st1] t1] g1].
  destruct (loop n t1 st1 g1) as [[rest g2]|] eqn:E; [|discriminate].
  rewrite (IH m _ _ _ _ ltac:(lia) E). assumption.
Qed.

(** The ticks of a run are those of a clock that advances from [t] by steps
    within [lo, hi] until it has reached [duration]: the loop does not leave
    earlier, and visits every value the clock takes below [duration]. *)
Lemma sample_loop_advances (lo' hi' : Q) :
  lo' <= lo -> hi <= hi' ->
  forall fuel t st g schedule g',
  loop fuel t st g = Some (schedule, g') ->
  advances (inject_Z duration) lo' hi' t (map fst schedule).
Proof.
  intros Hlo' Hhi'.
  induction fuel as [|fuel IH]; intros t st g schedule g' H; [discriminate|].
  rewrite sample_loop_unfold in H.
  destruct (Qltb t (inject_Z duration)) eqn:Et.
  2:{ injection H as <- <-. apply Qltb_ge in Et. now constructor. }
  apply Qltb_lt in Et.
  destruct (tick t st g) as [[[e st1] t1] g1] eqn:Etick.
  destruct (sample_tick_spec _ _ _ _ _ _ _ Etick) as [[Hlo Hhi] _].
  destruct (loop fuel t1 st1 g1) as [[rest g2]|] eqn:Eloop; [|discriminate].
  injection H as <- <-. cbn [map fst].
  apply (advances_tick _ _ _ t t1); [assumption|lra|lra|].
  exact (IH _ _ _ _ _ Eloop).
Qed.

End LoopFacts.

(** ** Gaps *)

Lemma is_in_gap_true (t : Q) (gaps : list (Z * Z)) :
  is_in_gap t gaps = true <-> exists gap, In gap gaps /\ in_gap t gap.
Proof.
  induction gaps as [|[gap_start gap_duration] rest IH]; simpl.
  - split; [discriminate|]. now intros [gap [[] _]].
  - destruct (Qle_bool (inject_Z gap_start) t) eqn:E1;
      [destruct (Qltb t (inject_Z (gap_start + gap_duration))) eqn:E2|];
      simpl.
    + split; [intros _|reflexivity].
      exists (gap_start, gap_duration). split; [now left|].
      split; [now apply Qle_bool_iff|now apply Qltb_lt].
    + rewrite IH. apply Qltb_ge in E2.
      split; intros [gap [Hin Hgap]].
      * exists gap. split; [now right|assumption].
      * destruct Hin as [<-|Hin]; [|now exists gap].
        destruct Hgap as [_ Hlt]. simpl in Hlt. exfalso. lra.
    + rewrite IH. apply Qle_bool_gt in E1.
      split; intros [gap [Hin Hgap]].
      * exists gap. split; [now right|assumption].
      * destruct Hin as [<-|Hin]; [|now exists gap].
        destruct Hgap as [Hle _]. simpl in Hle. exfalso. lra.
Qed.

Lemma is_in_gap_false (t : Q) (gaps : list (Z * Z)) :
  is_in_gap t gaps = false <-> forall gap, In gap gaps -> ~ in_gap t gap.
Proof.
  split.
  - intros H gap Hin Hgap.
    assert (E : is_in_gap t gaps = true) by (apply is_in_gap_true; eauto).
    congruence.
  - intro H. destruct (is_in_gap t gaps) eqn:E; [|reflexivity].
    apply is_in_gap_true in E. destruct E as [gap [Hin Hgap]].
    now destruct (H gap Hin).
Qed.

(** ** Schedules *)

Lemma emitted_In {R} (schedule : list (Q * option R)) (t : Q) (r : R) :
  In (t, r) (emitted schedule) <-> In (t, Some r) schedule.
Proof.
  induction schedule as [|[t0 [r0|]] rest IH]; simpl; [tauto| |].
  - rewrite IH. split; (intros [E|H]; [left; congruence|now right]).
  - rewrite IH. split; [now right|]. now intros [E|H]; [discriminate|].
Qed.

Lemma emitted_Forall {R} (schedule : list (Q * option R))
  (P : Q * option R -> Prop) :
  Forall P schedule ->
  Forall (fun p => P (fst p, Some (snd p))) (emitted schedule).
Proof.
  induction 1 as [|[t [r|]] rest Hp _ IH]; simpl; auto.
Qed.

Lemma emitted_sorted {R} (schedule : list (Q * option R)) (lo : Q) :
  StronglySorted (spaced lo) schedule ->
  StronglySorted (spaced lo) (emitted schedule).
Proof.
  induction 1 as [|[t [r|]] rest _ IH Hall]; simpl;
    [constructor| |assumption].
  constructor; [assumption|].
  apply (emitted_Forall rest (fun p => fst (t, Some r) + lo <= fst p)) in Hall.
  exact Hall.
Qed.

Lemma spaced_increasing {A} (l : list (Q * A)) (lo : Q) :
  0 < lo -> StronglySorted (spaced lo) l -> StronglySorted Qlt (map fst l).
Proof.
  intro Hlo. induction 1 as [|p rest _ IH Hall]; simpl; constructor;
    [assumption|].
  apply Forall_map. eapply Forall_impl; [|exact Hall].
  unfold spaced. intros q Hq. lra.
Qed.

(** The ticks of every channel are those of the sampling loop run from
    [t = 0] with the gaps, the duration and the least step of the channel. *)
Lemma channel_ticks_loop (c : channel) (cfg : config) (g : G) :
  exists (S R : Type) (p hi : Q) (body : Q -> S -> Rand G (R * S))
         (st : S) (g0 : G),
    channel_step c <= hi /\
    forall fuel,
      channel_ticks c fuel cfg g =
      tick_times (sample_loop (channel_duration c cfg) (channel_gaps c cfg)
                    p body (channel_step c) hi fuel 0 st) g0.
Proof.
  destruct c; simpl;
    unfold heart_rate_ticks, heart_rate_loop, movement_ticks,
      blood_oxygen_ticks, temperature_ticks, load_ticks, tick_times.
  - destruct (uniform (-0.0001) 0.0001 g) as [drift g0].
    eexists _, _, _, _, _, _, g0. split; [|reflexivity]. discriminate.
  - eexists _, _, _, _, _, _, g. split; [|reflexivity]. discriminate.
  - eexists _, _, _, _, _, _, g. split; [|reflexivity]. discriminate.
  - destruct (uniform 20 24 g) as [u g0].
    eexists _, _, _, _, _, _, g0. split; [|reflexivity]. discriminate.
  - eexists _, _, _, _, _, _, g. split; [|reflexivity]. discriminate.
Qed.

Lemma channel_step_pos (c : channel) : 0 < channel_step c.
Proof. destruct c; reflexivity. Qed.

Lemma channel_fuel_covers (c : channel) (cfg : config) :
  inject_Z (channel_duration c cfg) - 0 <=
  inject_Z (Z.of_nat (pred (channel_fuel c cfg))) * channel_step c.
Proof.
  unfold channel_fuel. simpl pred.
  pose proof (channel_step_pos c) as Hlo.
  set (d := inject_Z (channel_duration c cfg)).
  pose proof (Qle_ceiling (d / channel_step c)) as Hk.
  set (k := Qceiling (d / channel_step c)) in *.
  assert (Hn : inject_Z k <= inject_Z (Z.of_nat (Z.to_nat k)))
    by (rewrite <- Zle_Qle; lia).
  assert (Hd : d == d / channel_step c * channel_step c)
    by (field; lra).
  rewrite Hd at 1.
  unfold Qminus. rewrite Qplus_0_r.
  apply Qmult_le_compat_r; [lra|now apply Qlt_le_weak].
Qed.

(** C2 (gap exclusion).  For every channel, every configured gap
    [(start, duration)] of that channel and every record the generator of
    that channel emits, the elapsed time [t] at which the record was appended
    is not in [start, start + duration). *)
Theorem gap_exclusion (c : channel) (cfg : config) (fuel : nat) (g : G)
  (all em : list Q) :
  channel_ticks c fuel cfg g = Some (all, em) ->
  forall t gap, In t em -> In gap (channel_gaps c cfg) -> ~ in_gap t gap.
Proof.
  destruct (channel_ticks_loop c cfg g)
    as (S & R & p & hi & body & st & g0 & Hhi & E).
  rewrite E. unfold tick_times.
  destruct (sample_loop _ _ _ _ _ _ _ _ _ _) as [[schedule g']|] eqn:Eloop;
    [|discriminate].
  intro H; injection H as <- <-.
  destruct (sample_loop_schedule _ _ _ _ _ _ Hhi (fun _ _ => True)
              (Qlt_le_weak _ _ (channel_step_pos c)) (fun _ _ _ => I)
              _ _ _ _ _ _ Eloop) as [Hall _].
  intros t gap Ht. apply in_map_iff in Ht. destruct Ht as [[t' r] [<- Hin]].
  apply emitted_In in Hin. rewrite Forall_forall in Hall.
  destruct (Hall _ Hin) as [_ Hgap].
  destruct (Hgap r eq_refl) as [Hfalse _]. simpl in Hfalse.
  now apply is_in_gap_false.
Qed.

Lemma emitted_incl {R} (schedule : list (Q * option R)) :
  incl (map fst (emitted schedule)) (map fst schedule).
Proof.
  intros t Ht. apply in_map_iff in Ht. destruct Ht as [[t' r] [<- Hin]].
  apply emitted_In in Hin. apply in_map_iff. now exists (t', Some r).
Qed.

Lemma tolerance_pos : 0 < tolerance.
Proof. reflexivity. Qed.

(** The loop of every channel, with both bounds of its step. *)
Lemma channel_ticks_loop_steps (c : channel) (cfg : config) (g : G) :
  exists (S R : Type) (p : Q) (body : Q -> S -> Rand G (R * S))
         (st : S) (g0 : G),
    forall fuel,
      channel_ticks c fuel cfg g =
      tick_times (sample_loop (channel_duration c cfg) (channel_gaps c cfg)
                    p body (channel_step c) (channel_step_max c) fuel 0 st)
        g0.
Proof.
  destruct c; simpl;
    unfold heart_rate_ticks, heart_rate_loop, movement_ticks,
      blood_oxygen_ticks, temperature_ticks, load_ticks, tick_times.
  - destruct (uniform (-0.0001) 0.0001 g) as [drift g0].
    eexists _, _, _, _, _, g0. reflexivity.
  - eexists _, _, _, _, _, g. reflexivity.
  - eexists _, _, _, _, _, g. reflexivity.
  - destruct (uniform 20 24 g) as [u g0].
    eexists _, _, _, _, _, g0. reflexivity.
  - eexists _, _, _, _, _, g. reflexivity.
Qed.

Lemma channel_step_le_max (c : channel) : channel_step c <= channel_step_max c.
Proof. destruct c; discriminate. Qed.

(** The loop of a channel returns the same schedule whenever the fuel covers
    [duration / least step] iterations. *)
Lemma channel_loop_returns (c : channel) (cfg : config) {S R : Type}
  (p : Q) (body : Q -> S -> Rand G (R * S)) (st : S) (g0 : G) :
  exists schedule g',
    forall fuel, (channel_fuel c cfg <= fuel)%nat ->
    sample_loop (channel_duration c cfg) (channel_gaps c cfg) p body
      (channel_step c) (channel_step_max c) fuel 0 st g0
    = Some (schedule, g').
Proof.
  destruct (sample_loop_returns (channel_duration c cfg)
              (channel_gaps c cfg) p body _ _ (channel_step_le_max c)
              (channel_step_pos c) (pred (channel_fuel c cfg)) 0 st g0
              (channel_fuel_covers c cfg)) as (schedule & g' & Hret).
  exists schedule, g'. intros fuel Hfuel.
  apply (sample_loop_fuel_mono _ _ _ _ _ _
           (Datatypes.S (pred (channel_fuel c cfg))));
    [unfold channel_fuel in *; simpl; lia|exact Hret].
Qed.

Lemma patient_configs_within_limits :
  Forall (fun pc => within_limits (snd pc)) PATIENT_CONFIGS.
Proof.
  repeat (constructor;
          [split; [vm_compute; discriminate|];
           repeat (constructor; [vm_compute; discriminate|]); constructor|]).
  constructor.
Qed.

(** C9 (bounded elapsed time, finite output).  For every channel of a
    configuration within the limits, as that of every configured patient
    is, and whatever the draws: the generator returns once the fuel covers
    its loop, and every run returns the same ticks; the elapsed time starts
    at 0 and advances from tick to tick, by a step of the channel's range,
    while it is below the duration of the channel, and the loop leaves only
    when it has reached that duration; so the ticks strictly increase and
    stay below the duration, records are appended at ticks only, and the
    elapsed time of the last record is strictly below the duration. *)
Theorem elapsed_time_bounded (c : channel) (cfg : config) (g : G) :
  (within_limits cfg ->
   exists fuel0 all em,
     (forall fuel, (fuel0 <= fuel)%nat ->
        channel_ticks c fuel cfg g = Some (all, em)) /\
     (forall fuel res,
        channel_ticks c fuel cfg g = Some res -> res = (all, em)) /\
     advances (inject_Z (channel_duration c cfg))
       (channel_step c - tolerance) (channel_step_max c + tolerance) 0 all /\
     StronglySorted Qlt all /\
     Forall (fun t => 0 <= t /\ t < inject_Z (channel_duration c cfg)) all /\
     incl em all /\
     StronglySorted Qlt em /\
     (em <> [] -> last em 0 < inject_Z (channel_duration c cfg))) /\
  Forall (fun pc => within_limits (snd pc)) PATIENT_CONFIGS.
Proof.
  split; [intros _|exact patient_configs_within_limits].
  destruct (channel_ticks_loop_steps c cfg g)
    as (S & R & p & body & st & g0 & E).
  pose proof (channel_step_pos c) as Hlo.
  pose proof (channel_step_le_max c) as Hhi.
  destruct (channel_loop_returns c cfg p body st g0)
    as (schedule & g' & Hrun).
  exists (channel_fuel c cfg), (map fst schedule),
    (map fst (emitted schedule)).
  destruct (sample_loop_schedule _ _ _ _ _ _ Hhi (fun _ _ => True)
              (Qlt_le_weak _ _ Hlo) (fun _ _ _ => I)
              _ _ _ _ _ _ (Hrun _ (le_n _))) as [Hall Hsorted].
  assert (Hem : Forall (fun t => 0 <= t /\
                          t < inject_Z (channel_duration c cfg))
                  (map fst (emitted schedule))).
  { apply Forall_map.
    apply (emitted_Forall schedule
             (fun p => 0 <= fst p /\
                       fst p < inject_Z (channel_duration c cfg))).
    eapply Forall_impl; [|exact Hall]. now intros q [Hq _]. }
  split; [|split; [|split; [|split; [|split; [|split; [|split]]]]]].
  - intros fuel Hfuel. rewrite E. unfold tick_times.
    now rewrite (Hrun fuel Hfuel).
  - intros fuel res. rewrite E. unfold tick_times.
    destruct (sample_loop _ _ _ _ _ _ fuel _ _ _) as [[schedule' g'']|] eqn:E';
      [|discriminate].
    intro H; injection H as <-.
    eapply sample_loop_fuel_mono in E';
      [|exact (Nat.le_max_l fuel (channel_fuel c cfg))].
    rewrite (Hrun _ (Nat.le_max_r fuel (channel_fuel c cfg))) in E'.
    now injection E' as <- <-.
  - pose proof tolerance_pos as Htol.
    eapply sample_loop_advances; [exact Hhi| | |exact (Hrun _ (le_n _))]; lra.
  - now apply (spaced_increasing _ (channel_step c)).
  - apply Forall_map; eapply Forall_impl; [|exact Hall].
    now intros q [Hq _].
  - apply emitted_incl.
  - apply (spaced_increasing _ (channel_step c)); [assumption|].
    now apply emitted_sorted.
  - intro Hne. rewrite Forall_forall in Hem.
    destruct (exists_last Hne) as (l & t & El).
    rewrite El, last_last. apply Hem. rewrite El. apply in_or_app.
    right; now left.
Qed.

(** ** Records *)

Lemma with_records_inv {R} (c : Gen G (list (Q * option R))) (g g' : G)
  (data : list R) :
  with_records c g = Some (data, g') ->
  exists schedule, c g = Some (schedule, g') /\ data = records schedule.
Proof.
  unfold with_records, gbind, gret.
  destruct (c g) as [[schedule g1]|]; [|discriminate].
  intro H; injection H as <- <-. eauto.
Qed.

Lemma stateless_fst {R} (body : Q -> Rand G R) (t : Q) (st : unit) (g : G) :
  fst (fst (stateless body t st g)) = fst (body t g).
Proof.
  unfold stateless, bind, ret. now destruct (body t g).
Qed.

(** What the body guarantees of a record at its tick holds of every record
    of the schedule. *)
Lemma schedule_records {R} (duration : Z) (gaps : list (Z * Z))
  (P : Q -> R -> Prop) (schedule : list (Q * option R)) :
  Forall (tick_ok duration gaps P 0) schedule ->
  Forall (fun p => 0 <= fst p /\ P (fst p) (snd p)) (emitted schedule).
Proof.
  intro H.
  assert (H' : Forall (fun p => 0 <= fst p /\
                         forall r, snd p = Some r -> P (fst p) r) schedule).
  { eapply Forall_impl; [|exact H].
    intros p [[H0 _] Hp]. split; [assumption|]. intros r Hr.
    now destruct (Hp r Hr). }
  apply emitted_Forall in H'.
  eapply Forall_impl; [|exact H']. simpl. intros p [H0 Hp]. auto.
Qed.

(** ** Heart rate *)

Lemma simulate_heart_rate_range (t : Q) (pattern : string) (g : G) :
  (45 <= fst (simulate_heart_rate t pattern g) <= 185)%Z.
Proof.
  unfold simulate_heart_rate, bind, ret.
  destruct (add_noise _ _ g) as [v g']. simpl. lia.
Qed.

Lemma heart_rate_sample_ok (start_time : datetime) (drift_rate : Q)
  (pattern : string) (t : Q) (g : G) :
  heart_rate_record_ok
    (fst (heart_rate_sample start_time drift_rate pattern t g)).
Proof.
  unfold heart_rate_sample, bind, ret.
  pose proof (simulate_heart_rate_range t pattern g) as Hhr.
  destruct (simulate_heart_rate t pattern g) as [hr g1]. simpl in Hhr.
  destruct (random g1) as [r1 g2].
  destruct (Qltb r1 0.008).
  { simpl. unfold heart_rate_record_ok; simpl.
    split; [now left|]. split; [split; reflexivity|]. congruence. }
  destruct (random g2) as [r2 g3].
  destruct (Qltb r2 0.03).
  - pose proof (uniform_range 0.2 0.5 g3 ltac:(discriminate)) as [Hu1 Hu2].
    destruct (uniform 0.2 0.5 g3) as [u g4]. simpl in *.
    destruct (py_round_between u 2 20 50) as [Hc1 Hc2];
      change (10 ^ 2)%positive with 100%positive in *; [lra|lra|].
    unfold heart_rate_record_ok; simpl.
    split; [right; lia|]. split; [split; intro H; [lra|lia]|].
    intros _. split; lra.
  - pose proof (uniform_range 0.85 0.99 g3 ltac:(discriminate)) as [Hu1 Hu2].
    destruct (uniform 0.85 0.99 g3) as [u g4]. simpl in *.
    destruct (py_round_between u 2 85 99) as [Hc1 Hc2];
      change (10 ^ 2)%positive with 100%positive in *; [lra|lra|].
    unfold heart_rate_record_ok; simpl.
    split; [right; lia|]. split; [split; intro H; [lra|lia]|].
    intros _. split; lra.
Qed.

Lemma heart_rate_ticks_inv (fuel : nat) (cfg : config) (g g' : G)
  (schedule : list (Q * option heart_rate_record)) :
  heart_rate_ticks fuel cfg g = Some (schedule, g') ->
  heart_rate_loop fuel cfg (fst (uniform (-0.0001) 0.0001 g))
    (snd (uniform (-0.0001) 0.0001 g)) = Some (schedule, g').
Proof.
  unfold heart_rate_ticks. now destruct (uniform (-0.0001) 0.0001 g).
Qed.

(** C3.  In every record of [generate_heart_rate_data], [bpm] is either -1 or
    an integer of [45, 185]; [confidence] is 0.0 exactly when [bpm] is -1,
    and lies in [0.2, 0.99] otherwise. *)
Theorem heart_rate_records_ok (fuel : nat) (cfg : config) (g g' : G)
  (data : list heart_rate_record) :
  generate_heart_rate_data fuel cfg g = Some (data, g') ->
  Forall heart_rate_record_ok data.
Proof.
  intro H. apply with_records_inv in H. destruct H as (schedule & H & ->).
  apply heart_rate_ticks_inv in H. unfold heart_rate_loop in H.
  eapply sample_loop_schedule
    with (P := fun _ r => heart_rate_record_ok r) in H.
  - destruct H as [Hall _]. apply schedule_records in Hall.
    unfold records. apply Forall_map.
    eapply Forall_impl; [|exact Hall]. now intros p [_ Hp].
  - discriminate.
  - discriminate.
  - intros t st g0. rewrite stateless_fst. apply heart_rate_sample_ok.
Qed.

(** Two bodies that make the same draws and agree on a view [view] of the
    record give schedules that agree on that view, and leave the generator
    in the same state. *)
Lemma sample_loop_view {S R V} (duration : Z) (gaps : list (Z * Z))
  (p lo hi : Q) (body1 body2 : Q -> S -> Rand G (R * S)) (view : R -> V) :
  (forall t st g,
     view (fst (fst (body1 t st g))) = view (fst (fst (body2 t st g))) /\
     snd (fst (body1 t st g)) = snd (fst (body2 t st g)) /\
     snd (body1 t st g) = snd (body2 t st g)) ->
  forall fuel t st g schedule1 g',
  sample_loop duration gaps p body1 lo hi fuel t st g = Some (schedule1, g') ->
  exists schedule2,
    sample_loop duration gaps p body2 lo hi fuel t st g = Some (schedule2, g')
    /\ map (fun q => (fst q, option_map view (snd q))) schedule1 =
       map (fun q => (fst q, option_map view (snd q))) schedule2.
Proof.
  intros Hbody. induction fuel as [|fuel IH]; intros t st g schedule1 g' H;
    [discriminate|].
  rewrite sample_loop_unfold in *.
  destruct (Qltb t (inject_Z duration)).
  2:{ injection H as <- <-. exists []. split; reflexivity. }
  assert (Etick : exists e1 e2 st1 t1 g1,
             sample_tick gaps p body1 lo hi t st g = (e1, st1, t1, g1) /\
             sample_tick gaps p body2 lo hi t st g = (e2, st1, t1, g1) /\
             option_map view e1 = option_map view e2).
  { unfold sample_tick, bind, ret.
    destruct (is_in_gap t gaps); simpl.
    - destruct (uniform lo hi g) as [step g1].
      now exists None, None, st, (t + step), g1.
    - destruct (should_have_micro_dropout p g) as [[|] g0]; simpl.
      + destruct (uniform lo hi g0) as [step g1].
        now exists None, None, st, (t + step), g1.
      + destruct (Hbody t st g0) as (Hv & Hst & Hg).
        destruct (body1 t st g0) as [[r1 st1] g1].
        destruct (body2 t st g0) as [[r2 st2] g2].
        simpl in *. subst st2 g2.
        destruct (uniform lo hi g1) as [step g3].
        exists (Some r1), (Some r2), st1, (t + step), g3.
        simpl. now rewrite Hv. }
  destruct Etick as (e1 & e2 & st1 & t1 & g1 & E1 & E2 & Ev).
  rewrite E1 in H. rewrite E2.
  destruct (sample_loop duration gaps p body1 lo hi fuel t1 st1 g1)
    as [[rest1 g2]|] eqn:Eloop; [|discriminate].
  injection H as <- <-.
  destruct (IH _ _ _ _ _ Eloop) as (rest2 & -> & Erest).
  exists ((t, e2) :: rest2). split; [reflexivity|].
  simpl. now rewrite Ev, Erest.
Qed.

(** The drift enters the heart-rate record through its timestamp only. *)
Lemma heart_rate_sample_drift (start_time : datetime) (d1 d2 : Q)
  (pattern : string) (t : Q) (g : G) :
  let s1 := heart_rate_sample start_time d1 pattern t g in
  let s2 := heart_rate_sample start_time d2 pattern t g in
  (bpm (fst s1), confidence (fst s1)) = (bpm (fst s2), confidence (fst s2))
  /\ snd s1 = snd s2.
Proof.
  unfold heart_rate_sample, bind, ret.
  destruct (simulate_heart_rate t pattern g) as [hr g1].
  destruct (random g1) as [r1 g2].
  destruct (Qltb r1 0.008); [now split|].
  destruct (random g2) as [r2 g3].
  destruct (Qltb r2 0.03).
  - destruct (uniform 0.2 0.5 g3) as [u g4]. now split.
  - destruct (uniform 0.85 0.99 g3) as [u g4]. now split.
Qed.

(** What [heart_rate_sample] computes from the true elapsed time [t] and
    what it computes from the drifted one. *)
Lemma heart_rate_sample_times (start_time : datetime) (drift_rate : Q)
  (pattern : string) (t : Q) (g : G) :
  let r := fst (heart_rate_sample start_time drift_rate pattern t g) in
  hr_timestamp r =
    datetime_add start_time (timedelta_seconds (t * (1 + drift_rate))) /\
  (bpm r = (-1)%Z \/ bpm r = fst (simulate_heart_rate t pattern g)).
Proof.
  unfold heart_rate_sample, bind, ret.
  destruct (simulate_heart_rate t pattern g) as [hr g1].
  destruct (random g1) as [r1 g2].
  destruct (Qltb r1 0.008); [now split; [|left]|].
  destruct (random g2) as [r2 g3].
  destruct (Qltb r2 0.03).
  - destruct (uniform 0.2 0.5 g3) as [u g4]. now split; [|right].
  - destruct (uniform 0.85 0.99 g3) as [u g4]. now split; [|right].
Qed.

Lemma clock_drift_bound (g : G) :
  -0.0001 <= fst (uniform (-0.0001) 0.0001 g) /\
  fst (uniform (-0.0001) 0.0001 g) <= 0.0001.
Proof. apply uniform_range. discriminate. Qed.

(** C6 (clock drift).  [generate_heart_rate_data] draws one drift factor, of
    [-0.0001, 0.0001], before its loop.  The timestamp of every record is the
    start time plus the true elapsed time multiplied by [1 + drift], and its
    heart rate is the error value or the value simulated at the true elapsed
    time.  The drift reaches nothing else: with any other drift the loop
    visits the same ticks, emits the same [bpm] and [confidence] at the same
    ticks and leaves the generator in the same state. *)
Theorem clock_drift_reported_only (fuel : nat) (cfg : config) (g g' : G)
  (schedule : list (Q * option heart_rate_record)) :
  heart_rate_ticks fuel cfg g = Some (schedule, g') ->
  let drift := fst (uniform (-0.0001) 0.0001 g) in
  let start_time := datetime_add BASE_TIME (hr_offset cfg) in
  (-0.0001 <= drift /\ drift <= 0.0001) /\
  (forall t r, In (t, r) (emitted schedule) ->
     hr_timestamp r =
       datetime_add start_time (timedelta_seconds (t * (1 + drift))) /\
     (bpm r = (-1)%Z \/
      exists g0, bpm r = fst (simulate_heart_rate t (activity_pattern cfg) g0)))
  /\
  (forall other, exists schedule',
     heart_rate_loop fuel cfg other (snd (uniform (-0.0001) 0.0001 g)) =
       Some (schedule', g') /\
     map physiology schedule' = map physiology schedule).
Proof.
  intros H drift start_time.
  apply heart_rate_ticks_inv in H. fold drift in H.
  split; [apply uniform_range; discriminate|]. split.
  - unfold heart_rate_loop in H.
    eapply sample_loop_schedule with
      (P := fun t r =>
         hr_timestamp r =
           datetime_add start_time (timedelta_seconds (t * (1 + drift))) /\
         (bpm r = (-1)%Z \/
          exists g0,
            bpm r = fst (simulate_heart_rate t (activity_pattern cfg) g0)))
      in H.
    + destruct H as [Hall _]. apply schedule_records in Hall.
      rewrite Forall_forall in Hall.
      intros t r Hin. now destruct (Hall _ Hin).
    + discriminate.
    + discriminate.
    + intros t st g0. rewrite stateless_fst.
      destruct (heart_rate_sample_times start_time drift
                  (activity_pattern cfg) t g0) as [Hts Hbpm].
      split; [exact Hts|]. destruct Hbpm; [now left|right; eauto].
  - intro other. unfold heart_rate_loop in *.
    destruct (fun Hbody => sample_loop_view (session_duration cfg)
                (hr_gaps cfg) 0.005 0.85 1.15
                (stateless (heart_rate_sample start_time drift
                              (activity_pattern cfg)))
                (stateless (heart_rate_sample start_time other
                              (activity_pattern cfg)))
                (fun r => (bpm r, confidence r)) Hbody _ _ _ _ _ _ H)
      as (schedule' & Hloop & Hview).
    + intros t st g0. unfold stateless, bind, ret.
      destruct (heart_rate_sample_drift start_time drift other
                  (activity_pattern cfg) t g0) as [Hv Hg].
      destruct (heart_rate_sample start_time drift _ t g0) as [r1 g1].
      destruct (heart_rate_sample start_time other _ t g0) as [r2 g2].
      simpl in *. now subst g2.
    + exists schedule'. split; [exact Hloop|]. symmetry. exact Hview.
Qed.

(** ** Timestamps *)

Lemma py_int_lt (x y : Q) : x + 2 <= y -> (py_int x < py_int y)%Z.
Proof.
  intro H. rewrite Zlt_Qlt.
  destruct (py_int_near x) as [Hx1 Hx2]. destruct (py_int_near y) as [Hy1 Hy2].
  destruct (Qlt_le_dec x 0) as [Hx|Hx]; destruct (Qlt_le_dec y 0) as [Hy|Hy].
  - destruct (Hx2 ltac:(lra)), (Hy2 ltac:(lra)). lra.
  - destruct (Hx2 ltac:(lra)), (Hy1 ltac:(lra)). lra.
  - destruct (Hx1 ltac:(lra)), (Hy2 ltac:(lra)). lra.
  - destruct (Hx1 ltac:(lra)), (Hy1 ltac:(lra)). lra.
Qed.

Lemma py_int_lt_nonneg (x y : Q) :
  0 <= x -> x + 1 <= y -> (py_int x < py_int y)%Z.
Proof.
  intros H0 H. rewrite Zlt_Qlt.
  destruct (py_int_near x) as [Hx _]. destruct (py_int_near y) as [Hy _].
  destruct (Hx H0), (Hy ltac:(lra)). lra.
Qed.

Lemma timedelta_seconds_nonneg (t : Q) : 0 <= t -> (0 <= timedelta_seconds t)%Z.
Proof.
  intro H. unfold timedelta_seconds.
  change 0%Z with (round_half_even (inject_Z 0)).
  apply round_half_even_mono. change (inject_Z 0) with 0. lra.
Qed.

(** Two elapsed times at least [gap] seconds apart are at least
    [gap * 1000000 - 1] microseconds apart as timedeltas. *)
Lemma timedelta_seconds_apart (t1 t2 gap : Q) :
  t1 + gap <= t2 ->
  inject_Z (timedelta_seconds t1) + gap * 1000000 - 1
    <= inject_Z (timedelta_seconds t2).
Proof.
  intro H. unfold timedelta_seconds.
  destruct (round_half_even_near (t1 * 1000000)) as [_ H1].
  destruct (round_half_even_near (t2 * 1000000)) as [H2 _].
  lra.
Qed.

(** In a schedule whose ticks are [lo] apart, a key that the body computes
    from the tick by a function increasing over such steps is strictly
    increasing along the records. *)
Lemma records_increasing {R} (duration : Z) (gaps : list (Z * Z))
  (key : R -> Z) (f : Q -> Z) (lo : Q) (schedule : list (Q * option R)) :
  Forall (tick_ok duration gaps (fun t r => key r = f t) 0) schedule ->
  StronglySorted (spaced lo) schedule ->
  (forall t1 t2, 0 <= t1 -> t1 + lo <= t2 -> (f t1 < f t2)%Z) ->
  StronglySorted Z.lt (map key (records schedule)).
Proof.
  intros Hall Hsorted Hf.
  apply schedule_records in Hall. apply emitted_sorted in Hsorted.
  unfold records. rewrite map_map.
  induction Hsorted as [|p rest _ IH Hrest]; simpl; [constructor|].
  inversion Hall as [|? ? [Hp0 Hp] Hall']; subst.
  constructor; [now apply IH|].
  apply Forall_map. rewrite Forall_forall in *.
  intros q Hq. destruct (Hall' q Hq) as [_ Hkq].
  rewrite Hp, Hkq. apply Hf; [assumption|]. exact (Hrest q Hq).
Qed.

Lemma dt_timestamp_add (dt : datetime) (td : timedelta) :
  dt_timestamp (datetime_add dt td) ==
  (inject_Z (instant_us dt) + inject_Z td) * (1 # 1000000).
Proof.
  unfold dt_timestamp, datetime_add; cbn [instant_us].
  rewrite inject_Z_plus. reflexivity.
Qed.

Lemma movement_sample_ts (start_time : datetime) (pattern : string) (t : Q)
  (g : G) :
  ts (fst (movement_sample start_time pattern t g)) =
  py_int (dt_timestamp (datetime_add start_time (timedelta_seconds t)) * 1000).
Proof.
  unfold movement_sample, movement_sample_branch, bind, ret.
  destruct (simulate_movement t pattern g) as [[[[x y] z] mag] g1].
  destruct (corruption_branch 0.004 0.002 g1) as [[| |] g2]; reflexivity.
Qed.

Lemma blood_oxygen_sample_time (start_time : datetime) (pattern : string)
  (t : Q) (g : G) :
  time (fst (blood_oxygen_sample start_time pattern t g)) =
  py_int (dt_timestamp (datetime_add start_time (timedelta_seconds t))).
Proof.
  unfold blood_oxygen_sample, blood_oxygen_sample_branch, bind, ret.
  destruct (simulate_spo2 t pattern g) as [v g1].
  destruct (corruption_branch 0.005 0.003 g1) as [[| |] g2].
  - reflexivity.
  - now destruct (uniform 65 84 g2).
  - now destruct (uniform 101 110 g2).
Qed.

(** C10 (increasing timestamps).  Along the records one generator returns
    for one patient the timestamps strictly increase: the drifted instants of
    the heart-rate records, the Unix milliseconds of the movement records
    and, for a session that starts at or after the Unix epoch, as that of
    every configured patient does, the Unix seconds of the blood-oxygen
    records. *)
Theorem timestamps_increasing (fuel : nat) (cfg : config) :
  (forall g g' data,
     generate_heart_rate_data fuel cfg g = Some (data, g') ->
     StronglySorted Z.lt (map (fun r => instant_us (hr_timestamp r)) data)) /\
  (forall g g' data,
     generate_movement_data fuel cfg g = Some (data, g') ->
     StronglySorted Z.lt (map ts data)) /\
  ((0 <= instant_us (datetime_add BASE_TIME (spo2_offset cfg)))%Z ->
   forall g g' data,
     generate_blood_oxygen_data fuel cfg g = Some (data, g') ->
     StronglySorted Z.lt (map time data)) /\
  Forall (fun pc =>
            (0 <= instant_us (datetime_add BASE_TIME (spo2_offset (snd pc))))%Z)
    PATIENT_CONFIGS.
Proof.
  split; [|split; [|split; [|repeat constructor; discriminate]]].
  - intros g g' data H.
    apply with_records_inv in H. destruct H as (schedule & H & ->).
    pose proof (clock_drift_bound g) as Hd.
    apply heart_rate_ticks_inv in H. unfold heart_rate_loop in H.
    set (drift := fst (uniform (-0.0001) 0.0001 g)) in *.
    set (start_time := datetime_add BASE_TIME (hr_offset cfg)) in *.
    eapply sample_loop_schedule with
      (P := fun t r =>
         instant_us (hr_timestamp r) =
         (instant_us start_time + timedelta_seconds (t * (1 + drift)))%Z)
      in H.
    + destruct H as [Hall Hsorted].
      eapply records_increasing; [exact Hall|exact Hsorted|].
      clearbody drift start_time. clear Hall Hsorted.
      intros t1 t2 H0 H12. cbv beta.
      assert (H' : t1 * (1 + drift) + 0.8 <= t2 * (1 + drift)) by nra.
      pose proof (timedelta_seconds_apart _ _ _ H') as Hus.
      assert (Hlt : inject_Z (timedelta_seconds (t1 * (1 + drift))) <
                    inject_Z (timedelta_seconds (t2 * (1 + drift)))) by lra.
      rewrite <- Zlt_Qlt in Hlt. lia.
    + discriminate.
    + discriminate.
    + intros t st g0. rewrite stateless_fst.
      destruct (heart_rate_sample_times start_time drift
                  (activity_pattern cfg) t g0) as [-> _].
      reflexivity.
  - intros g g' data H.
    apply with_records_inv in H. destruct H as (schedule & H & ->).
    unfold movement_ticks in H.
    set (start_time := datetime_add BASE_TIME (movement_offset cfg)) in *.
    eapply sample_loop_schedule with
      (P := fun t r =>
         ts r = py_int (dt_timestamp
                          (datetime_add start_time (timedelta_seconds t))
                        * 1000))
      in H.
    + destruct H as [Hall Hsorted].
      eapply records_increasing; [exact Hall|exact Hsorted|].
      clearbody start_time. clear Hall Hsorted.
      intros t1 t2 H0 H12. apply py_int_lt.
      pose proof (timedelta_seconds_apart _ _ _ H12) as Hus.
      rewrite !dt_timestamp_add. lra.
    + discriminate.
    + discriminate.
    + intros t st g0. rewrite stateless_fst. apply movement_sample_ts.
  - intros Hepoch g g' data H.
    apply with_records_inv in H. destruct H as (schedule & H & ->).
    unfold blood_oxygen_ticks in H.
    set (start_time := datetime_add BASE_TIME (spo2_offset cfg)) in *.
    eapply sample_loop_schedule with
      (P := fun t r =>
         time r = py_int (dt_timestamp
                            (datetime_add start_time (timedelta_seconds t))))
      in H.
    + destruct H as [Hall Hsorted].
      eapply records_increasing; [exact Hall|exact Hsorted|].
      clearbody start_time. clear Hall Hsorted.
      intros t1 t2 H0 H12.
      pose proof (timedelta_seconds_apart _ _ _ H12) as Hus.
      pose proof (timedelta_seconds_nonneg t1 H0) as Hpos.
      rewrite Zle_Qle in Hepoch, Hpos.
      change (inject_Z 0) with 0 in Hepoch, Hpos.
      apply py_int_lt_nonneg; rewrite !dt_timestamp_add; lra.
    + discriminate.
    + discriminate.
    + intros t st g0. rewrite stateless_fst. apply blood_oxygen_sample_time.
Qed.

(** ** Blood oxygen *)

Lemma simulate_spo2_range (t : Q) (pattern : string) (g : G) :
  90 <= fst (simulate_spo2 t pattern g) /\
  fst (simulate_spo2 t pattern g) <= 100.
Proof.
  unfold simulate_spo2, bind, ret.
  match goal with |- context [let (a, g') := ?c g in _] =>
    destruct (c g) as [base g1] end.
  destruct (add_noise base 0.01 g1) as [v g2]. simpl.
  destruct (py_round_between (Qmax 90 (Qmin 100 v)) 1 900 1000) as [H1 H2];
    change (10 ^ 1)%positive with 10%positive in *.
  - apply Qle_trans with 90; [discriminate|apply Q.le_max_l].
  - apply Q.max_lub; [discriminate|].
    apply Qle_trans with 100; [apply Q.le_min_l|discriminate].
  - split; lra.
Qed.

Lemma quality_of_spec (v : Q) :
  (97 <= v /\ quality_of v = "good"%string) \/
  (94 <= v /\ v < 97 /\ quality_of v = "fair"%string) \/
  (v < 94 /\ quality_of v = "poor"%string).
Proof.
  unfold quality_of.
  destruct (Qle_bool 97 v) eqn:E1.
  { left. split; [now apply Qle_bool_iff|reflexivity]. }
  apply Qle_bool_gt in E1.
  destruct (Qle_bool 94 v) eqn:E2.
  { right; left. split; [now apply Qle_bool_iff|]. now split. }
  apply Qle_bool_gt in E2. right; right. now split.
Qed.

Lemma blood_oxygen_sample_branch_ok (start_time : datetime)
  (pattern : string) (t : Q) (g : G) :
  let rb := fst (blood_oxygen_sample_branch start_time pattern t g) in
  blood_oxygen_record_ok (fst rb) (snd rb).
Proof.
  unfold blood_oxygen_sample_branch, bind, ret.
  pose proof (simulate_spo2_range t pattern g) as Hr.
  destruct (simulate_spo2 t pattern g) as [v g1]. simpl in Hr.
  destruct (corruption_branch 0.005 0.003 g1) as [[| |] g2]; simpl.
  - split; [exact Hr|apply quality_of_spec].
  - pose proof (uniform_range 65 84 g2 ltac:(discriminate)) as [Hu1 Hu2].
    destruct (uniform 65 84 g2) as [u g3]. simpl in *.
    destruct (py_round_between u 1 650 840) as [H1 H2];
      change (10 ^ 1)%positive with 10%positive in *; [lra|lra|].
    split; [split; lra|reflexivity].
  - pose proof (uniform_range 101 110 g2 ltac:(discriminate)) as [Hu1 Hu2].
    destruct (uniform 101 110 g2) as [u g3]. simpl in *.
    destruct (py_round_between u 1 1010 1100) as [H1 H2];
      change (10 ^ 1)%positive with 10%positive in *; [lra|lra|].
    split; [split; lra|reflexivity].
Qed.

Lemma blood_oxygen_sample_eq (start_time : datetime) (pattern : string)
  (t : Q) (g : G) :
  fst (blood_oxygen_sample start_time pattern t g) =
  fst (fst (blood_oxygen_sample_branch start_time pattern t g)).
Proof.
  unfold blood_oxygen_sample, bind, ret.
  now destruct (blood_oxygen_sample_branch start_time pattern t g)
    as [[r b] g'].
Qed.

(** C8.  Every record of [generate_blood_oxygen_data] comes from one draw of
    the sample body; when no error branch fired in that draw, [pulse_quality]
    is "good" for [spo2 >= 97], "fair" for [94 <= spo2 < 97] and "poor"
    below, the reading being within [90, 100]; when an error branch fired it
    is "poor".  Hence it is "poor" whenever [spo2 < 94] or [spo2] is outside
    [90, 100]. *)
Theorem pulse_quality_contract (fuel : nat) (cfg : config) (g g' : G)
  (data : list blood_oxygen_record) :
  generate_blood_oxygen_data fuel cfg g = Some (data, g') ->
  Forall (blood_oxygen_contract cfg) data.
Proof.
  intro H. apply with_records_inv in H. destruct H as (schedule & H & ->).
  unfold blood_oxygen_ticks in H.
  eapply sample_loop_schedule with
    (P := fun t r => exists g0,
       let rb := fst (blood_oxygen_sample_branch
                        (datetime_add BASE_TIME (spo2_offset cfg))
                        (activity_pattern cfg) t g0) in
       r = fst rb /\ blood_oxygen_record_ok r (snd rb)) in H.
  - destruct H as [Hall _]. apply schedule_records in Hall.
    unfold records. apply Forall_map.
    eapply Forall_impl; [|exact Hall].
    intros [t r] [_ [g0 [Er Hok]]]. unfold blood_oxygen_contract.
    simpl in *. split; [eauto|].
    destruct (snd (fst (blood_oxygen_sample_branch _ _ t g0)));
      simpl in Hok.
    + intros Hlow. destruct Hok as [[H90 H100] [[H97 _]|[[H94 _]|[_ Hq]]]];
        [exfalso; destruct Hlow as [?|[?|?]]; lra
        |exfalso; destruct Hlow as [?|[?|?]]; lra
        |exact Hq].
    + intros _. apply Hok.
    + intros _. apply Hok.
  - discriminate.
  - discriminate.
  - intros t st g0. rewrite stateless_fst, blood_oxygen_sample_eq.
    exists g0. split; [reflexivity|apply blood_oxygen_sample_branch_ok].
Qed.

(** ** Movement *)

Lemma movement_sample_branch_raw (start_time : datetime) (pattern : string)
  (t : Q) (g : G) :
  let rb := fst (movement_sample_branch start_time pattern t g) in
  let axes := fst (movement_axes t pattern g) in
  snd rb = NoCorruption ->
  magnitude_of_raw_axes (fst rb) (fst (fst axes)) (snd (fst axes)) (snd axes).
Proof.
  unfold movement_sample_branch, simulate_movement, bind, ret.
  destruct (movement_axes t pattern g) as [[[x y] z] g1].
  destruct (corruption_branch 0.004 0.002 g1) as [[| |] g2]; simpl;
    [|discriminate|discriminate].
  intros _. repeat split.
Qed.

Lemma movement_sample_eq (start_time : datetime) (pattern : string)
  (t : Q) (g : G) :
  fst (movement_sample start_time pattern t g) =
  fst (fst (movement_sample_branch start_time pattern t g)).
Proof.
  unfold movement_sample, bind, ret.
  now destruct (movement_sample_branch start_time pattern t g)
    as [[r b] g'].
Qed.

(** C7, as amended.  Every record of [generate_movement_data] comes from one
    draw of the sample body; when no corruption branch fired in that draw,
    the record carries the three-decimal roundings of the axis values
    [x, y, z] that [simulate_movement] drew, and its magnitude is the
    three-decimal rounding of the Euclidean norm of those unrounded values. *)
Theorem magnitude_is_rounded_raw_norm (fuel : nat) (cfg : config) (g g' : G)
  (data : list movement_record) :
  generate_movement_data fuel cfg g = Some (data, g') ->
  Forall (movement_contract cfg) data.
Proof.
  intro H. apply with_records_inv in H. destruct H as (schedule & H & ->).
  unfold movement_ticks in H.
  eapply sample_loop_schedule with
    (P := fun t r => exists g0,
       let rb := fst (movement_sample_branch
                        (datetime_add BASE_TIME (movement_offset cfg))
                        (activity_pattern cfg) t g0) in
       let axes := fst (movement_axes t (activity_pattern cfg) g0) in
       r = fst rb /\
       (snd rb = NoCorruption ->
        magnitude_of_raw_axes r (fst (fst axes)) (snd (fst axes)) (snd axes)))
    in H.
  - destruct H as [Hall _]. apply schedule_records in Hall.
    unfold records. apply Forall_map.
    eapply Forall_impl; [|exact Hall].
    intros [t r] [_ [g0 Hr]]. unfold movement_contract. simpl in *. eauto.
  - discriminate.
  - discriminate.
  - intros t st g0. rewrite stateless_fst, movement_sample_eq.
    exists g0. split; [reflexivity|apply movement_sample_branch_raw].
Qed.

(** ** The exercise profile *)

Lemma heart_rate_base_exercise (t : Q) :
  heart_rate_base t "exercise_session" =
  if Qltb (normalized t) 0.3 then 70 + normalized t * 100
  else if Qltb (normalized t) 0.7
       then 130 + 20 * math_sin (normalized t * 20)
       else 130 - (normalized t - 0.7) * 200.
Proof. reflexivity. Qed.

(** C5, as amended.  For the exercise pattern the base heart rate follows a
    three-phase profile over a fixed window of [3 * 3600] seconds, whatever
    the configured duration: with [x = t / 10800], a ramp [70 + 100 x]
    (from 70 towards 100) while [x < 0.3], the plateau
    [130 + 20 sin (20 x)] while [0.3 <= x < 0.7], and the ramp
    [130 - 200 (x - 0.7)] down from 130 afterwards.  The phases are the
    first 30%, the middle 40% and the rest of the configured duration when
    that duration is the three hours of the window. *)
Theorem exercise_profile_fixed_window (t : Q) :
  let x := normalized t in
  let base_hr := heart_rate_base t "exercise_session" in
  x == t / 10800 /\
  (x < 0.3 -> base_hr = 70 + x * 100 /\
              (0 <= t -> 70 <= base_hr /\ base_hr < 100)) /\
  (0.3 <= x -> x < 0.7 -> base_hr = 130 + 20 * math_sin (x * 20)) /\
  (0.7 <= x -> base_hr = 130 - (x - 0.7) * 200 /\ base_hr <= 130) /\
  (forall cfg, session_duration cfg = 10800%Z ->
     x == t / inject_Z (session_duration cfg)).
Proof.
  intros x base_hr. unfold base_hr. rewrite heart_rate_base_exercise.
  fold x. split; [reflexivity|].
  split; [|split; [|split]].
  - intro H. apply Qltb_lt in H. rewrite H. split; [reflexivity|].
    apply Qltb_lt in H. intro Ht.
    assert (0 <= x) by (unfold x, normalized; apply Qle_shift_div_l;
                        [reflexivity|lra]).
    split; lra.
  - intros H1 H2. apply Qltb_ge in H1. apply Qltb_lt in H2.
    now rewrite H1, H2.
  - intro H.
    assert (E1 : Qltb x 0.3 = false) by (apply Qltb_ge; lra).
    assert (E2 : Qltb x 0.7 = false) by (apply Qltb_ge; exact H).
    rewrite E1, E2. split; [reflexivity|lra].
  - intros cfg ->. reflexivity.
Qed.

(** ** Runs return, and return one result *)

Lemma fuel_monotone_bind {A B} (c : nat -> Gen G A) (k : A -> nat -> Gen G B) :
  fuel_monotone c -> (forall a, fuel_monotone (k a)) ->
  fuel_monotone (fun n => gbind (c n) (fun a => k a n)).
Proof.
  intros Hc Hk n m g res Hnm. unfold gbind.
  destruct (c n g) as [[a g1]|] eqn:E; [|discriminate].
  rewrite (Hc _ _ _ _ Hnm E). apply Hk. exact Hnm.
Qed.

Lemma returns_with_bind {A B} (c : nat -> Gen G A) (k : A -> nat -> Gen G B)
  (n1 n2 : nat) :
  fuel_monotone c -> (forall a, fuel_monotone (k a)) ->
  returns_with c n1 -> (forall a, returns_with (k a) n2) ->
  returns_with (fun n => gbind (c n) (fun a => k a n)) (Nat.max n1 n2).
Proof.
  intros Mc Mk Hc Hk g. unfold gbind.
  destruct (Hc g) as [[a g1] E].
  rewrite (Mc n1 (Nat.max n1 n2) _ _ (Nat.le_max_l _ _) E).
  destruct (Hk a g1) as [res E'].
  exists res. exact (Mk a n2 (Nat.max n1 n2) _ _ (Nat.le_max_r _ _) E').
Qed.

Lemma fuel_monotone_ret {A} (a : A) : fuel_monotone (fun _ => gret a (G := G)).
Proof. intros n m g res _ H. exact H. Qed.

Lemma returns_with_ret {A} (a : A) (n : nat) :
  returns_with (fun _ => gret a (G := G)) n.
Proof. intro g. eexists. reflexivity. Qed.

Lemma returns_with_le {A} (c : nat -> Gen G A) (n m : nat) :
  fuel_monotone c -> (n <= m)%nat -> returns_with c n -> returns_with c m.
Proof.
  intros Mc Hnm Hc g. destruct (Hc g) as [res E].
  exists res. exact (Mc _ _ _ _ Hnm E).
Qed.

Lemma fuel_monotone_records {R} (c : nat -> Gen G (list (Q * option R))) :
  fuel_monotone c -> fuel_monotone (fun n => with_records (c n)).
Proof.
  intro Mc. unfold with_records.
  apply (fuel_monotone_bind c (fun schedule _ => gret (records schedule)));
    [assumption|]. intro a. apply fuel_monotone_ret.
Qed.

Lemma returns_with_records {R} (c : nat -> Gen G (list (Q * option R)))
  (n : nat) :
  returns_with c n -> returns_with (fun n => with_records (c n)) n.
Proof.
  intros Hc g. unfold with_records, gbind, gret.
  destruct (Hc g) as [[schedule g'] ->]. eexists. reflexivity.
Qed.

(** The tick loop of a channel, as one of the five generators has it. *)
Ltac ticks_of_channel :=
  unfold heart_rate_ticks, heart_rate_loop, movement_ticks,
    blood_oxygen_ticks, temperature_ticks, load_ticks;
  repeat match goal with
         | |- context [let (_, _) := uniform ?a ?b ?g in _] =>
             destruct (uniform a b g)
         end.

Lemma ticks_fuel_monotone (cfg : config) :
  fuel_monotone (fun n => heart_rate_ticks n cfg) /\
  fuel_monotone (fun n => movement_ticks n cfg) /\
  fuel_monotone (fun n => blood_oxygen_ticks n cfg) /\
  fuel_monotone (fun n => temperature_ticks n cfg) /\
  fuel_monotone (fun n => load_ticks n cfg).
Proof.
  repeat split; intros n m g res Hnm; ticks_of_channel;
    now apply sample_loop_fuel_mono.
Qed.

Lemma ticks_return (cfg : config) :
  returns_with (fun n => heart_rate_ticks n cfg) (channel_fuel HeartRate cfg)
  /\ returns_with (fun n => movement_ticks n cfg) (channel_fuel Movement cfg)
  /\ returns_with (fun n => blood_oxygen_ticks n cfg)
       (channel_fuel BloodOxygen cfg)
  /\ returns_with (fun n => temperature_ticks n cfg)
       (channel_fuel Temperature cfg)
  /\ returns_with (fun n => load_ticks n cfg) (channel_fuel Load cfg).
Proof.
  repeat split; intro g; ticks_of_channel.
  - destruct (sample_loop_returns (session_duration cfg) (hr_gaps cfg) 0.005
                (stateless (heart_rate_sample
                              (datetime_add BASE_TIME (hr_offset cfg)) q
                              (activity_pattern cfg)))
                0.85 1.15 ltac:(discriminate) ltac:(reflexivity)
                _ 0 tt g0 (channel_fuel_covers HeartRate cfg))
      as (schedule & g' & E).
    eexists. exact E.
  - destruct (sample_loop_returns (session_duration cfg) (movement_gaps cfg)
                0.003
                (stateless (movement_sample
                              (datetime_add BASE_TIME (movement_offset cfg))
                              (activity_pattern cfg)))
                0.08 0.12 ltac:(discriminate) ltac:(reflexivity)
                _ 0 tt g (channel_fuel_covers Movement cfg))
      as (schedule & g' & E).
    eexists. exact E.
  - destruct (sample_loop_returns (session_duration cfg) (spo2_gaps cfg) 0.01
                (stateless (blood_oxygen_sample
                              (datetime_add BASE_TIME (spo2_offset cfg))
                              (activity_pattern cfg)))
                1.5 2.5 ltac:(discriminate) ltac:(reflexivity)
                _ 0 tt g (channel_fuel_covers BloodOxygen cfg))
      as (schedule & g' & E).
    eexists. exact E.
  - destruct (sample_loop_returns (temperature_duration cfg) (temp_gaps cfg)
                0.015
                (temperature_sample
                   (datetime_add BASE_TIME (temp_offset cfg))
                   (activity_pattern cfg))
                8 14 ltac:(discriminate) ltac:(reflexivity)
                _ 0 (py_round q 1) g0 (channel_fuel_covers Temperature cfg))
      as (schedule & g' & E).
    eexists. exact E.
  - destruct (sample_loop_returns (session_duration cfg) (load_gaps cfg) 0.012
                (stateless (load_sample
                              (datetime_add BASE_TIME (load_offset cfg))
                              (activity_pattern cfg)))
                4 6 ltac:(discriminate) ltac:(reflexivity)
                _ 0 tt g (channel_fuel_covers Load cfg))
      as (schedule & g' & E).
    eexists. exact E.
Qed.

Lemma generate_patient_monotone (cfg : config) :
  fuel_monotone (fun n => generate_patient n cfg).
Proof.
  destruct (ticks_fuel_monotone cfg) as (M1 & M2 & M3 & M4 & M5).
  unfold generate_patient, generate_heart_rate_data, generate_movement_data,
    generate_blood_oxygen_data, generate_temperature_data, generate_load_data.
  repeat (first [ apply fuel_monotone_bind;
                    [now apply fuel_monotone_records|]; intro
                | apply fuel_monotone_ret ]).
Qed.

Lemma patient_fuel_covers (c : channel) (cfg : config) :
  (channel_fuel c cfg <= patient_fuel cfg)%nat.
Proof. unfold patient_fuel. cbn [fold_right]. destruct c; lia. Qed.

Lemma generate_patient_returns (cfg : config) :
  returns_with (fun n => generate_patient n cfg) (patient_fuel cfg).
Proof.
  destruct (ticks_fuel_monotone cfg) as (M1 & M2 & M3 & M4 & M5).
  destruct (ticks_return cfg) as (R1 & R2 & R3 & R4 & R5).
  pose proof (fun c => patient_fuel_covers c cfg) as Hle.
  set (n := patient_fuel cfg) in *.
  apply (returns_with_le _ _ _ M1 (Hle HeartRate)) in R1.
  apply (returns_with_le _ _ _ M2 (Hle Movement)) in R2.
  apply (returns_with_le _ _ _ M3 (Hle BloodOxygen)) in R3.
  apply (returns_with_le _ _ _ M4 (Hle Temperature)) in R4.
  apply (returns_with_le _ _ _ M5 (Hle Load)) in R5.
  apply returns_with_records in R1, R2, R3, R4, R5.
  intro g. unfold generate_patient, gbind, gret.
  destruct (R1 g) as [[d1 g1] E1]. unfold generate_heart_rate_data. rewrite E1.
  destruct (R2 g1) as [[d2 g2] E2]. unfold generate_movement_data. rewrite E2.
  destruct (R3 g2) as [[d3 g3] E3].
  unfold generate_blood_oxygen_data. rewrite E3.
  destruct (R4 g3) as [[d4 g4] E4].
  unfold generate_temperature_data. rewrite E4.
  destruct (R5 g4) as [[d5 g5] E5]. unfold generate_load_data. rewrite E5.
  eexists. reflexivity.
Qed.

Lemma generate_all_monotone (configs : list (string * config)) :
  fuel_monotone (fun n => generate_all n configs).
Proof.
  induction configs as [|[patient_id cfg] rest IH]; simpl.
  - apply fuel_monotone_ret.
  - apply fuel_monotone_bind; [apply generate_patient_monotone|]. intro files.
    apply fuel_monotone_bind; [exact IH|]. intro others.
    apply fuel_monotone_ret.
Qed.

Lemma generate_all_returns (configs : list (string * config)) :
  returns_with (fun n => generate_all n configs) (configs_fuel configs).
Proof.
  induction configs as [|[patient_id cfg] rest IH];
    cbn [generate_all configs_fuel fold_right snd].
  - apply returns_with_ret.
  - fold (configs_fuel rest).
    apply (returns_with_bind (fun n => generate_patient n cfg)
             (fun files n => gbind (generate_all n rest) (fun others =>
                gret ((patient_id, files) :: others)))).
    + apply generate_patient_monotone.
    + intro files. apply fuel_monotone_bind; [apply generate_all_monotone|].
      intro others. apply fuel_monotone_ret.
    + apply generate_patient_returns.
    + intros files g. unfold gbind, gret.
      destruct (IH g) as [[others g'] ->]. eexists. reflexivity.
Qed.

(** A loop whose duration is not positive returns at once, with no tick. *)
Lemma channel_ticks_nonpositive (c : channel) (cfg : config) (fuel : nat)
  (g : G) :
  (channel_duration c cfg <= 0)%Z ->
  channel_ticks c (Datatypes.S fuel) cfg g = Some ([], []).
Proof.
  intro Hd. destruct (channel_ticks_loop c cfg g)
    as (S & R & p & hi & body & st & g0 & _ & E).
  rewrite E. unfold tick_times. rewrite sample_loop_unfold.
  assert (Ed : Qltb 0 (inject_Z (channel_duration c cfg)) = false).
  { apply Qltb_ge. rewrite Zle_Qle in Hd. exact Hd. }
  now rewrite Ed.
Qed.

Lemma py_int_nonpositive (x : Q) : x <= 0 -> (py_int x <= 0)%Z.
Proof.
  intro H. destruct (py_int_near x) as [_ Hx]. destruct (Hx H) as [_ Hlt].
  assert (Hz : inject_Z (py_int x) < inject_Z (0 + 1))
    by (change (inject_Z (0 + 1)) with 1; lra).
  rewrite <- Zlt_Qlt in Hz. lia.
Qed.

(** A configured duration that is not positive gives the loop of the channel
    a duration that is not positive. *)
Lemma nonpositive_channel_duration (c : channel) (cfg : config) :
  nonpositive_duration c cfg -> (channel_duration c cfg <= 0)%Z.
Proof.
  destruct c; cbn [nonpositive_duration channel_duration]; intro H;
    unfold session_duration, temperature_duration;
    apply py_int_nonpositive; try exact H; lra.
Qed.

(** A run returns one entry for each patient, under its identifier. *)
Lemma generate_all_ids (fuel : nat) (configs : list (string * config))
  (g g' : G) (out : list (string * patient_files)) :
  generate_all fuel configs g = Some (out, g') ->
  map fst out = map fst configs.
Proof.
  revert g out. induction configs as [|[patient_id cfg] rest IH];
    intros g out H.
  - injection H as <- <-. reflexivity.
  - cbn [generate_all] in H. unfold gbind, gret in H.
    destruct (generate_patient fuel cfg g) as [[files g1]|];
      [|discriminate].
    destruct (generate_all fuel rest g1) as [[others g2]|] eqn:E;
      [|discriminate].
    injection H as <- <-. simpl. f_equal. exact (IH _ _ E).
Qed.

(** C4, as amended.  No configuration is refused.  For configurations
    within the limits, a run returns files for every patient once the fuel
    covers the loops, whether the durations are positive or not; the
    generator of a channel whose configured duration is not positive returns
    without visiting a tick, so with an empty list of records; and the tick
    steps are literals of the generators with a positive lower bound, which
    no configuration can set. *)
Theorem no_configuration_check (configs : list (string * config)) (g : G) :
  Forall (fun pc => within_limits (snd pc)) configs ->
  (exists fuel0 out g',
     (forall fuel, (fuel0 <= fuel)%nat ->
        generate_all fuel configs g = Some (out, g')) /\
     map fst out = map fst configs) /\
  (forall pc c fuel g0,
     In pc configs -> nonpositive_duration c (snd pc) ->
     channel_ticks c (Datatypes.S fuel) (snd pc) g0 = Some ([], [])) /\
  (forall c, 0 < channel_step c).
Proof.
  intros _. split; [|split].
  - destruct (generate_all_returns configs g) as [[out g'] E].
    exists (configs_fuel configs), out, g'. split.
    + intros fuel Hfuel.
      exact (generate_all_monotone configs _ _ _ _ Hfuel E).
    + exact (generate_all_ids _ _ _ _ _ E).
  - intros pc c fuel g0 _ Hd. apply channel_ticks_nonpositive.
    now apply nonpositive_channel_duration.
  - apply channel_step_pos.
Qed.

(** The first record of a heart-rate file is the one the body makes at
    [t = 0], after the draw of the drift and the draw of the dropout, when
    the session has a positive duration, no gap holds 0 and the dropout
    draw is 0.005 or more. *)
Lemma heart_rate_first_record (fuel : nat) (cfg : config) (g g' : G)
  (data : list heart_rate_record) :
  generate_heart_rate_data fuel cfg g = Some (data, g') ->
  (0 < session_duration cfg)%Z ->
  is_in_gap 0 (hr_gaps cfg) = false ->
  let g0 := snd (uniform (-0.0001) 0.0001 g) in
  Qltb (fst (random g0)) 0.005 = false ->
  hd_error data =
  Some (fst (heart_rate_sample (datetime_add BASE_TIME (hr_offset cfg))
               (fst (uniform (-0.0001) 0.0001 g)) (activity_pattern cfg) 0
               (snd (random g0)))).
Proof.
  intros H Hd Hgap g0 Hdrop.
  apply with_records_inv in H. destruct H as (schedule & H & ->).
  unfold heart_rate_ticks in H. subst g0.
  destruct (uniform (-0.0001) 0.0001 g) as [drift g0]. cbn [fst snd] in *.
  unfold heart_rate_loop in H.
  destruct fuel as [|fuel]; [discriminate|].
  rewrite sample_loop_unfold in H.
  assert (Et : Qltb 0 (inject_Z (session_duration cfg)) = true).
  { apply Qltb_lt. change 0 with (inject_Z 0). rewrite <- Zlt_Qlt. exact Hd. }
  rewrite Et in H.
  unfold sample_tick at 1 in H. unfold bind, ret in H.
  rewrite Hgap in H. cbn [negb] in H.
  unfold should_have_micro_dropout, bind, ret in H.
  destruct (random g0) as [r g1]. cbn [fst snd] in *. rewrite Hdrop in H.
  cbn [negb] in H. unfold stateless at 1, bind, ret in H.
  destruct (heart_rate_sample _ _ _ 0 g1) as [r0 g2]. cbn [fst].
  destruct (uniform 0.85 1.15 g2) as [step g3].
  destruct (sample_loop _ _ _ _ _ _ fuel _ _ g3) as [[rest g4]|];
    [|discriminate].
  injection H as <- <-. reflexivity.
Qed.
(** The first entry of a run is the first patient's, and its heart-rate
    file is the first list generated. *)
Lemma generate_all_first (fuel : nat) (patient_id : string) (cfg : config)
  (rest : list (string * config)) (g g' : G)
  (out : list (string * patient_files)) :
  generate_all fuel ((patient_id, cfg) :: rest) g = Some (out, g') ->
  exists files others g1,
    out = (patient_id, files) :: others /\
    generate_heart_rate_data fuel cfg g = Some (heart_rate_csv files, g1).
Proof.
  cbn [generate_all]. unfold generate_patient, gbind, gret.
  destruct (generate_heart_rate_data fuel cfg g) as [[d1 g1]|];
    [|discriminate].
  destruct (generate_movement_data fuel cfg g1) as [[d2 g2]|];
    [|discriminate].
  destruct (generate_blood_oxygen_data fuel cfg g2) as [[d3 g3]|];
    [|discriminate].
  destruct (generate_temperature_data fuel cfg g3) as [[d4 g4]|];
    [|discriminate].
  destruct (generate_load_data fuel cfg g4) as [[d5 g5]|]; [|discriminate].
  destruct (generate_all fuel rest g5) as [[others g6]|]; [|discriminate].
  intro H; injection H as <- <-. eexists _, _, _. split; reflexivity.
Qed.

End Properties.

(** ** Two runs

    The generators draw from the process-wide generator and read nothing
    else: run on two generators that deliver the same draws, each returns
    the same value. *)

Section TwoRuns.

Context {G1 G2 : Type} {R1 : PyRandom G1} {R2 : PyRandom G2} {M : PyMath}.
Variable same : G1 -> G2 -> Prop.
Hypothesis draws : same_draws R1 R2 same.

Lemma alike_ret {A} (a : A) : alike same (ret a) (ret a).
Proof. intros g1 g2 H. split; [reflexivity|exact H]. Qed.

Lemma alike_bind {A B} (c1 : Rand G1 A) (c2 : Rand G2 A)
  (k1 : A -> Rand G1 B) (k2 : A -> Rand G2 B) :
  alike same c1 c2 -> (forall a, alike same (k1 a) (k2 a)) ->
  alike same (bind c1 k1) (bind c2 k2).
Proof.
  intros Hc Hk g1 g2 H. unfold bind.
  destruct (Hc g1 g2 H) as [E H'].
  destruct (c1 g1) as [a g1'], (c2 g2) as [a' g2']. simpl in E, H'. subst a'.
  exact (Hk a g1' g2' H').
Qed.

Lemma alike_random : alike same (random (G := G1)) (random (G := G2)).
Proof. exact (same_random _ _ _ draws). Qed.

Lemma alike_gauss (mu sigma : Q) :
  alike same (gauss (G := G1) mu sigma) (gauss (G := G2) mu sigma).
Proof. exact (same_gauss _ _ _ draws mu sigma). Qed.

Lemma alike_randint (a b : Z) :
  alike same (randint (G := G1) a b) (randint (G := G2) a b).
Proof. exact (same_randint _ _ _ draws a b). Qed.

(** One step along two computations of the same shape. *)
Ltac alike_step :=
  first
    [ apply alike_ret
    | apply alike_random
    | apply alike_gauss
    | apply alike_randint
    | match goal with
      | |- alike _ (if ?b then _ else _) (if ?b then _ else _) => destruct b
      | |- alike _ (let '(_, _) := ?x in _) _ => destruct x
      | |- alike _ (match ?x with _ => _ end) (match ?x with _ => _ end) =>
          destruct x
      end
    | apply alike_bind; [|intro] ].

Ltac alike_all := cbv zeta; repeat (alike_step; cbv beta zeta).

Lemma alike_uniform (a b : Q) :
  alike same (uniform (G := G1) a b) (uniform (G := G2) a b).
Proof. unfold uniform. alike_all. Qed.

Lemma alike_add_noise (value noise_level : Q) :
  alike same (add_noise (G := G1) value noise_level)
    (add_noise (G := G2) value noise_level).
Proof. unfold add_noise. alike_all. Qed.

Lemma alike_simulate_heart_rate (t : Q) (pattern : string) :
  alike same (simulate_heart_rate (G := G1) t pattern)
    (simulate_heart_rate (G := G2) t pattern).
Proof. unfold simulate_heart_rate, add_noise. alike_all. Qed.

Lemma alike_heart_rate_sample (start_time : datetime) (drift_rate : Q)
  (pattern : string) (t : Q) :
  alike same (heart_rate_sample (G := G1) start_time drift_rate pattern t)
    (heart_rate_sample (G := G2) start_time drift_rate pattern t).
Proof.
  unfold heart_rate_sample, simulate_heart_rate, add_noise, uniform.
  alike_all.
Qed.

Lemma alike_movement_sample (start_time : datetime) (pattern : string)
  (t : Q) :
  alike same (movement_sample (G := G1) start_time pattern t)
    (movement_sample (G := G2) start_time pattern t).
Proof.
  unfold movement_sample, movement_sample_branch, simulate_movement,
    movement_axes, corruption_branch, add_noise, uniform.
  alike_all.
Qed.

Lemma alike_blood_oxygen_sample (start_time : datetime) (pattern : string)
  (t : Q) :
  alike same (blood_oxygen_sample (G := G1) start_time pattern t)
    (blood_oxygen_sample (G := G2) start_time pattern t).
Proof.
  unfold blood_oxygen_sample, blood_oxygen_sample_branch, simulate_spo2,
    corruption_branch, add_noise, uniform.
  alike_all.
Qed.

Lemma alike_temperature_sample (start_time : datetime) (pattern : string)
  (t ambient : Q) :
  alike same (temperature_sample (G := G1) start_time pattern t ambient)
    (temperature_sample (G := G2) start_time pattern t ambient).
Proof.
  unfold temperature_sample, simulate_temperature, corruption_branch,
    add_noise, uniform.
  alike_all.
Qed.

Lemma alike_load_sample (start_time : datetime) (pattern : string) (t : Q) :
  alike same (load_sample (G := G1) start_time pattern t)
    (load_sample (G := G2) start_time pattern t).
Proof.
  unfold load_sample, simulate_load, simulate_heart_rate, add_noise.
  alike_all.
Qed.

Lemma alike_gret {A} (a : A) : alike_gen same (gret a) (gret a).
Proof. intros g1 g2 H. split; [reflexivity|exact H]. Qed.

Lemma alike_gbind {A B} (c1 : Gen G1 A) (c2 : Gen G2 A)
  (k1 : A -> Gen G1 B) (k2 : A -> Gen G2 B) :
  alike_gen same c1 c2 -> (forall a, alike_gen same (k1 a) (k2 a)) ->
  alike_gen same (gbind c1 k1) (gbind c2 k2).
Proof.
  intros Hc Hk g1 g2 H. unfold gbind. specialize (Hc g1 g2 H).
  destruct (c1 g1) as [[a g1']|], (c2 g2) as [[a' g2']|];
    try contradiction; [|exact I].
  destruct Hc as [<- H']. exact (Hk a g1' g2' H').
Qed.

Lemma alike_stateless {R} (body1 : Q -> Rand G1 R) (body2 : Q -> Rand G2 R) :
  (forall t, alike same (body1 t) (body2 t)) ->
  forall t st, alike same (stateless body1 t st) (stateless body2 t st).
Proof. intros Hb t st. unfold stateless. alike_all. apply Hb. Qed.

Lemma alike_sample_tick {S R} (gaps : list (Z * Z)) (p lo hi : Q)
  (body1 : Q -> S -> Rand G1 (R * S)) (body2 : Q -> S -> Rand G2 (R * S)) :
  (forall t st, alike same (body1 t st) (body2 t st)) ->
  forall t st,
  alike same (sample_tick gaps p body1 lo hi t st)
    (sample_tick gaps p body2 lo hi t st).
Proof.
  intros Hb t st.
  unfold sample_tick, should_have_micro_dropout, uniform. alike_all.
  apply Hb.
Qed.

Lemma alike_sample_loop {S R} (duration : Z) (gaps : list (Z * Z))
  (p lo hi : Q)
  (body1 : Q -> S -> Rand G1 (R * S)) (body2 : Q -> S -> Rand G2 (R * S)) :
  (forall t st, alike same (body1 t st) (body2 t st)) ->
  forall fuel t st,
  alike_gen same (sample_loop duration gaps p body1 lo hi fuel t st)
    (sample_loop duration gaps p body2 lo hi fuel t st).
Proof.
  intros Hb. induction fuel as [|fuel IH]; intros t st g1 g2 H; [exact I|].
  cbn [sample_loop].
  destruct (Qltb t (inject_Z duration)); [|split; [reflexivity|exact H]].
  destruct (alike_sample_tick gaps p lo hi body1 body2 Hb t st g1 g2 H)
    as [E H'].
  destruct (sample_tick gaps p body1 lo hi t st g1) as [[[e st1] t1] g1'].
  destruct (sample_tick gaps p body2 lo hi t st g2) as [[[e' st1'] t1'] g2'].
  simpl in E, H'. injection E as <- <- <-.
  specialize (IH t1 st1 g1' g2' H').
  destruct (sample_loop duration gaps p body1 lo hi fuel t1 st1 g1')
    as [[rest g1'']|],
    (sample_loop duration gaps p body2 lo hi fuel t1 st1 g2')
    as [[rest' g2'']|]; try contradiction; [|exact I].
  destruct IH as [<- H'']. split; [reflexivity|exact H''].
Qed.

Lemma alike_with_records {R} (c1 : Gen G1 (list (Q * option R)))
  (c2 : Gen G2 (list (Q * option R))) :
  alike_gen same c1 c2 -> alike_gen same (with_records c1) (with_records c2).
Proof.
  intro Hc. unfold with_records. apply alike_gbind; [exact Hc|].
  intro schedule. apply alike_gret.
Qed.

Lemma alike_generate_patient (fuel : nat) (cfg : config) :
  alike_gen same (generate_patient (G := G1) fuel cfg)
    (generate_patient (G := G2) fuel cfg).
Proof.
  unfold generate_patient.
  apply alike_gbind; [|intro hr_data].
  { apply alike_with_records. intros g1 g2 H. unfold heart_rate_ticks.
    destruct (alike_uniform (-0.0001) 0.0001 g1 g2 H) as [E H'].
    destruct (uniform (-0.0001) 0.0001 g1) as [d g1'],
      (uniform (-0.0001) 0.0001 g2) as [d' g2'].
    simpl in E, H'. subst d'. unfold heart_rate_loop.
    apply alike_sample_loop; [|exact H'].
    apply alike_stateless. apply alike_heart_rate_sample. }
  apply alike_gbind; [|intro movement_data].
  { apply alike_with_records. unfold movement_ticks.
    apply alike_sample_loop.
    apply alike_stateless. apply alike_movement_sample. }
  apply alike_gbind; [|intro spo2_data].
  { apply alike_with_records. unfold blood_oxygen_ticks.
    apply alike_sample_loop.
    apply alike_stateless. apply alike_blood_oxygen_sample. }
  apply alike_gbind; [|intro temp_data].
  { apply alike_with_records. intros g1 g2 H. unfold temperature_ticks.
    destruct (alike_uniform 20 24 g1 g2 H) as [E H'].
    destruct (uniform 20 24 g1) as [u g1'], (uniform 20 24 g2) as [u' g2'].
    simpl in E, H'. subst u'.
    apply alike_sample_loop; [|exact H'].
    intros t st. apply alike_temperature_sample. }
  apply alike_gbind; [|intro load_data].
  { apply alike_with_records. unfold load_ticks.
    apply alike_sample_loop.
    apply alike_stateless. apply alike_load_sample. }
  apply alike_gret.
Qed.

Lemma alike_generate_all (fuel : nat) (configs : list (string * config)) :
  alike_gen same (generate_all (G := G1) fuel configs)
    (generate_all (G := G2) fuel configs).
Proof.
  induction configs as [|[patient_id cfg] rest IH]; cbn [generate_all].
  - apply alike_gret.
  - apply alike_gbind; [apply alike_generate_patient|]. intro files.
    apply alike_gbind; [exact IH|]. intro others. apply alike_gret.
Qed.

End TwoRuns.

(** C1 (determinism).  [random.seed(42)] fixes the files.  Two runs of the
    script, [random.seed(42)] followed by [main()], on generators that
    deliver the same draws once seeded alike, return the same files for all
    patients and channels, whatever fuel each is given; a run returns once
    the fuel covers the loops, with one entry for each configured patient;
    and it is the seed that fixes the files: started from two generator
    states that deliver different draws, as those of two processes are
    before seeding, the loop of [main] over the configured patients returns
    different files. *)
Theorem main_deterministic :
  (forall (G1 G2 : Type) (R1 : PyRandom G1) (R2 : PyRandom G2) (M : PyMath)
          (same : G1 -> G2 -> Prop),
     same_draws R1 R2 same ->
     same (seed (PyRandom := R1) 42) (seed (PyRandom := R2) 42) ->
     forall fuel1 fuel2 out1 out2,
       main (RNG := R1) fuel1 = Some out1 ->
       main (RNG := R2) fuel2 = Some out2 ->
       out1 = out2) /\
  (forall (G : Type) (R : PyRandom G) (M : PyMath),
     exists fuel0 out,
       (forall fuel, (fuel0 <= fuel)%nat -> main (RNG := R) fuel = Some out)
       /\ map fst out = map fst PATIENT_CONFIGS) /\
  (exists g1 g2 : script,
     (exists fuel out1 out2 g1' g2',
        generate_all fuel PATIENT_CONFIGS g1 = Some (out1, g1') /\
        generate_all fuel PATIENT_CONFIGS g2 = Some (out2, g2')) /\
     forall fuel1 fuel2 out1 out2 g1' g2',
       generate_all fuel1 PATIENT_CONFIGS g1 = Some (out1, g1') ->
       generate_all fuel2 PATIENT_CONFIGS g2 = Some (out2, g2') ->
       out1 <> out2).
Proof.
  split; [|split].
  - intros G1 G2 R1 R2 M same Hdraws Hseed fuel1 fuel2 out1 out2.
    unfold main.
    destruct (generate_all fuel1 PATIENT_CONFIGS (seed 42))
      as [[o1 g1]|] eqn:E1; [|discriminate].
    destruct (generate_all fuel2 PATIENT_CONFIGS (seed 42))
      as [[o2 g2]|] eqn:E2; [|discriminate].
    intros H1 H2; injection H1 as <-; injection H2 as <-.
    apply (generate_all_monotone PATIENT_CONFIGS _ _ _ _
             (Nat.le_max_l fuel1 fuel2)) in E1.
    apply (generate_all_monotone PATIENT_CONFIGS _ _ _ _
             (Nat.le_max_r fuel1 fuel2)) in E2.
    pose proof (alike_generate_all same Hdraws (Nat.max fuel1 fuel2)
                  PATIENT_CONFIGS _ _ Hseed) as H.
    cbv beta in E1, E2. rewrite E1, E2 in H. now destruct H.
  - intros G R M.
    destruct (generate_all_returns PATIENT_CONFIGS (seed 42)) as [[out g'] E].
    exists main_fuel, out. split.
    + intros fuel Hfuel. unfold main.
      now rewrite (generate_all_monotone PATIENT_CONFIGS _ _ _ _ Hfuel E).
    + exact (generate_all_ids _ _ _ _ _ E).
  - exists heart_rate_script, []. split.
    + destruct (generate_all_returns PATIENT_CONFIGS heart_rate_script)
        as [[out1 g1'] E1].
      destruct (generate_all_returns PATIENT_CONFIGS ([] : script))
        as [[out2 g2'] E2].
      exists main_fuel, out1, out2, g1', g2'. split; assumption.
    + intros fuel1 fuel2 out1 out2 g1' g2' E1 E2 Eq.
      apply generate_all_first in E1, E2.
      destruct E1 as (f1 & o1 & s1 & -> & H1).
      destruct E2 as (f2 & o2 & s2 & -> & H2).
      injection Eq as Ef _.
      apply heart_rate_first_record in H1;
        [|reflexivity|reflexivity|vm_compute; reflexivity].
      apply heart_rate_first_record in H2;
        [|reflexivity|reflexivity|vm_compute; reflexivity].
      rewrite Ef in H1. rewrite H1 in H2. clear - H2.
      apply (f_equal (option_map bpm)) in H2.
      vm_compute in H2. discriminate.
Qed.

(** * The model on short sessions *)

(** Five seconds of heart rate with the gap [(1, 2)]: the ticks are 0, 1, 2,
    3, 4, records are appended at 0, 3 and 4, none of them in the gap. *)
Lemma gap_exclusion_witness :
  exists all em,
    channel_ticks HeartRate 10 (session (5 # 3600) "morning_routine")
      heart_rate_script = Some (all, em) /\
    (map Qred all = [0; 1; 2; 3; 4] /\ map Qred em = [0; 3; 4]) /\
    forall t gap, In t em -> In gap [(1, 2)%Z] -> ~ in_gap t gap.
Proof.
  eexists _, _. split; [vm_compute; reflexivity|].
  split; [split; vm_compute; reflexivity|].
  eapply (gap_exclusion HeartRate (session (5 # 3600) "morning_routine") 10
            heart_rate_script).
  vm_compute; reflexivity.
Defined.

(** The short sessions are within the limits. *)
Lemma session_within_limits (hours : Q) (pattern : string) :
  Qabs hours <= 100000 -> within_limits (session hours pattern).
Proof.
  intro H. split; [exact H|].
  repeat (constructor; [vm_compute; discriminate|]). constructor.
Qed.

(** The same session returns with a fuel of 7 or more; its clock visits 0,
    1, 2, 3, 4 and leaves at 5, and the last record is from before the fifth
    second. *)
Lemma elapsed_time_bounded_witness :
  within_limits (session (5 # 3600) "morning_routine") /\
  exists all em,
    channel_ticks HeartRate 7 (session (5 # 3600) "morning_routine")
      heart_rate_script = Some (all, em) /\
    (map Qred all = [0; 1; 2; 3; 4] /\ map Qred em = [0; 3; 4]) /\
    advances 5 (0.85 - tolerance) (1.15 + tolerance) 0 all /\
    StronglySorted Qlt all /\ last em 0 < 5.
Proof.
  assert (Hlim : within_limits (session (5 # 3600) "morning_routine"))
    by (apply session_within_limits; vm_compute; discriminate).
  split; [exact Hlim|].
  destruct (proj1 (elapsed_time_bounded HeartRate
                     (session (5 # 3600) "morning_routine")
                     heart_rate_script) Hlim)
    as (fuel0 & all & em & _ & Hsame & Hclock & Hsorted & _ & _ & _ & Hlast).
  assert (Hrun : exists a e,
            channel_ticks HeartRate 7 (session (5 # 3600) "morning_routine")
              heart_rate_script = Some (a, e) /\
            map Qred a = [0; 1; 2; 3; 4] /\ map Qred e = [0; 3; 4]).
  { eexists _, _. split; [vm_compute; reflexivity|].
    split; vm_compute; reflexivity. }
  destruct Hrun as (a & e & Erun & Ha & He).
  pose proof (Hsame _ _ Erun) as Eq. injection Eq as -> ->.
  exists all, em. split; [exact Erun|]. split; [split; assumption|].
  split; [exact Hclock|]. split; [exact Hsorted|].
  apply Hlast. intros ->. discriminate.
Defined.

(** The three records of the session: the error value with confidence 0.0,
    then two readings of 65 with a low and a high confidence. *)
Lemma heart_rate_records_ok_witness :
  exists data g',
    generate_heart_rate_data 10 (session (5 # 3600) "morning_routine")
      heart_rate_script = Some (data, g') /\
    map bpm data = [-1; 65; 65]%Z /\
    map confidence data = [0.0; 0.35; 0.92] /\
    Forall heart_rate_record_ok data.
Proof.
  eexists _, _. split; [vm_compute; reflexivity|].
  split; [vm_compute; reflexivity|]. split; [vm_compute; reflexivity|].
  apply (heart_rate_records_ok 10 (session (5 # 3600) "morning_routine")
           heart_rate_script []).
  vm_compute; reflexivity.
Defined.

(** The session draws a drift of 0.00005: the records at [t = 3] and
    [t = 4] are stamped 150 and 200 microseconds late, and the loop run
    without drift visits the same ticks with the same readings. *)
Lemma clock_drift_reported_only_witness :
  exists schedule,
    heart_rate_ticks 10 (session (5 # 3600) "morning_routine")
      heart_rate_script = Some (schedule, []) /\
    fst (uniform (-0.0001) 0.0001 heart_rate_script) == 0.00005 /\
    map (fun r => instant_us (hr_timestamp r)) (records schedule) =
      [1710489600000000; 1710489603000150; 1710489604000200]%Z /\
    exists undrifted,
      heart_rate_loop 10 (session (5 # 3600) "morning_routine") 0
        (snd (uniform (-0.0001) 0.0001 heart_rate_script))
      = Some (undrifted, []) /\
      map physiology undrifted = map physiology schedule.
Proof.
  eexists. split; [vm_compute; reflexivity|]. split; [vm_compute; reflexivity|].
  split; [vm_compute; reflexivity|].
  edestruct (clock_drift_reported_only 10
               (session (5 # 3600) "morning_routine") heart_rate_script [])
    as (_ & _ & H); [vm_compute; reflexivity|].
  exact (H 0).
Defined.

(** Eight seconds of blood oxygen: a low and a high injected reading, both
    "poor", and a reading of 95.1, "fair". *)
Lemma pulse_quality_contract_witness :
  exists data g',
    generate_blood_oxygen_data 10 (session (8 # 3600) "resting")
      blood_oxygen_script = Some (data, g') /\
    map (fun r => (spo2 r, pulse_quality r)) data =
      [(74.5, "poor"%string); (105.5, "poor"%string); (95.1, "fair"%string)]
    /\ Forall (blood_oxygen_contract (session (8 # 3600) "resting")) data.
Proof.
  eexists _, _. split; [vm_compute; reflexivity|].
  split; [vm_compute; reflexivity|].
  apply (pulse_quality_contract 10 (session (8 # 3600) "resting")
           blood_oxygen_script []).
  vm_compute; reflexivity.
Defined.

(** The timestamps of the three short sessions increase. *)
Lemma timestamps_increasing_witness :
  exists hr mv ox,
    generate_heart_rate_data 10 (session (5 # 3600) "morning_routine")
      heart_rate_script = Some (hr, []) /\
    generate_movement_data 20 (session (1 # 3600) "morning_routine")
      movement_script = Some (mv, []) /\
    generate_blood_oxygen_data 10 (session (8 # 3600) "resting")
      blood_oxygen_script = Some (ox, []) /\
    map time ox = [1710489825; 1710489829; 1710489831]%Z /\
    StronglySorted Z.lt (map (fun r => instant_us (hr_timestamp r)) hr) /\
    StronglySorted Z.lt (map ts mv) /\
    StronglySorted Z.lt (map time ox).
Proof.
  eexists _, _, _.
  split; [vm_compute; reflexivity|]. split; [vm_compute; reflexivity|].
  split; [vm_compute; reflexivity|].
  split; [vm_compute; reflexivity|].
  split; [|split].
  - eapply (proj1 (timestamps_increasing 10
                     (session (5 # 3600) "morning_routine"))
              heart_rate_script).
    vm_compute; reflexivity.
  - eapply (proj1 (proj2 (timestamps_increasing 20
                            (session (1 # 3600) "morning_routine")))
              movement_script).
    vm_compute; reflexivity.
  - eapply (proj1 (proj2 (proj2 (timestamps_increasing 10
                                   (session (8 # 3600) "resting"))))
              ltac:(discriminate) blood_oxygen_script).
    vm_compute; reflexivity.
Defined.

(** One second of movement: the first record has a magnitude of 9.811, and
    each record the magnitude of its unrounded axis values. *)
Lemma magnitude_is_rounded_raw_norm_witness :
  exists data,
    generate_movement_data 20 (session (1 # 3600) "morning_routine")
      movement_script = Some (data, []) /\
    map magnitude (firstn 1 data) = [Some 9.811] /\
    Forall (movement_contract (session (1 # 3600) "morning_routine")) data.
Proof.
  eexists. split; [vm_compute; reflexivity|]. split; [vm_compute; reflexivity|].
  eapply (magnitude_is_rounded_raw_norm 20
            (session (1 # 3600) "morning_routine") movement_script).
  vm_compute; reflexivity.
Defined.

(** At [t = 3000] the phase clock reads 5/18, below 0.3: the base heart
    rate is on the first ramp, at 880/9. *)
Lemma exercise_profile_fixed_window_witness :
  normalized 3000 == 5 # 18 /\
  heart_rate_base 3000 "exercise_session" = 70 + normalized 3000 * 100 /\
  heart_rate_base 3000 "exercise_session" == 880 # 9.
Proof.
  destruct (exercise_profile_fixed_window 3000) as (_ & H & _).
  split; [vm_compute; reflexivity|]. split; [|reflexivity].
  apply H. reflexivity.
Defined.

(** A session of zero hours is within the limits and is run like any other:
    the run returns an entry for its patient, and the heart-rate generator
    returns without a tick. *)
Lemma no_configuration_check_witness :
  within_limits (session 0 "morning_routine") /\
  (exists fuel0 out g',
     (forall fuel, (fuel0 <= fuel)%nat ->
        generate_all fuel
          [("patient_000"%string, session 0 "morning_routine")]
          ([] : script) = Some (out, g')) /\
     map fst out = ["patient_000"%string]) /\
  channel_ticks HeartRate 1 (session 0 "morning_routine") ([] : script)
    = Some ([], []).
Proof.
  assert (Hlim : within_limits (session 0 "morning_routine"))
    by (apply session_within_limits; vm_compute; discriminate).
  split; [exact Hlim|].
  destruct (no_configuration_check
              [("patient_000"%string, session 0 "morning_routine")]
              ([] : script)
              (Forall_cons (P := fun pc => within_limits (snd pc))
                 ("patient_000"%string, session 0 "morning_routine")
                 Hlim (Forall_nil _)))
    as (Hrun & Hempty & _).
  split; [exact Hrun|].
  apply (Hempty ("patient_000"%string, session 0 "morning_routine") HeartRate);
    [left; reflexivity|simpl; discriminate].
Defined.

(** The constant generator delivers the draws of the seeded script, which is
    the exhausted one: the run on the one and the run on the other return
    the same files. *)
Lemma main_deterministic_witness :
  same_draws script_PyRandom constant_PyRandom (fun g1 _ => g1 = []) /\
  exists fuel0 out,
    forall fuel, (fuel0 <= fuel)%nat ->
    main (RNG := script_PyRandom) fuel = Some out /\
    main (RNG := constant_PyRandom) fuel = Some out.
Proof.
  assert (Hdraws : same_draws script_PyRandom constant_PyRandom
                     (fun g1 _ => g1 = [])).
  { split; intros; subst; split; reflexivity. }
  split; [exact Hdraws|].
  destruct main_deterministic as (Hsame & Hret & _).
  destruct (Hret script script_PyRandom fixed_PyMath)
    as (fuel1 & out1 & Hout1 & _).
  destruct (Hret unit constant_PyRandom fixed_PyMath)
    as (fuel2 & out2 & Hout2 & _).
  exists (Nat.max fuel1 fuel2), out1. intros fuel Hfuel.
  specialize (Hout1 fuel ltac:(lia)). specialize (Hout2 fuel ltac:(lia)).
  split; [exact Hout1|].
  rewrite (Hsame _ _ _ _ _ _ Hdraws eq_refl _ _ _ _ Hout1 Hout2).
  exact Hout2.
Defined.

(** * Where the code departs from the specification *)

(** C4.  A configuration with a duration of zero is not refused: the run
    returns, the four session channels with no record and the temperature
    channel, whose duration is extended by its offset and ten minutes, with
    137 records. *)
Lemma nonpositive_duration_not_rejected :
  invalid_configuration (session 0 "morning_routine") /\
  ~ configuration_rejected (G := script)
      [("patient_000"%string, session 0 "morning_routine")] /\
  exists out g',
    generate_all 140 [("patient_000"%string, session 0 "morning_routine")]
      ([] : script) = Some (out, g') /\
    map (fun pf => (List.length (heart_rate_csv (snd pf)),
                    List.length (movement_json (snd pf)),
                    List.length (blood_oxygen_csv (snd pf)),
                    List.length (skin_temperature_csv (snd pf)),
                    List.length (load_json (snd pf)))) out =
      [(0, 0, 0, 137, 0)]%nat.
Proof.
  assert (Hrun : exists out g',
            generate_all 140
              [("patient_000"%string, session 0 "morning_routine")]
              ([] : script) = Some (out, g') /\
            map (fun pf => (List.length (heart_rate_csv (snd pf)),
                            List.length (movement_json (snd pf)),
                            List.length (blood_oxygen_csv (snd pf)),
                            List.length (skin_temperature_csv (snd pf)),
                            List.length (load_json (snd pf)))) out =
              [(0, 0, 0, 137, 0)]%nat).
  { eexists _, _. split; vm_compute; reflexivity. }
  split; [exists HeartRate; discriminate|].
  split; [|exact Hrun].
  destruct Hrun as (out & g' & E & _). intro H. exact (H _ _ _ E).
Qed.

(** C5.  Cut to two hours, the exercise session is in the middle 40% of its
    configured duration at [t = 3000], yet the base heart rate is still on
    the first ramp, at 97.8, below the plateau, whatever [math.sin] is. *)
Lemma exercise_plateau_not_relative_to_duration :
  activity_pattern exercise_two_hours = "exercise_session"%string /\
  session_duration exercise_two_hours = 7200%Z /\
  (0.3 * inject_Z (session_duration exercise_two_hours) <= 3000 /\
   3000 < 0.7 * inject_Z (session_duration exercise_two_hours)) /\
  forall M : PyMath,
    ~ on_plateau (heart_rate_base 3000 (activity_pattern exercise_two_hours)).
Proof.
  split; [vm_compute; reflexivity|]. split; [vm_compute; reflexivity|].
  split; [split; [discriminate|reflexivity]|].
  intros M [H _]. vm_compute in H. apply H. reflexivity.
Qed.

(** C7.  In one second of the morning routine the first record is drawn
    with no corruption and carries [x = 0.05], [y = -9.81], [z = 0] and a
    magnitude of 9.811, the rounding of the norm 9.8105 of the unrounded
    axis values, while the norm of the axis values it carries is 9.8101. *)
Lemma magnitude_differs_from_norm_of_emitted_axes :
  exists data r,
    generate_movement_data 20 (session (1 # 3600) "morning_routine")
      movement_script = Some (data, []) /\
    In r data /\
    fst (movement_sample_branch
           (datetime_add BASE_TIME
              (movement_offset (session (1 # 3600) "morning_routine")))
           "morning_routine" 0 (tl movement_script)) = (r, NoCorruption) /\
    (mv_x r, mv_y r, mv_z r, magnitude r) =
      (Some 0.050, Some (-9.810), Some 0.000, Some 9.811) /\
    ~ magnitude_of_emitted_axes r.
Proof.
  eexists _, _. split; [vm_compute; reflexivity|].
  split; [left; reflexivity|]. split; [vm_compute; reflexivity|].
  split; [vm_compute; reflexivity|].
  intros (x & y & z & mag & Hx & Hy & Hz & Hm & E).
  injection Hx as <-. injection Hy as <-. injection Hz as <-.
  injection Hm as <-. vm_compute in E. discriminate.
Qed.

(** C10.  The blood-oxygen session that starts nine tenths of a second
    before the Unix epoch has readings at -0.9 s and at 0.6 s: [int()]
    truncates both timestamps to 0, and the times 0, 0, 2, 4, 6 are not
    strictly increasing. *)
Lemma blood_oxygen_time_repeats_before_epoch :
  instant_us (datetime_add BASE_TIME (spo2_offset before_epoch_session))
    = (- 900000)%Z /\
  exists data g',
    generate_blood_oxygen_data 10 before_epoch_session before_epoch_script
      = Some (data, g') /\
    map time data = [0; 0; 2; 4; 6]%Z /\
    ~ StronglySorted Z.lt (map time data).
Proof.
  split; [reflexivity|].
  eexists _, _. split; [vm_compute; reflexivity|].
  match goal with
  | |- ?A = ?B /\ _ => assert (E : A = B) by (vm_compute; reflexivity)
  end.
  split; [exact E|]. rewrite E. intro H.
  inversion H as [|? ? _ Hall]. inversion Hall. lia.
Qed.

(** * Further properties of the generators *)

Section Further.

Context {G : Type} {RNG : PyRandom G} {M : PyMath}.

(** ** Gaps *)

(** X1.  [is_in_gap(t, gaps)] is true exactly when some gap of the list
    contains [t], that is [start <= t < start + duration]; gaps may overlap
    or repeat. *)
Theorem is_in_gap_iff (t : Q) (gaps : list (Z * Z)) :
  is_in_gap t gaps = true <-> exists gap, In gap gaps /\ in_gap t gap.
Proof. exact (is_in_gap_true t gaps). Qed.

Lemma is_in_gap_ext (t : Q) (gaps gaps' : list (Z * Z)) :
  (forall gap, in_gap t gap -> (In gap gaps <-> In gap gaps')) ->
  is_in_gap t gaps = is_in_gap t gaps'.
Proof.
  intro H.
  destruct (is_in_gap t gaps) eqn:E1, (is_in_gap t gaps') eqn:E2;
    try reflexivity.
  - apply is_in_gap_true in E1. destruct E1 as (gap & Hin & Hgap).
    assert (E : is_in_gap t gaps' = true).
    { apply is_in_gap_true. exists gap. split; [now apply H|assumption]. }
    congruence.
  - apply is_in_gap_true in E2. destruct E2 as (gap & Hin & Hgap).
    assert (E : is_in_gap t gaps = true).
    { apply is_in_gap_true. exists gap. split; [now apply H|assumption]. }
    congruence.
Qed.

(** X2.  The answer of [is_in_gap] does not depend on the order of the gaps;
    over two lists put together it is the disjunction of the answers; and a
    gap whose duration is zero or negative contains no time. *)
Theorem is_in_gap_order_free (t : Q) (gaps gaps' : list (Z * Z)) (gap : Z * Z) :
  (Permutation gaps gaps' -> is_in_gap t gaps = is_in_gap t gaps') /\
  is_in_gap t (gaps ++ gaps') = is_in_gap t gaps || is_in_gap t gaps' /\
  ((snd gap <= 0)%Z -> is_in_gap t (gap :: gaps) = is_in_gap t gaps).
Proof.
  split; [|split].
  - intro HP. apply is_in_gap_ext. intros g0 _. split; intro Hin.
    + exact (Permutation_in _ HP Hin).
    + exact (Permutation_in _ (Permutation_sym HP) Hin).
  - induction gaps as [|[gap_start gap_duration] rest IH]; simpl;
      [reflexivity|].
    destruct (Qle_bool (inject_Z gap_start) t
              && Qltb t (inject_Z (gap_start + gap_duration)));
      [reflexivity|exact IH].
  - intro Hd. apply is_in_gap_ext. intros g0 Hg0. split; intro Hin.
    + destruct Hin as [<-|Hin]; [|assumption].
      exfalso. destruct gap as [gap_start gap_duration].
      destruct Hg0 as [H1 H2]. simpl in *.
      assert (Hs : inject_Z (gap_start + gap_duration) <= inject_Z gap_start)
        by (rewrite <- Zle_Qle; lia).
      lra.
    + now right.
Qed.

(** ** The number of ticks *)

Section LoopCount.

Context {S R : Type}.
Variable duration : Z.
Variable gaps : list (Z * Z).
Variable probability : Q.
Variable body : Q -> S -> Rand G (R * S).
Variables lo hi : Q.
Hypothesis lo_le_hi : lo <= hi.

Local Abbreviation loop := (sample_loop duration gaps probability body lo hi).

(** The loop leaves only when [t] has reached [duration], and [t] advances
    by at most [hi] at a tick, and by at least [lo]. *)
Lemma sample_loop_length (fuel : nat) :
  forall t st g schedule g',
  loop fuel t st g = Some (schedule, g') ->
  inject_Z duration <= t + inject_Z (Z.of_nat (List.length schedule)) * hi /\
  (schedule <> [] ->
   t + inject_Z (Z.of_nat (List.length schedule) - 1) * lo < inject_Z duration).
Proof.
  induction fuel as [|fuel IH]; intros t st g schedule g' H; [discriminate|].
  rewrite sample_loop_unfold in H.
  destruct (Qltb t (inject_Z duration)) eqn:Et.
  2:{ injection H as <- <-. apply Qltb_ge in Et. simpl.
      change (inject_Z 0) with 0. split; [lra|congruence]. }
  apply Qltb_lt in Et.
  destruct (sample_tick gaps probability body lo hi t st g)
    as [[[e st1] t1] g1] eqn:Etick.
  destruct (sample_tick_spec _ _ _ _ _ lo_le_hi _ _ _ _ _ _ _ Etick)
    as [[Hlo Hhi] _].
  destruct (loop fuel t1 st1 g1) as [[rest g2]|] eqn:Eloop; [|discriminate].
  injection H as <- <-.
  destruct (IH _ _ _ _ _ Eloop) as [Hup Hdown].
  cbn [List.length]. rewrite Nat2Z.inj_succ. unfold Z.succ.
  split.
  - rewrite inject_Z_plus. change (inject_Z 1) with 1. lra.
  - intros _. replace (Z.of_nat (List.length rest) + 1 - 1)%Z
      with (Z.of_nat (List.length rest)) by lia.
    destruct rest as [|p rest'].
    + change (inject_Z (Z.of_nat (List.length (@nil (Q * option R)))))
        with 0. lra.
    + specialize (Hdown ltac:(discriminate)).
      unfold Z.sub in Hdown. rewrite inject_Z_plus in Hdown.
      change (inject_Z (- (1))) with (- (1)) in Hdown. lra.
Qed.

End LoopCount.

Lemma emitted_length {R} (schedule : list (Q * option R)) :
  (List.length (emitted schedule) <= List.length schedule)%nat.
Proof.
  induction schedule as [|[t [r|]] rest IH]; simpl; lia.
Qed.

(** X3.  For a configuration within the limits, the number [n] of ticks a
    generator visits is fixed by the duration and the step range [lo, hi]
    of its channel up to the jitter: with the tolerance on each step,
    [n * (hi + tolerance) >= duration] and, when there is a tick at all,
    [(n - 1) * (lo - tolerance) < duration]; the number of records is at
    most [n]. *)
Theorem tick_count_bounds (c : channel) (cfg : config) (fuel : nat) (g : G)
  (all em : list Q) :
  within_limits cfg ->
  channel_ticks c fuel cfg g = Some (all, em) ->
  let n := inject_Z (Z.of_nat (List.length all)) in
  (List.length em <= List.length all)%nat /\
  inject_Z (channel_duration c cfg) <= n * (channel_step_max c + tolerance) /\
  (all <> [] ->
   (n - 1) * (channel_step c - tolerance) < inject_Z (channel_duration c cfg)).
Proof.
  intros _.
  destruct (channel_ticks_loop_steps c cfg g)
    as (S & R & p & body & st & g0 & E).
  rewrite E. unfold tick_times.
  destruct (sample_loop _ _ _ _ _ _ _ _ _ _) as [[schedule g']|] eqn:Eloop;
    [|discriminate].
  intro H; injection H as <- <-. cbv zeta. rewrite !length_map.
  destruct (sample_loop_length _ _ _ _ _ _ (channel_step_le_max c)
              _ _ _ _ _ _ Eloop) as [Hup Hdown].
  pose proof tolerance_pos as Htol.
  assert (Hn : 0 <= inject_Z (Z.of_nat (List.length schedule)))
    by (change 0 with (inject_Z 0); rewrite <- Zle_Qle; lia).
  split; [apply emitted_length|]. split; [nra|].
  intro Hne. assert (Hs : schedule <> []) by (intros ->; now apply Hne).
  specialize (Hdown Hs). unfold Z.sub in Hdown.
  rewrite inject_Z_plus in Hdown.
  change (inject_Z (- (1))) with (- (1)) in Hdown.
  assert (Hn1 : 1 <= inject_Z (Z.of_nat (List.length schedule))).
  { change 1 with (inject_Z 1). rewrite <- Zle_Qle.
    destruct schedule; [congruence|simpl; lia]. }
  nra.
Qed.

(** Every record of a channel is appended at a tick within the duration
    and outside the gaps. *)
Lemma channel_ticks_sound (c : channel) (cfg : config) (fuel : nat) (g : G)
  (all em : list Q) :
  channel_ticks c fuel cfg g = Some (all, em) ->
  Forall (fun t => (0 <= t /\ t < inject_Z (channel_duration c cfg)) /\
                   is_in_gap t (channel_gaps c cfg) = false) em.
Proof.
  destruct (channel_ticks_loop c cfg g)
    as (S & R & p & hi & body & st & g0 & Hhi & E).
  rewrite E. unfold tick_times.
  destruct (sample_loop _ _ _ _ _ _ _ _ _ _) as [[schedule g']|] eqn:Eloop;
    [|discriminate].
  intro H; injection H as <- <-.
  destruct (sample_loop_schedule _ _ _ _ _ _ Hhi (fun _ _ => True)
              (Qlt_le_weak _ _ (channel_step_pos c)) (fun _ _ _ => I)
              _ _ _ _ _ _ Eloop) as [Hall _].
  apply Forall_map.
  assert (H' : Forall
            (fun p => (0 <= fst p /\
                       fst p < inject_Z (channel_duration c cfg)) /\
                      (forall r, snd p = Some r ->
                         is_in_gap (fst p) (channel_gaps c cfg) = false))
            schedule).
  { eapply Forall_impl; [|exact Hall].
    intros q [Hq Hgap]. split; [exact Hq|].
    intros r Hr. now destruct (Hgap r Hr). }
  apply emitted_Forall in H'.
  eapply Forall_impl; [|exact H']. simpl. intros q [Hq Hgap].
  split; [exact Hq|]. now apply (Hgap (snd q)).
Qed.

(** X4.  A gap that spans the whole session silences the channel: if one
    configured gap starts at or before 0 and ends at or after the duration,
    the generator returns no record. *)
Theorem spanning_gap_silences (c : channel) (cfg : config) (fuel : nat)
  (g : G) (all em : list Q) (gap : Z * Z) :
  channel_ticks c fuel cfg g = Some (all, em) ->
  In gap (channel_gaps c cfg) ->
  (fst gap <= 0)%Z -> (channel_duration c cfg <= fst gap + snd gap)%Z ->
  em = [].
Proof.
  intros H Hin Hstart Hend. apply channel_ticks_sound in H.
  destruct em as [|t em']; [reflexivity|exfalso].
  inversion H as [|? ? [[H0 Hd] Hgap] _]; subst.
  assert (E : is_in_gap t (channel_gaps c cfg) = true).
  { apply is_in_gap_true. exists gap. split; [assumption|].
    rewrite Zle_Qle in Hstart, Hend. change (inject_Z 0) with 0 in Hstart.
    split; lra. }
  congruence.
Qed.

(** ** The size of the clock drift *)

(** X5.  The timestamp of a heart-rate record is off the true instant,
    [start_time] plus the elapsed time [t], by at most 0.01% of [t] and
    half a microsecond of rounding: at most [100 t + 1/2] microseconds. *)
Theorem clock_drift_error (fuel : nat) (cfg : config) (g g' : G)
  (schedule : list (Q * option heart_rate_record)) :
  heart_rate_ticks fuel cfg g = Some (schedule, g') ->
  forall t r, In (t, r) (emitted schedule) ->
  let reported := inject_Z (instant_us (hr_timestamp r)) in
  let true_us :=
    inject_Z (instant_us (datetime_add BASE_TIME (hr_offset cfg)))
    + t * 1000000 in
  0 <= t /\
  true_us - (100 * t + (1 # 2)) <= reported /\
  reported <= true_us + (100 * t + (1 # 2)).
Proof.
  intro H. pose proof (clock_drift_bound g) as Hd.
  apply heart_rate_ticks_inv in H. unfold heart_rate_loop in H.
  set (drift := fst (uniform (-0.0001) 0.0001 g)) in *.
  set (start_time := datetime_add BASE_TIME (hr_offset cfg)) in *.
  eapply sample_loop_schedule with
    (P := fun t r =>
       instant_us (hr_timestamp r) =
       (instant_us start_time + timedelta_seconds (t * (1 + drift)))%Z)
    in H.
  - destruct H as [Hall _]. apply schedule_records in Hall.
    rewrite Forall_forall in Hall.
    clearbody drift start_time.
    intros t r Hin. destruct (Hall _ Hin) as [H0 Ets].
    cbn [fst snd] in H0, Ets. cbv zeta. rewrite Ets.
    rewrite inject_Z_plus. unfold timedelta_seconds.
    destruct (round_half_even_near (t * (1 + drift) * 1000000)) as [H1 H2].
    assert (Hlo : - (0.0001 * t) <= t * drift) by nra.
    assert (Hhi : t * drift <= 0.0001 * t) by nra.
    split; [exact H0|]. split; lra.
  - discriminate.
  - discriminate.
  - intros t st g0. rewrite stateless_fst.
    destruct (heart_rate_sample_times start_time drift
                (activity_pattern cfg) t g0) as [-> _].
    reflexivity.
Qed.

(** ** Skin temperature *)

Lemma sample_tick_state {S R} (gaps : list (Z * Z)) (p lo hi : Q)
  (body : Q -> S -> Rand G (R * S)) (t : Q) (st : S) (g : G) :
  forall e st' t' g', sample_tick gaps p body lo hi t st g = (e, st', t', g') ->
  match e with
  | None => st' = st
  | Some r => exists g0, fst (body t st g0) = (r, st')
  end.
Proof.
  intros e st' t' g'. unfold sample_tick, bind, ret.
  destruct (is_in_gap t gaps); simpl.
  - destruct (uniform lo hi g) as [step g1].
    intro H; injection H as <- <- <- <-. reflexivity.
  - unfold should_have_micro_dropout, bind, ret.
    destruct (random g) as [r0 g0].
    destruct (Qltb r0 p); simpl.
    + destruct (uniform lo hi g0) as [step g1].
      intro H; injection H as <- <- <- <-. reflexivity.
    + destruct (body t st g0) as [[r st1] g1] eqn:Eb.
      destruct (uniform lo hi g1) as [step g2].
      intro H; injection H as <- <- <- <-. exists g0. now rewrite Eb.
Qed.

(** The records of a loop are chained through the loop states by whatever
    relation the body keeps between the state before, the record and the
    state after, under an invariant of the state. *)
Lemma sample_loop_chain {S R} (duration : Z) (gaps : list (Z * Z))
  (p lo hi : Q) (body : Q -> S -> Rand G (R * S))
  (inv : S -> Prop) (step : S -> R -> S -> Prop) :
  (forall t st g, inv st ->
     step st (fst (fst (body t st g))) (snd (fst (body t st g))) /\
     inv (snd (fst (body t st g)))) ->
  forall fuel t st g schedule g',
  inv st ->
  sample_loop duration gaps p body lo hi fuel t st g = Some (schedule, g') ->
  chain step st (records schedule).
Proof.
  intro Hbody. induction fuel as [|fuel IH]; intros t st g schedule g' Hinv H;
    [discriminate|].
  rewrite sample_loop_unfold in H.
  destruct (Qltb t (inject_Z duration)).
  2:{ injection H as <- <-. constructor. }
  destruct (sample_tick gaps p body lo hi t st g)
    as [[[e st1] t1] g1] eqn:Etick.
  pose proof (sample_tick_state _ _ _ _ _ _ _ _ _ _ _ _ Etick) as Hst.
  destruct (sample_loop duration gaps p body lo hi fuel t1 st1 g1)
    as [[rest g2]|] eqn:Eloop; [|discriminate].
  injection H as <- <-.
  destruct e as [r|].
  - destruct Hst as [g0 Eb]. destruct (Hbody t st g0 Hinv) as [Hstep Hinv'].
    rewrite Eb in Hstep, Hinv'. simpl in Hstep, Hinv'.
    unfold records. simpl. econstructor; [exact Hstep|].
    exact (IH _ _ _ _ _ Hinv' Eloop).
  - subst st1. unfold records. simpl. exact (IH _ _ _ _ _ Hinv Eloop).
Qed.

Lemma py_round_idempotent (x : Q) (ndigits : positive) :
  py_round (py_round x ndigits) ndigits = py_round x ndigits.
Proof.
  unfold py_round.
  set (k := round_half_even (x * inject_Z (Z.pos (10 ^ ndigits)))).
  f_equal. transitivity (round_half_even (inject_Z k));
    [|apply round_half_even_Z].
  apply round_half_even_comp.
  unfold Qeq, Qmult, inject_Z; simpl. lia.
Qed.

(** What one pass of the temperature body does to the time stamp and to
    [ambient_temp]. *)
Lemma temperature_sample_spec (start_time : datetime) (pattern : string)
  (t ambient : Q) (g : G) :
  let r := fst (fst (temperature_sample start_time pattern t ambient g)) in
  let ambient' := snd (fst (temperature_sample start_time pattern t ambient g))
  in
  recorded_at r =
    astimezone (datetime_add start_time (timedelta_seconds t)) (-5) /\
  (18 <= ambient' /\ ambient' <= 28) /\
  ambient_temp r = py_round ambient' 1 /\
  (18 <= ambient /\ ambient <= 28 ->
   ambient - 0.02 <= ambient' /\ ambient' <= ambient + 0.02).
Proof.
  unfold temperature_sample, bind, ret.
  destruct (simulate_temperature t pattern g) as [temp g1].
  destruct (corruption_branch 0.015 0.01 g1) as [branch g2].
  match goal with |- context [let (a, g') := ?c g2 in _] =>
    destruct (c g2) as [temp' g3] end.
  pose proof (uniform_range (-0.02) 0.02 g3 ltac:(discriminate)) as [Hd1 Hd2].
  destruct (uniform (-0.02) 0.02 g3) as [d g4].
  cbn [fst snd] in *.
  split; [reflexivity|].
  destruct (Q.max_spec 18 (Qmin 28 (ambient + d))) as [[Hm Em]|[Hm Em]];
    destruct (Q.min_spec 28 (ambient + d)) as [[Hn En]|[Hn En]];
    (split; [split; lra|]); (split; [reflexivity|]); intros [Ha Hb];
    split; lra.
Qed.

Lemma temperature_ticks_inv (fuel : nat) (cfg : config) (g g' : G)
  (schedule : list (Q * option temperature_record)) :
  temperature_ticks fuel cfg g = Some (schedule, g') ->
  sample_loop (temperature_duration cfg) (temp_gaps cfg) 0.015
    (temperature_sample (datetime_add BASE_TIME (temp_offset cfg))
       (activity_pattern cfg))
    8 14 fuel 0 (py_round (fst (uniform 20 24 g)) 1)
    (snd (uniform 20 24 g)) = Some (schedule, g').
Proof.
  unfold temperature_ticks. now destruct (uniform 20 24 g).
Qed.

(** X6.  Every record of [generate_temperature_data] is stamped in the
    fixed offset of five hours west of UTC and shows an ambient temperature
    within [18, 28]; the instants of the records strictly increase. *)
Theorem temperature_records_ok (fuel : nat) (cfg : config) (g g' : G)
  (data : list temperature_record) :
  generate_temperature_data fuel cfg g = Some (data, g') ->
  Forall (fun r => utcoffset_s (recorded_at r) = (-18000)%Z /\
                   18 <= ambient_temp r /\ ambient_temp r <= 28) data /\
  StronglySorted Z.lt (map (fun r => instant_us (recorded_at r)) data).
Proof.
  intro H. apply with_records_inv in H. destruct H as (schedule & H & ->).
  apply temperature_ticks_inv in H.
  set (start_time := datetime_add BASE_TIME (temp_offset cfg)) in *.
  eapply sample_loop_schedule with
    (P := fun t r =>
       recorded_at r =
         astimezone (datetime_add start_time (timedelta_seconds t)) (-5) /\
       18 <= ambient_temp r /\ ambient_temp r <= 28) in H.
  - destruct H as [Hall Hsorted]. split.
    + apply schedule_records in Hall. unfold records. apply Forall_map.
      eapply Forall_impl; [|exact Hall].
      intros q [_ [-> Hq]]. split; [reflexivity|exact Hq].
    + eapply (records_increasing _ _ (fun r => instant_us (recorded_at r))
                (fun t => (instant_us start_time + timedelta_seconds t)%Z));
        [|exact Hsorted|].
      * eapply Forall_impl; [|exact Hall].
        intros q [Hq Hr]. split; [exact Hq|].
        intros r Er. destruct (Hr r Er) as [Hgap [-> _]].
        split; [exact Hgap|reflexivity].
      * intros t1 t2 _ H12.
        pose proof (timedelta_seconds_apart _ _ _ H12) as Hus.
        assert (Hlt : inject_Z (timedelta_seconds t1) <
                      inject_Z (timedelta_seconds t2)) by lra.
        rewrite <- Zlt_Qlt in Hlt. lia.
  - discriminate.
  - discriminate.
  - intros t st g0.
    destruct (temperature_sample_spec start_time (activity_pattern cfg)
                t st g0) as (Hts & Hb & Ha & _).
    split; [exact Hts|]. rewrite Ha. destruct Hb as [Hb1 Hb2].
    match goal with |- 18 <= py_round ?v 1 /\ _ =>
      destruct (py_round_between v 1 180 280) as [H1 H2] end;
      change (10 ^ 1)%positive with 10%positive in *; [lra|lra|].
    split; lra.
Qed.

(** Two values within 0.02 of each other round, to one decimal, to values
    within 0.1 of each other. *)
Lemma py_round_close (x y : Q) :
  x - 0.02 <= y -> y <= x + 0.02 ->
  py_round x 1 - 0.1 <= py_round y 1 /\ py_round y 1 <= py_round x 1 + 0.1.
Proof.
  intros H1 H2. unfold py_round.
  change (10 ^ 1)%positive with 10%positive.
  destruct (round_half_even_near (x * inject_Z 10)) as [Hx1 Hx2].
  destruct (round_half_even_near (y * inject_Z 10)) as [Hy1 Hy2].
  set (kx := round_half_even (x * inject_Z 10)) in *.
  set (ky := round_half_even (y * inject_Z 10)) in *.
  change (inject_Z 10) with 10 in *.
  assert (Hup : (ky < kx + 2)%Z).
  { rewrite Zlt_Qlt, inject_Z_plus. change (inject_Z 2) with 2. lra. }
  assert (Hdown : (kx < ky + 2)%Z).
  { rewrite Zlt_Qlt, inject_Z_plus. change (inject_Z 2) with 2. lra. }
  unfold Qle, Qminus, Qplus, Qopp; simpl. split; lia.
Qed.

Lemma ambient_chain_steps (st : Q) (data : list temperature_record) :
  chain ambient_step st data ->
  forall shown, shown == py_round st 1 -> ambient_steps shown data.
Proof.
  induction 1 as [|st r st' data (_ & (Hlo & Hhi) & Er) _ IH];
    intros shown Hs; simpl; [exact I|].
  split.
  - rewrite Er, Hs. now apply py_round_close.
  - apply IH. rewrite Er. reflexivity.
Qed.

(** X7.  The ambient temperature drifts slowly: the first value
    [generate_temperature_data] draws is within [20, 24], and every record
    shows a value within 0.1 of the one shown by the record before it (of
    that first value, for the first record), through gaps and dropouts. *)
Theorem ambient_temperature_drifts_slowly (fuel : nat) (cfg : config)
  (g g' : G) (data : list temperature_record) :
  generate_temperature_data fuel cfg g = Some (data, g') ->
  let first := py_round (fst (uniform 20 24 g)) 1 in
  (20 <= first /\ first <= 24) /\ ambient_steps first data.
Proof.
  intro H. apply with_records_inv in H. destruct H as (schedule & H & ->).
  apply temperature_ticks_inv in H. cbv zeta.
  assert (Hfirst : 20 <= py_round (fst (uniform 20 24 g)) 1 /\
                   py_round (fst (uniform 20 24 g)) 1 <= 24).
  { destruct (uniform_range 20 24 g ltac:(discriminate)) as [Hu1 Hu2].
    destruct (py_round_between (fst (uniform 20 24 g)) 1 200 240)
      as [H1 H2];
      change (10 ^ 1)%positive with 10%positive in *; [lra|lra|].
    split; lra. }
  split; [exact Hfirst|].
  eapply ambient_chain_steps;
    [|rewrite py_round_idempotent; reflexivity].
  eapply (sample_loop_chain _ _ _ _ _ _ (fun st => 18 <= st /\ st <= 28)
            ambient_step); [|split; lra|exact H].
  intros t st g0 Hinv.
  destruct (temperature_sample_spec
              (datetime_add BASE_TIME (temp_offset cfg))
              (activity_pattern cfg) t st g0) as (_ & Hb & Ha & Hstep).
  split; [|exact Hb].
  split; [exact Hb|]. split; [exact (Hstep Hinv)|exact Ha].
Qed.

(** ** Physical load *)

Lemma py_int_range (x : Q) (a b : Z) :
  0 <= x -> inject_Z a <= x -> x < inject_Z b -> (a <= py_int x < b)%Z.
Proof.
  intros H0 Ha Hb. destruct (py_int_near x) as [Hx _].
  destruct (Hx H0) as [H1 H2].
  assert (Hlo : (a < py_int x + 1)%Z).
  { rewrite Zlt_Qlt, inject_Z_plus. change (inject_Z 1) with 1. lra. }
  assert (Hhi : (py_int x < b)%Z) by (rewrite Zlt_Qlt; lra).
  lia.
Qed.

Lemma activity_of_known (load : Z) : activity_of load <> "unknown"%string.
Proof.
  unfold activity_of.
  destruct (load <? 20)%Z; [discriminate|].
  destruct (load <? 50)%Z; discriminate.
Qed.

(** With a heart rate of [45, 185], as [simulate_heart_rate] returns, the
    load is within [7, 97], and within [7, 13] for a pattern that is
    neither the exercise session nor the morning routine. *)
Lemma simulate_load_range (t : Q) (hr : Z) (pattern : string) (g : G) :
  (45 <= hr <= 185)%Z ->
  let load := fst (simulate_load t hr pattern g) in
  (7 <= load <= 97)%Z /\
  (pattern <> "exercise_session"%string ->
   pattern <> "morning_routine"%string -> (7 <= load <= 13)%Z).
Proof.
  intros [Hhr1 Hhr2]. unfold simulate_load, bind, ret.
  rewrite Zle_Qle in Hhr1, Hhr2.
  change (inject_Z 45) with 45 in Hhr1. change (inject_Z 185) with 185 in Hhr2.
  destruct (pattern =? "exercise_session")%string eqn:E1.
  { apply String.eqb_eq in E1.
    destruct (Qltb 0.3 (normalized t) && Qltb (normalized t) 0.7).
    - pose proof (randint_range (-5) 5 g ltac:(lia)) as [Hn1 Hn2].
      destruct (randint (-5) 5 g) as [n g1]. cbn [fst snd] in *.
      rewrite Zle_Qle in Hn1, Hn2.
      change (inject_Z (-5)) with (-5) in Hn1.
      change (inject_Z 5) with 5 in Hn2.
      destruct (py_int_range (50 + inject_Z (hr - 100) * 0.5 + inject_Z n)
                  17 98) as [H1 H2];
        try (unfold Z.sub; rewrite inject_Z_plus;
             change (inject_Z (- (100))) with (-100);
             change (inject_Z 17) with 17; change (inject_Z 98) with 98; lra).
      split; [lia|congruence].
    - pose proof (randint_range (-5) 5 g ltac:(lia)) as [Hn1 Hn2].
      destruct (randint (-5) 5 g) as [n g1]. cbn [fst snd] in *.
      split; [lia|congruence]. }
  destruct (pattern =? "morning_routine")%string eqn:E2.
  { apply String.eqb_eq in E2.
    pose proof (randint_range (-3) 3 g ltac:(lia)) as [Hn1 Hn2].
    destruct (randint (-3) 3 g) as [n g1]. cbn [fst snd] in *.
    rewrite Zle_Qle in Hn1, Hn2.
    change (inject_Z (-3)) with (-3) in Hn1. change (inject_Z 3) with 3 in Hn2.
    destruct (py_int_range (25 + inject_Z (hr - 70) * 0.3 + inject_Z n)
                14 63) as [H1 H2];
      try (unfold Z.sub; rewrite inject_Z_plus;
           change (inject_Z (- (70))) with (-70);
           change (inject_Z 14) with 14; change (inject_Z 63) with 63; lra).
    split; [lia|congruence]. }
  pose proof (randint_range (-3) 3 g ltac:(lia)) as [Hn1 Hn2].
  destruct (randint (-3) 3 g) as [n g1]. cbn [fst snd] in *.
  split; [lia|intros _ _; lia].
Qed.

(** What one pass of the load body builds. *)
Lemma load_sample_spec (start_time : datetime) (pattern : string) (t : Q)
  (g : G) :
  let r := fst (load_sample start_time pattern t g) in
  load_datetime (ld_timestamp r) =
    datetime_add start_time (timedelta_seconds t) /\
  match ld_timestamp r with
  | iso_millis _ ms => (0 <= ms <= 999)%Z
  | _ => True
  end /\
  ((load_score r = (-1)%Z /\ activity_type r = "unknown"%string) \/
   ((7 <= load_score r <= 97)%Z /\
    activity_type r = activity_of (load_score r) /\
    (pattern <> "exercise_session"%string ->
     pattern <> "morning_routine"%string -> (load_score r <= 13)%Z))).
Proof.
  unfold load_sample, bind, ret.
  pose proof (simulate_heart_rate_range t pattern g) as Hhr.
  destruct (simulate_heart_rate t pattern g) as [hr g1]. cbn [fst] in Hhr.
  pose proof (simulate_load_range t hr pattern g1 Hhr) as [Hl1 Hl2].
  destruct (simulate_load t hr pattern g1) as [load g2]. cbn [fst] in Hl1, Hl2.
  destruct (random g2) as [rand g3].
  destruct (Qltb rand 0.3); [|destruct (Qltb rand 0.6)].
  - destruct (random g3) as [r0 g5].
    destruct (Qltb r0 0.015); destruct (random g5) as [d g7];
      cbn [fst ld_timestamp load_score activity_type load_datetime];
      (split; [reflexivity|]); (split; [exact I|]).
    + left. now split.
    + right. split; [exact Hl1|]. split; [reflexivity|].
      intros H1 H2. now destruct (Hl2 H1 H2).
  - pose proof (randint_range 0 999 g3 ltac:(lia)) as Hms.
    destruct (randint 0 999 g3) as [ms g4]. cbn [fst] in Hms.
    destruct (random g4) as [r0 g5].
    destruct (Qltb r0 0.015); destruct (random g5) as [d g7];
      cbn [fst ld_timestamp load_score activity_type load_datetime];
      (split; [reflexivity|]); (split; [exact Hms|]).
    + left. now split.
    + right. split; [exact Hl1|]. split; [reflexivity|].
      intros H1 H2. now destruct (Hl2 H1 H2).
  - destruct (random g3) as [r0 g5].
    destruct (Qltb r0 0.015); destruct (random g5) as [d g7];
      cbn [fst ld_timestamp load_score activity_type load_datetime];
      (split; [reflexivity|]); (split; [exact I|]).
    + left. now split.
    + right. split; [exact Hl1|]. split; [reflexivity|].
      intros H1 H2. now destruct (Hl2 H1 H2).
Qed.

(** The records of the load loop, each with what the body guarantees at
    its tick. *)
Lemma load_schedule (fuel : nat) (cfg : config) (g g' : G)
  (schedule : list (Q * option load_record)) (P : Q -> load_record -> Prop) :
  (forall t g0,
     P t (fst (load_sample (datetime_add BASE_TIME (load_offset cfg))
                 (activity_pattern cfg) t g0))) ->
  load_ticks fuel cfg g = Some (schedule, g') ->
  Forall (tick_ok (session_duration cfg) (load_gaps cfg) P 0) schedule /\
  StronglySorted (spaced 4) schedule.
Proof.
  intros HP H. unfold load_ticks in H.
  eapply sample_loop_schedule with (P := P) in H;
    [exact H|discriminate|discriminate|].
  intros t st g0. rewrite stateless_fst. apply HP.
Qed.

(** X8.  Every record of [generate_load_data] carries either the error
    score -1 with the activity "unknown", or a score within [0, 100] with
    the activity of its thresholds ("rest" below 20, "walk" below 50,
    "exercise" from 50); the activity is "unknown" exactly for the score -1;
    the milliseconds of the second timestamp format are within [0, 999]. *)
Theorem load_records_ok (fuel : nat) (cfg : config) (g g' : G)
  (data : list load_record) :
  generate_load_data fuel cfg g = Some (data, g') ->
  Forall (fun r =>
            load_record_ok r /\
            (activity_type r = "unknown"%string <-> load_score r = (-1)%Z))
    data.
Proof.
  intro H. apply with_records_inv in H. destruct H as (schedule & H & ->).
  apply (load_schedule _ _ _ _ _
           (fun _ r => load_record_ok r /\
                       (activity_type r = "unknown"%string <->
                        load_score r = (-1)%Z))) in H.
  - destruct H as [Hall _]. apply schedule_records in Hall.
    unfold records. apply Forall_map.
    eapply Forall_impl; [|exact Hall]. now intros q [_ Hq].
  - intros t g0.
    destruct (load_sample_spec (datetime_add BASE_TIME (load_offset cfg))
                (activity_pattern cfg) t g0) as (_ & Hms & Hr).
    unfold load_record_ok.
    destruct Hr as [[Hs Ha]|(Hs & Ha & _)].
    + split; [split; [left; now split|exact Hms]|]. now split.
    + split; [split; [right; split; [lia|exact Ha]|exact Hms]|].
      split; intro Hu.
      * rewrite Ha in Hu. now destruct (activity_of_known _ Hu).
      * lia.
Qed.

(** X9.  Apart from the error score -1, a load score is within [7, 97]: the
    clamps to [0, 100] in [simulate_load] never act on a heart rate that
    [simulate_heart_rate] returns.  For a pattern that is neither the
    exercise session nor the morning routine the score is within [7, 13], so
    the activity is always "rest" or "unknown". *)
Theorem load_score_by_pattern (fuel : nat) (cfg : config) (g g' : G)
  (data : list load_record) :
  generate_load_data fuel cfg g = Some (data, g') ->
  Forall (fun r => load_score r = (-1)%Z \/ (7 <= load_score r <= 97)%Z) data
  /\
  (activity_pattern cfg <> "exercise_session"%string ->
   activity_pattern cfg <> "morning_routine"%string ->
   Forall (fun r =>
             (load_score r = (-1)%Z /\ activity_type r = "unknown"%string) \/
             ((7 <= load_score r <= 13)%Z /\
              activity_type r = "rest"%string)) data).
Proof.
  intro H. apply with_records_inv in H. destruct H as (schedule & H & ->).
  apply (load_schedule _ _ _ _ _
           (fun _ r =>
              (load_score r = (-1)%Z /\ activity_type r = "unknown"%string)
              \/
              ((7 <= load_score r <= 97)%Z /\
               activity_type r = activity_of (load_score r) /\
               (activity_pattern cfg <> "exercise_session"%string ->
                activity_pattern cfg <> "morning_routine"%string ->
                (load_score r <= 13)%Z)))) in H.
  - destruct H as [Hall _]. apply schedule_records in Hall.
    unfold records. split.
    + apply Forall_map. eapply Forall_impl; [|exact Hall].
      intros q [_ [[Hs _]|[Hs _]]]; [now left|now right].
    + intros H1 H2. apply Forall_map. eapply Forall_impl; [|exact Hall].
      intros q [_ [Hq|(Hs & Ha & Hp)]]; [now left|right].
      specialize (Hp H1 H2). split; [lia|].
      rewrite Ha. unfold activity_of.
      assert (E : (load_score (snd q) <? 20)%Z = true)
        by (apply Z.ltb_lt; lia).
      now rewrite E.
  - intros t g0.
    now destruct (load_sample_spec (datetime_add BASE_TIME (load_offset cfg))
                    (activity_pattern cfg) t g0) as (_ & _ & Hr).
Qed.

(** X10.  Whatever format a load timestamp is written in, it shows the
    instant [start_time] plus the elapsed time, and the whole seconds the
    records show strictly increase. *)
Theorem load_seconds_increasing (fuel : nat) (cfg : config) (g g' : G)
  (schedule : list (Q * option load_record)) :
  load_ticks fuel cfg g = Some (schedule, g') ->
  (forall t r, In (t, r) (emitted schedule) ->
     load_datetime (ld_timestamp r) =
       datetime_add (datetime_add BASE_TIME (load_offset cfg))
         (timedelta_seconds t)) /\
  StronglySorted Z.lt
    (map (fun r => load_second (ld_timestamp r)) (records schedule)).
Proof.
  intro H.
  set (start_time := datetime_add BASE_TIME (load_offset cfg)).
  apply (load_schedule _ _ _ _ _
           (fun t r => load_datetime (ld_timestamp r) =
                       datetime_add start_time (timedelta_seconds t))) in H.
  - destruct H as [Hall Hsorted]. split.
    + pose proof (schedule_records _ _ _ _ Hall) as Hrec.
      rewrite Forall_forall in Hrec.
      intros t r Hin. now destruct (Hrec _ Hin).
    + eapply (records_increasing _ _
                (fun r => load_second (ld_timestamp r))
                (fun t => ((instant_us start_time + timedelta_seconds t)
                           / 1000000)%Z));
        [|exact Hsorted|].
      * eapply Forall_impl; [|exact Hall].
        intros q [Hq Hr]. split; [exact Hq|].
        intros r Er. destruct (Hr r Er) as [Hgap Hdt].
        split; [exact Hgap|]. unfold load_second. now rewrite Hdt.
      * clearbody start_time. intros t1 t2 _ H12.
        pose proof (timedelta_seconds_apart _ _ _ H12) as Hus.
        assert (Hz : (timedelta_seconds t1 + 1000000
                      <= timedelta_seconds t2)%Z).
        { rewrite Zle_Qle, inject_Z_plus.
          change (inject_Z 1000000) with 1000000. lra. }
        set (u1 := (instant_us start_time + timedelta_seconds t1)%Z).
        assert (Hdiv : ((u1 + 1 * 1000000) / 1000000
                        <= (instant_us start_time + timedelta_seconds t2)
                           / 1000000)%Z)
          by (apply Z.div_le_mono; unfold u1; lia).
        rewrite Z_div_plus in Hdiv by lia. lia.
  - intros t g0.
    now destruct (load_sample_spec start_time (activity_pattern cfg) t g0)
      as (Hdt & _).
Qed.

(** ** Movement *)

Lemma py_round_zero (x : Q) (ndigits : positive) :
  x == 0 -> py_round x ndigits == 0.
Proof.
  intro Hx. unfold py_round.
  assert (E : round_half_even (x * inject_Z (Z.pos (10 ^ ndigits))) = 0%Z).
  { transitivity (round_half_even (inject_Z 0));
      [|apply round_half_even_Z].
    apply round_half_even_comp. rewrite Hx. reflexivity. }
  rewrite E. reflexivity.
Qed.

(** In a pattern that is neither the exercise session nor the morning
    routine, the lateral accelerations are [add_noise(0, 0.05)], the product
    of zero and the noise factor. *)
Lemma movement_axes_resting (t : Q) (pattern : string) (g : G) :
  pattern <> "exercise_session"%string ->
  pattern <> "morning_routine"%string ->
  let axes := fst (movement_axes t pattern g) in
  fst (fst axes) == 0 /\ snd axes == 0.
Proof.
  intros H1 H2. unfold movement_axes.
  apply String.eqb_neq in H1, H2. rewrite H1, H2.
  unfold add_noise, bind, ret.
  destruct (gauss 0 0.05 g) as [n1 g1].
  destruct (gauss 0 0.005 g1) as [n2 g2].
  destruct (gauss 0 0.05 g2) as [n3 g3]. simpl. split; ring.
Qed.

Lemma movement_sample_branch_spec (start_time : datetime) (pattern : string)
  (t : Q) (g : G) :
  let r := fst (fst (movement_sample_branch start_time pattern t g)) in
  let axes := fst (movement_axes t pattern g) in
  movement_shape r /\
  (mv_x r = None \/ mv_x r = Some 999.99 \/
   mv_x r = Some (py_round (fst (fst axes)) 3)) /\
  (mv_z r = Some 999.99 \/ mv_z r = Some (py_round (snd axes) 3)).
Proof.
  unfold movement_sample_branch, simulate_movement, bind, ret.
  destruct (movement_axes t pattern g) as [[[x y] z] g1].
  destruct (corruption_branch 0.004 0.002 g1) as [[| |] g2];
    cbn [fst snd mv_x mv_y mv_z magnitude ts]; unfold movement_shape;
    cbn [mv_x mv_y mv_z magnitude].
  - split; [left; now exists x, y, z, (euclidean_norm x y z)|].
    split; [right; right; reflexivity|right; reflexivity].
  - split; [right; left; now exists y, z|].
    split; [left; reflexivity|right; reflexivity].
  - split; [right; right; now repeat split|].
    split; [right; left; reflexivity|left; reflexivity].
Qed.

Lemma movement_schedule (fuel : nat) (cfg : config) (g g' : G)
  (schedule : list (Q * option movement_record))
  (P : Q -> movement_record -> Prop) :
  (forall t g0,
     P t (fst (fst (movement_sample_branch
                      (datetime_add BASE_TIME (movement_offset cfg))
                      (activity_pattern cfg) t g0)))) ->
  movement_ticks fuel cfg g = Some (schedule, g') ->
  Forall (tick_ok (session_duration cfg) (movement_gaps cfg) P 0) schedule.
Proof.
  intros HP H. unfold movement_ticks in H.
  eapply sample_loop_schedule with (P := P) in H;
    [exact (proj1 H)|discriminate|discriminate|].
  intros t st g0. rewrite stateless_fst, movement_sample_eq. apply HP.
Qed.

(** X11.  A movement record has one of three shapes: four readings rounded
    to three decimals; a null [x] and a null [magnitude] beside readings of
    [y] and [z]; or 999.99 in all four fields.  So [y] and [z] are never
    null, and [x] is null exactly when [magnitude] is. *)
Theorem movement_records_shape (fuel : nat) (cfg : config) (g g' : G)
  (data : list movement_record) :
  generate_movement_data fuel cfg g = Some (data, g') ->
  Forall (fun r =>
            movement_shape r /\
            mv_y r <> None /\ mv_z r <> None /\
            (mv_x r = None <-> magnitude r = None)) data.
Proof.
  intro H. apply with_records_inv in H. destruct H as (schedule & H & ->).
  apply (movement_schedule _ _ _ _ _ (fun _ r => movement_shape r)) in H.
  - apply schedule_records in H. unfold records. apply Forall_map.
    eapply Forall_impl; [|exact H]. intros q [_ Hq]. split; [exact Hq|].
    destruct Hq as [(x & y & z & m & Ex & Ey & Ez & Em)
                   |[(y & z & Ex & Ey & Ez & Em)|(Ex & Ey & Ez & Em)]];
      rewrite Ex, Ey, Ez, Em; repeat split; congruence.
  - intros t g0.
    now destruct (movement_sample_branch_spec
                    (datetime_add BASE_TIME (movement_offset cfg))
                    (activity_pattern cfg) t g0).
Qed.

(** X12.  For a pattern that is neither the exercise session nor the morning
    routine (the resting patient), the noise of the lateral axes multiplies
    zero: every [x] and [z] written is 0, the corrupt value 999.99 or, for
    [x], null. *)
Theorem resting_lateral_axes_zero (fuel : nat) (cfg : config) (g g' : G)
  (data : list movement_record) :
  activity_pattern cfg <> "exercise_session"%string ->
  activity_pattern cfg <> "morning_routine"%string ->
  generate_movement_data fuel cfg g = Some (data, g') ->
  Forall (fun r => still_axis (mv_x r) /\ still_axis (mv_z r)) data.
Proof.
  intros H1 H2 H.
  apply with_records_inv in H. destruct H as (schedule & H & ->).
  apply (movement_schedule _ _ _ _ _
           (fun _ r => still_axis (mv_x r) /\ still_axis (mv_z r))) in H.
  - apply schedule_records in H. unfold records. apply Forall_map.
    eapply Forall_impl; [|exact H]. now intros q [_ Hq].
  - intros t g0.
    destruct (movement_sample_branch_spec
                (datetime_add BASE_TIME (movement_offset cfg))
                (activity_pattern cfg) t g0) as (_ & Hx & Hz).
    destruct (movement_axes_resting t (activity_pattern cfg) g0 H1 H2)
      as [Ex Ez].
    split.
    + destruct Hx as [Ex'|[Ex'|Ex']]; rewrite Ex'; simpl;
        [exact I|now right|left; now apply py_round_zero].
    + destruct Hz as [Ez'|Ez']; rewrite Ez'; simpl;
        [now right|left; now apply py_round_zero].
Qed.

(** ** The duration of the temperature channel *)

(** X13.  The temperature sensor runs longer than the session: within the
    limits, for a duration that is not negative and an offset of [k] whole
    seconds, early or late, its loop runs for the duration of the other
    channels plus [|k|] seconds plus ten minutes, or for one second more.
    (The hours are truncated to seconds before the extension is added for
    the one and after it for the other; the second more is what the double
    sum can carry over.) *)
Theorem temperature_runs_longer (cfg : config) (k : Z) :
  within_limits cfg ->
  0 <= duration_hours cfg ->
  temp_offset cfg = (k * 1000000)%Z ->
  (session_duration cfg + Z.abs k + 600 <= temperature_duration cfg
   <= session_duration cfg + Z.abs k + 601)%Z.
Proof.
  intros _ Hd Hk. unfold temperature_duration, session_duration, total_seconds.
  rewrite Hk.
  set (a := duration_hours cfg * 3600).
  assert (Ha : 0 <= a) by (unfold a; lra).
  assert (Eq : inject_Z (k * 1000000) / 1000000 == inject_Z k).
  { rewrite inject_Z_mult. change (inject_Z 1000000) with 1000000. field. }
  assert (Eabs : Qabs (inject_Z (k * 1000000) / 1000000)
                 == inject_Z (Z.abs k)).
  { rewrite Eq. destruct (Z_le_gt_dec 0 k) as [Hk0|Hk0].
    - rewrite Z.abs_eq by lia. apply Qabs_pos.
      rewrite Zle_Qle in Hk0. exact Hk0.
    - rewrite Z.abs_neq by lia. rewrite inject_Z_opp. apply Qabs_neg.
      assert (Hk1 : (k <= 0)%Z) by lia. rewrite Zle_Qle in Hk1. exact Hk1. }
  assert (Habs : 0 <= inject_Z (Z.abs k))
    by (change 0 with (inject_Z 0); rewrite <- Zle_Qle; lia).
  destruct (py_int_near a) as [Hnear _]. destruct (Hnear Ha) as [Hn1 Hn2].
  destruct (py_int_range
              (a + (Qabs (inject_Z (k * 1000000) / 1000000) + 600))
              (py_int a + Z.abs k + 600) (py_int a + Z.abs k + 600 + 1))
    as [H1 H2].
  - lra.
  - rewrite !inject_Z_plus. change (inject_Z 600) with 600. lra.
  - rewrite !inject_Z_plus. change (inject_Z 600) with 600.
    change (inject_Z 1) with 1. lra.
  - lia.
Qed.

(** ** The orchestrator *)

(** X14.  [main] handles the patients in the order of the configuration,
    over one random stream: a run over two lists of patients put together is
    the run over the first list followed, from the generator state it
    leaves, by the run over the second; and the run returns one entry for
    each patient, under its identifier, in that order. *)
Theorem generate_all_sequences (fuel : nat)
  (configs configs' : list (string * config)) (g : G) :
  generate_all fuel (configs ++ configs') g =
    match generate_all fuel configs g with
    | Some (out, g1) =>
        match generate_all fuel configs' g1 with
        | Some (out', g2) => Some (out ++ out', g2)
        | None => None
        end
    | None => None
    end /\
  (forall out g', generate_all fuel configs g = Some (out, g') ->
     map fst out = map fst configs).
Proof.
  split.
  - revert g. induction configs as [|[patient_id cfg] rest IH]; intro g.
    + simpl. unfold gret.
      now destruct (generate_all fuel configs' g) as [[out' g2]|].
    + cbn [app generate_all]. unfold gbind at 1 3.
      destruct (generate_patient fuel cfg g) as [[files g1]|];
        [|reflexivity].
      unfold gbind, gret. rewrite IH.
      destruct (generate_all fuel rest g1) as [[others g2]|];
        [|reflexivity].
      now destruct (generate_all fuel configs' g2) as [[out' g3]|].
  - revert g. induction configs as [|[patient_id cfg] rest IH];
      intros g out g' H.
    + injection H as <- <-. reflexivity.
    + cbn [generate_all] in H. unfold gbind, gret in H.
      destruct (generate_patient fuel cfg g) as [[files g1]|];
        [|discriminate].
      destruct (generate_all fuel rest g1) as [[others g2]|] eqn:E;
        [|discriminate].
      injection H as <- <-. simpl. f_equal. exact (IH _ _ _ E).
Qed.

(** ** The temperature model *)

(** X15.  [simulate_temperature] returns, rounded to two decimals, a base
    temperature multiplied by the noise factor; the base is 36.5 outside
    the exercise session, and in it rises from 36.5 with the phase clock
    past 0.3 and stays at 38 from 0.8 on: there is no cooling phase. *)
Theorem temperature_model (t : Q) (pattern : string) (g : G) :
  exists base_temp,
    fst (simulate_temperature t pattern g) =
      py_round (base_temp * (1 + fst (gauss 0 0.005 g))) 2 /\
    (36.5 <= base_temp /\ base_temp <= 38) /\
    (pattern <> "exercise_session"%string -> base_temp = 36.5) /\
    (pattern = "exercise_session"%string ->
     (normalized t <= 0.3 -> base_temp = 36.5) /\
     (0.8 <= normalized t -> base_temp == 38)).
Proof.
  unfold simulate_temperature, add_noise, bind, ret.
  destruct (pattern =? "exercise_session")%string eqn:E.
  - apply String.eqb_eq in E.
    destruct (Qltb 0.3 (normalized t)) eqn:Ex.
    + apply Qltb_lt in Ex.
      exists (36.5 + Qmin 1.5 ((normalized t - 0.3) * 3)).
      destruct (gauss 0 0.005 g) as [n g1]. cbn [fst].
      split; [reflexivity|].
      destruct (Q.min_spec 1.5 ((normalized t - 0.3) * 3))
        as [[Hm Em]|[Hm Em]].
      * split; [split; lra|]. split; [congruence|]. intros _.
        split; intro H; [exfalso; lra|lra].
      * split; [split; lra|]. split; [congruence|]. intros _.
        split; intro H; [exfalso; lra|lra].
    + apply Qltb_ge in Ex. exists 36.5.
      destruct (gauss 0 0.005 g) as [n g1]. cbn [fst].
      split; [reflexivity|]. split; [split; discriminate|].
      split; [reflexivity|]. intros _.
      split; intro H; [reflexivity|exfalso; lra].
  - apply String.eqb_neq in E. exists 36.5.
    destruct (gauss 0 0.005 g) as [n g1]. cbn [fst].
    split; [reflexivity|]. split; [split; discriminate|].
    split; [reflexivity|]. intro H. congruence.
Qed.

(** ** Unix timestamps *)

Lemma py_int_comp (x y : Q) : x == y -> py_int x = py_int y.
Proof.
  intro E.
  destruct (py_int_near x) as [Hx1 Hx2]. destruct (py_int_near y) as [Hy1 Hy2].
  assert (H : inject_Z (py_int x) < inject_Z (py_int y) + 1 /\
              inject_Z (py_int y) < inject_Z (py_int x) + 1).
  { destruct (Qlt_le_dec x 0) as [H0|H0].
    - destruct (Hx2 ltac:(lra)), (Hy2 ltac:(lra)). split; lra.
    - destruct (Hx1 ltac:(lra)), (Hy1 ltac:(lra)). split; lra. }
  destruct H as [H1 H2].
  rewrite <- inject_Z_succ in H1, H2.
  rewrite <- Zlt_Qlt in H1, H2. lia.
Qed.

Lemma unix_truncation (start_us : Z) (t unit : Q) :
  (0 <= start_us)%Z -> 0 <= t -> 0 < unit ->
  let true_units := (inject_Z start_us + t * 1000000) * unit in
  let shown :=
    inject_Z (py_int ((inject_Z start_us + inject_Z (timedelta_seconds t))
                      * unit)) in
  true_units - (1 # 2) * unit - 1 < shown /\
  shown <= true_units + (1 # 2) * unit.
Proof.
  intros Hs Ht Hu. cbv zeta.
  pose proof (timedelta_seconds_nonneg t Ht) as Hk.
  rewrite Zle_Qle in Hs, Hk. change (inject_Z 0) with 0 in Hs, Hk.
  unfold timedelta_seconds in *.
  destruct (round_half_even_near (t * 1000000)) as [H1 H2].
  set (k := inject_Z (round_half_even (t * 1000000))) in *.
  destruct (py_int_near ((inject_Z start_us + k) * unit)) as [Hnear _].
  destruct Hnear as [Hn1 Hn2]; [nra|].
  split; nra.
Qed.

(** X16.  For a session inside the Unix window, the timestamp of a
    movement record is the true instant, [start_time] plus the elapsed time,
    cut to whole milliseconds, and that of a blood-oxygen record the true
    instant cut to whole seconds: it never runs ahead of the true instant
    by more than half a microsecond and trails it by less than one unit. *)
Theorem unix_timestamps_truncate (fuel : nat) (cfg : config) :
  (unix_window (datetime_add BASE_TIME (movement_offset cfg))
     (session_duration cfg) ->
   forall g g' schedule,
   movement_ticks fuel cfg g = Some (schedule, g') ->
   forall t r, In (t, r) (emitted schedule) ->
   let true_ms :=
     (inject_Z (instant_us (datetime_add BASE_TIME (movement_offset cfg)))
      + t * 1000000) * (1 # 1000) in
   true_ms - (1 # 2000) - 1 < inject_Z (ts r) /\
   inject_Z (ts r) <= true_ms + (1 # 2000)) /\
  (unix_window (datetime_add BASE_TIME (spo2_offset cfg))
     (session_duration cfg) ->
   forall g g' schedule,
   blood_oxygen_ticks fuel cfg g = Some (schedule, g') ->
   forall t r, In (t, r) (emitted schedule) ->
   let true_s :=
     (inject_Z (instant_us (datetime_add BASE_TIME (spo2_offset cfg)))
      + t * 1000000) * (1 # 1000000) in
   true_s - (1 # 2000000) - 1 < inject_Z (time r) /\
   inject_Z (time r) <= true_s + (1 # 2000000)).
Proof.
  split.
  - intros [Hwindow _] g g' schedule H.
    set (start_time := datetime_add BASE_TIME (movement_offset cfg)) in *.
    assert (Hepoch : (0 <= instant_us start_time)%Z) by lia.
    clear Hwindow.
    apply (movement_schedule _ _ _ _ _
             (fun t r =>
                ts r = py_int (dt_timestamp
                                 (datetime_add start_time
                                    (timedelta_seconds t)) * 1000))) in H.
    + apply schedule_records in H. rewrite Forall_forall in H.
      clearbody start_time.
      intros t r Hin. destruct (H _ Hin) as [H0 Ets].
      cbn [fst snd] in H0, Ets. cbv zeta.
      pose proof (unix_truncation (instant_us start_time) t (1 # 1000)
                    Hepoch H0 ltac:(reflexivity)) as Htr.
      cbv zeta in Htr.
      assert (E : dt_timestamp
                    (datetime_add start_time (timedelta_seconds t)) * 1000
                  == (inject_Z (instant_us start_time)
                      + inject_Z (timedelta_seconds t)) * (1 # 1000))
        by (rewrite dt_timestamp_add; ring).
      rewrite Ets, (py_int_comp _ _ E). destruct Htr as [Ha Hb].
      split; lra.
    + intros t g0. rewrite <- movement_sample_eq. apply movement_sample_ts.
  - intros [Hwindow _] g g' schedule H.
    set (start_time := datetime_add BASE_TIME (spo2_offset cfg)) in *.
    assert (Hepoch : (0 <= instant_us start_time)%Z) by lia.
    clear Hwindow.
    unfold blood_oxygen_ticks in H.
    eapply sample_loop_schedule with
      (P := fun t r =>
         time r = py_int (dt_timestamp
                            (datetime_add start_time (timedelta_seconds t))))
      in H.
    + destruct H as [H _].
      apply schedule_records in H. rewrite Forall_forall in H.
      fold start_time in H. clearbody start_time.
      intros t r Hin. destruct (H _ Hin) as [H0 Ets].
      cbn [fst snd] in H0, Ets. cbv zeta.
      pose proof (unix_truncation (instant_us start_time) t (1 # 1000000)
                    Hepoch H0 ltac:(reflexivity)) as Htr.
      cbv zeta in Htr.
      rewrite Ets, (py_int_comp _ _ (dt_timestamp_add _ _)).
      destruct Htr as [Ha Hb]. split; lra.
    + discriminate.
    + discriminate.
    + intros t st g0. rewrite stateless_fst. apply blood_oxygen_sample_time.
Qed.

(** ** The offset summary *)

(** X17.  For an offset of [k] whole seconds [print_offset_summary] writes
    the floor of [k / 60] and the remainder of [k] by 60, which is never
    negative: the [abs] of the temperature line changes nothing, and an
    offset of minus 8 minutes 30 seconds is written -9 and 30.  The two
    numbers always recombine to the offset. *)
Theorem offset_summary_fields (k : Z) :
  let td := (k * 1000000)%Z in
  offset_fields td = ((k / 60)%Z, (k mod 60)%Z) /\
  temperature_offset_fields td = offset_fields td /\
  (fst (offset_fields td) * 60 + snd (offset_fields td) = k)%Z /\
  (0 <= snd (offset_fields td) < 60)%Z.
Proof.
  cbv zeta.
  assert (Es : total_seconds (k * 1000000)%Z == inject_Z k).
  { unfold total_seconds. rewrite inject_Z_mult.
    change (inject_Z 1000000) with 1000000. field. }
  assert (Ef : Qfloor (total_seconds (k * 1000000)%Z / 60) = (k / 60)%Z).
  { rewrite (Zdiv_Qdiv k 60). apply Qfloor_comp. rewrite Es. reflexivity. }
  assert (E1 : py_int (py_floordiv (total_seconds (k * 1000000)%Z) 60)
               = (k / 60)%Z).
  { unfold py_floordiv. rewrite Ef. unfold py_int; simpl.
    now rewrite Z.quot_1_r. }
  assert (E2 : py_int (py_mod (total_seconds (k * 1000000)%Z) 60)
               = (k mod 60)%Z).
  { transitivity (py_int (inject_Z (k mod 60))).
    - apply py_int_comp. unfold py_mod. rewrite Ef, Es.
      rewrite Z.mod_eq by lia. unfold Z.sub.
      rewrite inject_Z_plus, inject_Z_opp, inject_Z_mult.
      change (inject_Z 60) with 60. ring.
    - unfold py_int; simpl. now rewrite Z.quot_1_r. }
  pose proof (Z.mod_pos_bound k 60 ltac:(lia)) as Hm.
  pose proof (Z.div_mod k 60 ltac:(lia)) as Hdm.
  unfold temperature_offset_fields, offset_fields. rewrite E1, E2.
  cbn [fst snd]. split; [reflexivity|]. split; [|split; [lia|exact Hm]].
  now rewrite Z.abs_eq by lia.
Qed.

End Further.

(** * The further properties on short sessions *)

(** The five ticks of the heart-rate session lie between [5 / 1.15] and
    [5 / 0.85 + 1], with room to spare for the tolerance. *)
Lemma tick_count_bounds_witness :
  exists all em,
    channel_ticks HeartRate 10 (session (5 # 3600) "morning_routine")
      heart_rate_script = Some (all, em) /\
    (List.length all = 5%nat /\ List.length em = 3%nat) /\
    5 <= inject_Z (Z.of_nat (List.length all)) * (1.15 + tolerance) /\
    (inject_Z (Z.of_nat (List.length all)) - 1) * (0.85 - tolerance) < 5.
Proof.
  eexists _, _. split; [vm_compute; reflexivity|].
  split; [split; vm_compute; reflexivity|].
  edestruct (tick_count_bounds HeartRate
               (session (5 # 3600) "morning_routine") 10 heart_rate_script)
    as (_ & H1 & H2);
    [apply session_within_limits; vm_compute; discriminate
    |vm_compute; reflexivity|].
  split; [exact H1|]. apply H2. discriminate.
Defined.

(** Under a gap of ten seconds from the start, five seconds of heart rate
    visit five ticks and give no record. *)
Lemma spanning_gap_silences_witness :
  exists all em,
    channel_ticks HeartRate 10 silenced_session ([] : script)
      = Some (all, em) /\
    List.length all = 5%nat /\ em = [].
Proof.
  eexists _, _. split; [vm_compute; reflexivity|].
  split; [vm_compute; reflexivity|].
  eapply (spanning_gap_silences HeartRate silenced_session 10
            ([] : script) _ _ (0, 10)%Z);
    [vm_compute; reflexivity|left; reflexivity|discriminate|discriminate].
Defined.

(** The record at [t = 3] of the heart-rate session is stamped 150
    microseconds late, within the 300.5 the drift allows. *)
Lemma clock_drift_error_witness :
  exists schedule t r,
    heart_rate_ticks 10 (session (5 # 3600) "morning_routine")
      heart_rate_script = Some (schedule, []) /\
    nth_error (emitted schedule) 1 = Some (t, r) /\
    t == 3 /\
    instant_us (hr_timestamp r) = 1710489603000150%Z /\
    inject_Z (instant_us (hr_timestamp r))
      <= inject_Z 1710489600000000 + t * 1000000 + (100 * t + (1 # 2)).
Proof.
  eexists _, _, _. split; [vm_compute; reflexivity|].
  split; [vm_compute; reflexivity|]. split; [vm_compute; reflexivity|].
  split; [vm_compute; reflexivity|].
  edestruct (clock_drift_error 10 (session (5 # 3600) "morning_routine")
               heart_rate_script [])
    as (_ & _ & H); [vm_compute; reflexivity| |exact H].
  right; left. vm_compute; reflexivity.
Defined.

(** The 53 records of the temperature session, the first two with a spike
    and a lift-off, are stamped five hours west of UTC at increasing
    instants and show ambient temperatures within [18, 28]. *)
Lemma temperature_records_ok_witness :
  exists data,
    generate_temperature_data 60 temperature_session temperature_script
      = Some (data, []) /\
    (List.length data = 53%nat /\
     map temp_celsius (firstn 3 data) = [42.00; 33.00; 36.50]) /\
    Forall (fun r => utcoffset_s (recorded_at r) = (-18000)%Z /\
                     18 <= ambient_temp r /\ ambient_temp r <= 28) data /\
    StronglySorted Z.lt (map (fun r => instant_us (recorded_at r)) data).
Proof.
  eexists. split; [vm_compute; reflexivity|].
  split; [split; vm_compute; reflexivity|].
  eapply (temperature_records_ok 60 temperature_session temperature_script).
  vm_compute; reflexivity.
Defined.

(** In the temperature session the ambient temperature starts at 21.0 and
    is shown as 21.0, 21.0, then 21.1 after three upward drifts. *)
Lemma ambient_temperature_drifts_slowly_witness :
  exists data,
    generate_temperature_data 60 temperature_session temperature_script
      = Some (data, []) /\
    py_round (fst (uniform 20 24 temperature_script)) 1 = 21.0 /\
    map ambient_temp (firstn 4 data) = [21.0; 21.0; 21.1; 21.1] /\
    ambient_steps 21.0 data.
Proof.
  eexists. split; [vm_compute; reflexivity|].
  split; [vm_compute; reflexivity|]. split; [vm_compute; reflexivity|].
  edestruct (ambient_temperature_drifts_slowly 60 temperature_session
               temperature_script) as [_ H]; [vm_compute; reflexivity|].
  exact H.
Defined.

(** Twenty seconds of load at rest: the scores 7, -1, 10 and 7 with the
    activities "rest" and "unknown", in the three timestamp formats. *)
Lemma load_records_ok_witness :
  exists data,
    generate_load_data 10 (session (20 # 3600) "resting") load_script
      = Some (data, []) /\
    map (fun r => (load_score r, activity_type r)) data =
      [(7, "rest"); (-1, "unknown"); (10, "rest"); (7, "rest")]%Z%string /\
    Forall (fun r =>
              load_record_ok r /\
              (activity_type r = "unknown"%string <-> load_score r = (-1)%Z))
      data.
Proof.
  eexists. split; [vm_compute; reflexivity|].
  split; [vm_compute; reflexivity|].
  eapply (load_records_ok 10 (session (20 # 3600) "resting") load_script).
  vm_compute; reflexivity.
Defined.

(** The same records: every score but the error is within [7, 13]. *)
Lemma load_score_by_pattern_witness :
  exists data,
    generate_load_data 10 (session (20 # 3600) "resting") load_script
      = Some (data, []) /\
    Forall (fun r =>
              (load_score r = (-1)%Z /\ activity_type r = "unknown"%string)
              \/
              ((7 <= load_score r <= 13)%Z /\
               activity_type r = "rest"%string)) data.
Proof.
  eexists. split; [vm_compute; reflexivity|].
  edestruct (load_score_by_pattern 10 (session (20 # 3600) "resting")
               load_script) as [_ H]; [vm_compute; reflexivity|].
  apply H; discriminate.
Defined.

(** The same records show the seconds 1710490328, ...33, ...38 and ...43. *)
Lemma load_seconds_increasing_witness :
  exists schedule,
    load_ticks 10 (session (20 # 3600) "resting") load_script
      = Some (schedule, []) /\
    map (fun r => load_second (ld_timestamp r)) (records schedule) =
      [1710490328; 1710490333; 1710490338; 1710490343]%Z /\
    StronglySorted Z.lt
      (map (fun r => load_second (ld_timestamp r)) (records schedule)).
Proof.
  eexists. split; [vm_compute; reflexivity|].
  split; [vm_compute; reflexivity|].
  edestruct (load_seconds_increasing 10 (session (20 # 3600) "resting")
               load_script) as [_ H]; [vm_compute; reflexivity|].
  exact H.
Defined.

(** One second of movement at rest: a record with a null [x] and
    [magnitude], the corrupt record, then plain readings. *)
Lemma movement_records_shape_witness :
  exists data,
    generate_movement_data 20 (session (1 # 3600) "resting")
      resting_movement_script = Some (data, []) /\
    map (fun r => (mv_x r, magnitude r)) (firstn 3 data) =
      [(None, None); (Some 999.99, Some 999.99);
       (Some 0.000, Some 9.810)] /\
    Forall (fun r =>
              movement_shape r /\
              mv_y r <> None /\ mv_z r <> None /\
              (mv_x r = None <-> magnitude r = None)) data.
Proof.
  eexists. split; [vm_compute; reflexivity|].
  split; [vm_compute; reflexivity|].
  eapply (movement_records_shape 20 (session (1 # 3600) "resting")
            resting_movement_script).
  vm_compute; reflexivity.
Defined.

(** In the same records [x] and [z] are 0, 999.99 or null, though the noise
    drawn for them at [t = 0] was 1 and 2 standard deviations. *)
Lemma resting_lateral_axes_zero_witness :
  exists data,
    generate_movement_data 20 (session (1 # 3600) "resting")
      resting_movement_script = Some (data, []) /\
    map mv_z (firstn 3 data) = [Some 0.000; Some 999.99; Some 0.000] /\
    Forall (fun r => still_axis (mv_x r) /\ still_axis (mv_z r)) data.
Proof.
  eexists. split; [vm_compute; reflexivity|].
  split; [vm_compute; reflexivity|].
  eapply (resting_lateral_axes_zero 20 (session (1 # 3600) "resting")
            resting_movement_script);
    [discriminate|discriminate|vm_compute; reflexivity].
Defined.

(** With the offsets of patient_001, 15 minutes early, and two and a half
    hours, the temperature loop runs for 9000 + 900 + 600 seconds. *)
Lemma temperature_runs_longer_witness :
  session_duration (session 2.5 "morning_routine") = 9000%Z /\
  temperature_duration (session 2.5 "morning_routine") = 10500%Z /\
  (9000 + 900 + 600 <= temperature_duration (session 2.5 "morning_routine")
   <= 9000 + 900 + 601)%Z.
Proof.
  split; [vm_compute; reflexivity|]. split; [vm_compute; reflexivity|].
  exact (temperature_runs_longer (session 2.5 "morning_routine") (-900)
           (session_within_limits 2.5 "morning_routine" ltac:(discriminate))
           ltac:(discriminate) eq_refl).
Defined.

(** The movement session, of March 2024, is inside the Unix window; its
    fourth record, at [t = 0.3], carries the millisecond 1710490043300 of
    its true instant. *)
Lemma unix_timestamps_truncate_witness :
  exists schedule t r,
    movement_ticks 20 (session (1 # 3600) "morning_routine") movement_script
      = Some (schedule, []) /\
    nth_error (emitted schedule) 3 = Some (t, r) /\
    t == 0.3 /\
    ts r = 1710490043300%Z /\
    inject_Z (ts r)
      <= (inject_Z 1710490043000000 + t * 1000000) * (1 # 1000) + (1 # 2000).
Proof.
  eexists _, _, _. split; [vm_compute; reflexivity|].
  split; [vm_compute; reflexivity|]. split; [vm_compute; reflexivity|].
  split; [vm_compute; reflexivity|].
  edestruct (proj1 (unix_timestamps_truncate 20
                      (session (1 # 3600) "morning_routine"))
               ltac:(split; vm_compute; discriminate) movement_script)
    as (_ & H); [vm_compute; reflexivity| |exact H].
  do 3 right; left. vm_compute; reflexivity.
Defined.

(** The gaps of patient_001 for heart rate, in two orders and with an empty
    gap in front, answer alike at [t = 1300], inside the first gap. *)
Lemma is_in_gap_order_free_witness :
  is_in_gap 1300 [(1200, 420); (4200, 180); (6300, 540)]%Z = true /\
  is_in_gap 1300 [(6300, 540); (1200, 420); (4200, 180)]%Z = true /\
  is_in_gap 1300 [(1300, 0); (1200, 420); (4200, 180); (6300, 540)]%Z = true.
Proof.
  destruct (is_in_gap_order_free 1300
              [(1200, 420); (4200, 180); (6300, 540)]%Z
              [(6300, 540); (1200, 420); (4200, 180)]%Z (1300, 0)%Z)
    as (Hperm & _ & Hempty).
  split; [vm_compute; reflexivity|]. split.
  - rewrite <- Hperm; [vm_compute; reflexivity|].
    apply Permutation_sym.
    apply (Permutation_cons_app [(1200, 420); (4200, 180)]%Z []).
    rewrite app_nil_r. apply Permutation_refl.
  - rewrite Hempty; [vm_compute; reflexivity|]. simpl. lia.
Defined.
